(** * Remeha Home (climate / hot-water entities): debounced commands and
      optimistic state overlay

    Shallow embedding of
      - [custom_components/remeha_home_by_chester/utils.py]     (debounce_async)
      - [custom_components/remeha_home_by_chester/climate.py]   (climate and
        hot-water entities, with debounce and update block)
      - [custom_components/remeha_home_by_chester/hot_water.py] (the stand-alone
        hot-water platform, without debounce)

    Python objects are modelled as follows.
      - a dict with string keys is a [gmap string _]; subscripting a missing
        key raises [KeyError], [.get] returns [None];
      - an exception is a value of [exn]; a coroutine body is a function
        [World -> result A * World]: the state reached when the exception is
        raised is kept, as in Python;
      - time is an integer number of seconds ([Z]);
      - an asyncio task is an entry of a pool (a list in creation order), the
        reference to it is its index; a task whose sleep is over runs its
        method in one turn of the event loop, the remote calls of the method
        resolving or failing within that turn. *)

From Stdlib Require Import ZArith QArith Lia.
From stdpp Require Import base decidable countable option list strings gmap fin_maps.

Set Warnings "-clear-no-such-hyp".

Local Open Scope Z_scope.
Local Open Scope string_scope.
Local Open Scope list_scope.

(** ** Python values *)

(** A Python [float]: a finite float is a rational number. *)
Inductive pyfloat :=
| Finite (q : Q)
| Inf (negative : bool)
| NaN.

(** The values found in the coordinator's JSON data and passed to the API. *)
Inductive value :=
| VNone
| VInt (z : Z)
| VFloat (f : pyfloat)
| VStr (s : string).

Inductive exn :=
| KeyError
| TypeError
| ValueError
| OverflowError
| NotImplementedError
| ApiError.

Inductive result (A : Type) :=
| Ok (a : A)
| Raise (e : exn).
Arguments Ok {A} a.
Arguments Raise {A} e.

#[global] Instance exn_eq_dec : EqDecision exn.
Proof. solve_decision. Defined.

(** [homeassistant.components.climate.HVACMode] (a [StrEnum]). *)
Inductive HVACMode := OFF | HEAT | COOL | HEAT_COOL | AUTO | DRY | FAN_ONLY.

(** The members of [HVACAction] the integration produces. *)
Inductive HVACAction := ACTION_HEATING | ACTION_IDLE | ACTION_OFF.

#[global] Instance HVACMode_eq_dec : EqDecision HVACMode.
Proof. solve_decision. Defined.

Definition HVACMode_to_nat (m : HVACMode) : nat :=
  match m with
  | OFF => 0 | HEAT => 1 | COOL => 2 | HEAT_COOL => 3
  | AUTO => 4 | DRY => 5 | FAN_ONLY => 6
  end%nat.

Definition HVACMode_of_nat (n : nat) : option HVACMode :=
  match n with
  | 0 => Some OFF | 1 => Some HEAT | 2 => Some COOL | 3 => Some HEAT_COOL
  | 4 => Some AUTO | 5 => Some DRY | 6 => Some FAN_ONLY | _ => None
  end%nat.

#[global] Instance HVACMode_countable : Countable HVACMode.
Proof.
  apply (inj_countable HVACMode_to_nat HVACMode_of_nat).
  intros []; reflexivity.
Defined.

(** A dict display [{k1: v1, k2: v2, ...}]: later entries win. *)
Definition py_dict `{Countable K} {V} (l : list (K * V)) : gmap K V :=
  foldl (fun m kv => <[kv.1 := kv.2]> m) ∅ l.

(** [d.get(v)] for a dict with [str] keys and an arbitrary key object [v]:
    only a [str] can be equal to a key. *)
Definition get_str {V} (d : gmap string V) (v : value) : option V :=
  match v with
  | VStr s => d !! s
  | _ => None
  end.

(** The integer a numeric key object is equal to ([1.0 == 1] in Python, and
    both hash alike), if any. *)
Definition int_key (v : value) : option Z :=
  match v with
  | VInt z => Some z
  | VFloat (Finite q) =>
      if decide (Z.rem (Qnum q) (Z.pos (Qden q)) = 0)
      then Some (Z.quot (Qnum q) (Z.pos (Qden q))) else None
  | _ => None
  end.

(** [d[v]] for a dict with [int] keys. *)
Definition subscript_int {V} (d : gmap Z V) (v : value) : result V :=
  match int_key v with
  | Some z => match d !! z with Some x => Ok x | None => Raise KeyError end
  | None => Raise KeyError
  end.

(** [int(x)] for a float [x]: truncation towards zero. *)
Definition py_int (f : pyfloat) : result Z :=
  match f with
  | Finite q => Ok (Z.quot (Qnum q) (Z.pos (Qden q)))
  | Inf _ => Raise OverflowError
  | NaN => Raise ValueError
  end.

(** [float(n)] for an int [n]. *)
Definition py_float (z : Z) : pyfloat := Finite (inject_Z z).

(** A value is a whole number: an [int], or a float without fractional part. *)
Definition is_whole (v : value) : bool :=
  match v with
  | VInt _ => true
  | VFloat (Finite q) => bool_decide (Z.rem (Qnum q) (Z.pos (Qden q)) = 0)
  | _ => false
  end.

(** ** Mode translator: the tables of climate.py *)

Module Tables.

Definition REMEHA_MODE_TO_HVAC_MODE : gmap string HVACMode :=
  py_dict [ ("Scheduling", AUTO); ("TemporaryOverride", AUTO);
            ("Manual", HEAT); ("FrostProtection", OFF) ].

Definition HVAC_MODE_TO_REMEHA_MODE : gmap HVACMode string :=
  py_dict [ (AUTO, "Scheduling"); (HEAT, "Manual"); (OFF, "FrostProtection") ].

Definition REMEHA_STATUS_TO_HVAC_ACTION : gmap string HVACAction :=
  py_dict [ ("ProducingHeat", ACTION_HEATING); ("RequestingHeat", ACTION_HEATING);
            ("Idle", ACTION_IDLE) ].

Definition PRESET_INDEX_TO_PRESET_MODE : gmap Z string :=
  py_dict [ (1, "clock_program_1"); (2, "clock_program_2"); (3, "clock_program_3") ].

Definition PRESET_MODE_TO_PRESET_INDEX : gmap string Z :=
  py_dict [ ("clock_program_1", 1); ("clock_program_2", 2); ("clock_program_3", 3) ].

Definition REMEHA_HW_MODE_TO_HVAC_MODE : gmap string HVACMode :=
  py_dict [ ("ContinuousComfort", HEAT); ("Scheduling", AUTO); ("Off", OFF) ].

Definition HVAC_MODE_TO_REMEHA_HW_MODE : gmap HVACMode string :=
  py_dict [ (AUTO, "Scheduling"); (HEAT, "ContinuousComfort"); (OFF, "Off") ].

Definition REMEHA_HW_STATUS_TO_HVAC_ACTION : gmap string HVACAction :=
  py_dict [ ("ProducingHeat", ACTION_HEATING); ("RequestingHeat", ACTION_HEATING);
            ("Idle", ACTION_IDLE) ].

Definition PRESET_INDEX_TO_HW_PRESET_MODE : gmap Z string :=
  py_dict [ (1, "Scheduling program") ].

Definition HW_PRESET_MODE_TO_PRESET_INDEX : gmap string Z :=
  py_dict [ ("Scheduling program", 1) ].

End Tables.

(** The tables of hot_water.py (same names in the source, other contents). *)
Module LegacyTables.

Definition REMEHA_MODE_TO_HVAC_MODE : gmap string HVACMode :=
  py_dict [ ("Manual", HEAT); ("Scheduling", AUTO); ("FrostProtection", OFF) ].

Definition HVAC_MODE_TO_REMEHA_MODE : gmap HVACMode string :=
  py_dict [ (AUTO, "Scheduling"); (HEAT, "Manual"); (OFF, "FrostProtection") ].

Definition REMEHA_STATUS_TO_HVAC_ACTION : gmap string HVACAction :=
  py_dict [ ("ProducingHeat", ACTION_HEATING); ("RequestingHeat", ACTION_HEATING);
            ("Idle", ACTION_IDLE) ].

Definition PRESET_INDEX_TO_PRESET_MODE : gmap Z string :=
  py_dict [ (1, "Scheduling program") ].

Definition PRESET_MODE_TO_PRESET_INDEX : gmap string Z :=
  py_dict [ ("Scheduling program", 1) ].

End LegacyTables.

(** ** The remote API, the entity and its coordinator *)

(** One constructor per operation of [RemehaHomeAPI] the entities call; the
    first argument is the zone id. *)
Inductive api_call :=
| async_set_temporary_override (zone : string) (temperature : value)
| async_set_manual (zone : string) (setpoint : value)
| async_set_schedule (zone : string) (program : value)
| async_set_off (zone : string)
| async_activate_heating_time_program (zone : string) (program : value)
| async_hw_set_comfort_setpoint (zone : string) (temperature : value)
| async_hw_set_continuous_comfort (zone : string)
| async_hw_set_schedule (zone : string)
| async_hw_set_off (zone : string).

(** The API client is an external collaborator: a call resolves or fails, and
    which of the two may depend on the calls made so far. *)
Class RemehaHomeAPI := api_ok : list api_call -> api_call -> bool.

(** A call of a debounced method: the method and its arguments. *)
Inductive job :=
| Climate_set_temperature (temperature : value)
| Climate_set_hvac_mode (hvac_mode : HVACMode)
| Climate_activate_heating_time_program
    (target_preset : Z) (previous_hvac_mode : option HVACMode)
| HotWater_set_continuous_comfort_with_temperature (temperature : value)
| HotWater_set_hvac_mode (hvac_mode : HVACMode)
| HotWater_set_schedule.

(** [method.__name__] *)
Definition method_name (j : job) : string :=
  match j with
  | Climate_set_temperature _ => "set_temperature"
  | Climate_set_hvac_mode _ => "set_hvac_mode"
  | Climate_activate_heating_time_program _ _ => "activate_heating_time_program"
  | HotWater_set_continuous_comfort_with_temperature _ =>
      "set_continuous_comfort_with_temperature"
  | HotWater_set_hvac_mode _ => "set_hvac_mode"
  | HotWater_set_schedule => "set_schedule"
  end.

(** An asyncio task running [delayed()]: asleep until [due], cancelled, or
    finished with the outcome of the method. *)
Inductive task_status :=
| Sleeping
| Cancelled
| Finished (outcome : result unit).

Record task := Task {
  t_key : string;
  t_job : job;
  t_due : Z;
  t_status : task_status;
}.

(** Modelled from the spec: [coordinator.get_by_id(zone_id)] is defined in
    coordinator.py, which is not among the sources; the specification has it
    look the zone up in the poller's cache, and the entities write into what
    it returns. The field [data] is that dict, the same object at every read
    of [self._data].

    The record is one entity, the zone dict it shares with the coordinator,
    and what the outside world has seen of it. *)
Record World := mkWorld {
  zone_id : string;                      (* climate_zone_id / hot_water_zone_id *)
  data : gmap string value;              (* coordinator.get_by_id(zone_id) *)
  debounce_tasks : gmap string (option nat);   (* self._debounce_tasks *)
  pool : list task;                      (* every task created so far *)
  now : Z;                               (* the event loop's clock *)
  api_log : list api_call;               (* remote calls made, oldest first *)
  block_until : option Z;                (* the coordinator's update block *)
  ha_state_writes : nat;                 (* calls of async_write_ha_state *)
  refresh_requests : nat;                (* calls of async_request_refresh *)
}.

Definition with_data (d : gmap string value) (w : World) : World :=
  mkWorld (zone_id w) d (debounce_tasks w) (pool w) (now w) (api_log w)
          (block_until w) (ha_state_writes w) (refresh_requests w).
Definition with_debounce (t : gmap string (option nat)) (p : list task) (w : World) : World :=
  mkWorld (zone_id w) (data w) t p (now w) (api_log w)
          (block_until w) (ha_state_writes w) (refresh_requests w).
Definition with_now (t : Z) (w : World) : World :=
  mkWorld (zone_id w) (data w) (debounce_tasks w) (pool w) t (api_log w)
          (block_until w) (ha_state_writes w) (refresh_requests w).
Definition with_api_log (l : list api_call) (w : World) : World :=
  mkWorld (zone_id w) (data w) (debounce_tasks w) (pool w) (now w) l
          (block_until w) (ha_state_writes w) (refresh_requests w).
Definition with_block_until (t : option Z) (w : World) : World :=
  mkWorld (zone_id w) (data w) (debounce_tasks w) (pool w) (now w) (api_log w)
          t (ha_state_writes w) (refresh_requests w).
Definition with_ha_state_writes (n : nat) (w : World) : World :=
  mkWorld (zone_id w) (data w) (debounce_tasks w) (pool w) (now w) (api_log w)
          (block_until w) n (refresh_requests w).
Definition with_refresh_requests (n : nat) (w : World) : World :=
  mkWorld (zone_id w) (data w) (debounce_tasks w) (pool w) (now w) (api_log w)
          (block_until w) (ha_state_writes w) n.

(** A freshly constructed entity ([__init__] sets [_debounce_tasks = {}]). *)
Definition new_entity (zone : string) (d : gmap string value) (t : Z) : World :=
  mkWorld zone d ∅ [] t [] None 0 0.

(** ** Coroutine bodies: state and exceptions *)

Definition M (A : Type) : Type := World -> result A * World.

#[global] Instance M_ret : MRet M := fun A a w => (Ok a, w).
#[global] Instance M_bind : MBind M := fun A B f m w =>
  match m w with
  | (Ok a, w') => f a w'
  | (Raise e, w') => (Raise e, w')
  end.

Definition raise {A} (e : exn) : M A := fun w => (Raise e, w).
(** A pure expression that may raise. *)
Definition lift {A} (r : result A) : M A := fun w => (r, w).
Definition pass : M unit := mret tt.

(** [self._data[key]] *)
Definition subscript (key : string) : M value := fun w =>
  match data w !! key with
  | Some v => (Ok v, w)
  | None => (Raise KeyError, w)
  end.

(** [self._data[key] = v] *)
Definition assign (key : string) (v : value) : M unit := fun w =>
  (Ok tt, with_data (<[key := v]> (data w)) w).

(** [table.get(k)] as a value: a missing key gives [None]. *)
Definition str_or_none (o : option string) : value :=
  match o with Some s => VStr s | None => VNone end.

(** [await self.api.<operation>(...)]: the call is made, then resolves or
    raises. *)
Definition await_api `{RemehaHomeAPI} (c : api_call) : M unit := fun w =>
  let w' := with_api_log (api_log w ++ [c]) w in
  if api_ok (api_log w) c then (Ok tt, w') else (Raise ApiError, w').

Definition self_zone_id : M string := fun w => (Ok (zone_id w), w).

(** [self.async_write_ha_state()]: observers are notified. *)
Definition async_write_ha_state : M unit := fun w =>
  (Ok tt, with_ha_state_writes (S (ha_state_writes w)) w).

(** [await self.coordinator.async_request_refresh()]: an out-of-band poll is
    requested from the poller. *)
Definition async_request_refresh : M unit := fun w =>
  (Ok tt, with_refresh_requests (S (refresh_requests w)) w).

(** Modelled from the spec: [coordinator.trigger_update_block(duration)] is
    defined in coordinator.py, which is not among the sources; the
    specification has it set the suppression deadline to now + duration. *)
Definition trigger_update_block (duration : Z) : M unit := fun w =>
  (Ok tt, with_block_until (Some (now w + duration)) w).

(** Modelled from the spec: the periodic poller (coordinator.py) does not
    apply a fetched snapshot of the zone while the suppression deadline has
    not passed; the deadline has passed once now > deadline. *)
Definition apply_poll (snapshot : gmap string value) (w : World) : World :=
  match block_until w with
  | Some deadline => if decide (now w <= deadline) then w else with_data snapshot w
  | None => with_data snapshot w
  end.

(** Applying an enum member as a function, as in [HVACMode.AUTO()]: the
    members of a [StrEnum] are strings, which are not callable. *)
Definition call_member (m : HVACMode) : M HVACMode := raise TypeError.

(** ** utils.py: debounce_async *)

Definition task_done (p : list task) (i : nat) : bool :=
  match p !! i with
  | Some t => match t_status t with Sleeping => false | _ => true end
  | None => true
  end.

(** [task.cancel()]: a task that has not finished goes to [Cancelled]; its
    method is never called. *)
Definition cancel (i : nat) (p : list task) : list task :=
  match p !! i with
  | Some t =>
      match t_status t with
      | Sleeping => <[i := Task (t_key t) (t_job t) (t_due t) Cancelled]> p
      | _ => p
      end
  | None => p
  end.

(** The [wrapper] the decorator returns, applied to the call [j] of the
    decorated method. The new task sleeps [delay_seconds] from now. Both
    classes set [self._debounce_tasks = {}] in [__init__], so the [hasattr]
    test never creates the table. *)
Definition debounce_async (delay_seconds : Z) (j : job) : M unit := fun w =>
  let key := method_name j in
  (* self._debounce_tasks.setdefault(key, None) *)
  let tasks :=
    match debounce_tasks w !! key with
    | Some _ => debounce_tasks w
    | None => <[key := None]> (debounce_tasks w)
    end in
  (* prev_task = self._debounce_tasks.get(key) *)
  let prev_task := default None (tasks !! key) in
  (* if prev_task and not prev_task.done(): prev_task.cancel() *)
  let p :=
    match prev_task with
    | Some i => if negb (task_done (pool w) i) then cancel i (pool w) else pool w
    | None => pool w
    end in
  (* task = asyncio.create_task(delayed()); self._debounce_tasks[key] = task *)
  let task := length p in
  (Ok tt,
   with_debounce (<[key := Some task]> tasks)
                 (p ++ [Task key j (now w + delay_seconds) Sleeping]) w).

(** ** climate.py: RemehaHomeClimateEntity *)

Module Climate.
Import Tables.

(** [hvac_mode] property *)
Definition hvac_mode : M (option HVACMode) :=
  mode ← subscript "zoneMode";
  mret (get_str REMEHA_MODE_TO_HVAC_MODE mode).

Definition hvac_modes : list HVACMode := [OFF; HEAT; AUTO].

(** [target_temperature] property *)
Definition target_temperature : M value :=
  m ← hvac_mode;
  if decide (m = Some OFF) then mret VNone else subscript "setPoint".

(** [hvac_action] property *)
Definition hvac_action : M (option HVACAction) :=
  m ← hvac_mode;
  if decide (m = Some OFF) then mret (Some ACTION_OFF)
  else
    action ← subscript "activeComfortDemand";
    mret (get_str REMEHA_STATUS_TO_HVAC_ACTION action).

(** [preset_mode] property *)
Definition preset_mode : M string :=
  m ← hvac_mode;
  if decide (m = Some OFF) then mret "anti_frost"
  else
    m ← hvac_mode;
    if decide (m = Some HEAT) then mret "manual"
    else
      n ← subscript "activeHeatingClimateTimeProgramNumber";
      lift (subscript_int PRESET_INDEX_TO_PRESET_MODE n).

Section Methods.
Context `{RemehaHomeAPI}.

(** The methods under [@debounce_async(5)], as written. *)
Definition set_temperature_wrapped (temperature : value) : M unit :=
  m ← hvac_mode;
  if decide (m = Some AUTO) then
    z ← self_zone_id; await_api (async_set_temporary_override z temperature)
  else
    m ← hvac_mode;
    if decide (m = Some HEAT) then
      z ← self_zone_id; await_api (async_set_manual z temperature)
    else pass.

Definition set_hvac_mode_wrapped (hvac_mode : HVACMode) : M unit :=
  if decide (hvac_mode = AUTO) then
    z ← self_zone_id;
    n ← subscript "activeHeatingClimateTimeProgramNumber";
    await_api (async_set_schedule z n)
  else if decide (hvac_mode = HEAT) then
    z ← self_zone_id;
    t ← subscript "setPoint";
    await_api (async_set_manual z t)
  else if decide (hvac_mode = OFF) then
    z ← self_zone_id; await_api (async_set_off z)
  else pass.

Definition activate_heating_time_program_wrapped
    (target_preset : Z) (previous_hvac_mode : option HVACMode) : M unit :=
  z ← self_zone_id;
  await_api (async_activate_heating_time_program z (VInt target_preset));;
  (* if previous_hvac_mode != HVACMode.AUTO(): *)
  auto ← call_member AUTO;
  if decide (previous_hvac_mode ≠ Some auto) then
    z ← self_zone_id; await_api (async_set_schedule z (VInt target_preset))
  else pass.

End Methods.

(** The decorated methods: what [self.set_temperature(...)] etc. call. *)
Definition set_temperature (temperature : value) : M unit :=
  debounce_async 5 (Climate_set_temperature temperature).
Definition set_hvac_mode (hvac_mode : HVACMode) : M unit :=
  debounce_async 5 (Climate_set_hvac_mode hvac_mode).
Definition activate_heating_time_program
    (target_preset : Z) (previous_hvac_mode : option HVACMode) : M unit :=
  debounce_async 5
    (Climate_activate_heating_time_program target_preset previous_hvac_mode).

(** [kwargs.get(ATTR_TEMPERATURE)] is [None] or a float. *)
Definition async_set_temperature (temperature : option pyfloat) : M unit :=
  match temperature with
  | Some temperature =>
      m ← hvac_mode;
      if decide (m = Some OFF) then pass
      else
        set_temperature (VFloat temperature);;
        trigger_update_block 60;;
        async_request_refresh
  | None => pass
  end.

Definition async_set_hvac_mode (hvac_mode : HVACMode) : M unit :=
  if decide (hvac_mode ∉ hvac_modes) then raise NotImplementedError
  else
    assign "zoneMode" (str_or_none (HVAC_MODE_TO_REMEHA_MODE !! hvac_mode));;
    async_write_ha_state;;
    set_hvac_mode hvac_mode;;
    trigger_update_block 60;;
    async_request_refresh.

Definition async_set_preset_mode (preset_mode : string) : M unit :=
  match PRESET_MODE_TO_PRESET_INDEX !! preset_mode with
  | None => pass
  | Some target_preset =>
      previous_hvac_mode ← hvac_mode;
      assign "zoneMode" (str_or_none (HVAC_MODE_TO_REMEHA_MODE !! AUTO));;
      assign "activeHeatingClimateTimeProgramNumber" (VInt target_preset);;
      async_write_ha_state;;
      activate_heating_time_program target_preset previous_hvac_mode;;
      trigger_update_block 60;;
      async_request_refresh
  end.

End Climate.

(** ** climate.py: RemehaHomeHotWaterEntity *)

Module HotWater.
Import Tables.

Definition hvac_mode : M (option HVACMode) :=
  mode ← subscript "dhwZoneMode";
  mret (get_str REMEHA_HW_MODE_TO_HVAC_MODE mode).

Definition hvac_modes : list HVACMode := [OFF; HEAT; AUTO].

Definition target_temperature : M value :=
  m ← hvac_mode;
  if decide (m = Some AUTO) then mret VNone
  else
    m ← hvac_mode;
    if decide (m = Some OFF) then mret VNone else subscript "targetSetpoint".

Definition hvac_action : M (option HVACAction) :=
  m ← hvac_mode;
  if decide (m = Some OFF) then mret (Some ACTION_OFF)
  else
    action ← subscript "dhwStatus";
    mret (get_str REMEHA_HW_STATUS_TO_HVAC_ACTION action).

Definition preset_mode : M string :=
  m ← hvac_mode;
  if decide (m = Some OFF) then mret "anti_frost"
  else
    m ← hvac_mode;
    if decide (m = Some HEAT) then mret "manual"
    else
      n ← subscript "activeDwhTimeProgramNumber";
      lift (subscript_int PRESET_INDEX_TO_HW_PRESET_MODE n).

Section Methods.
Context `{RemehaHomeAPI}.

Definition set_continuous_comfort_with_temperature_wrapped
    (temperature : value) : M unit :=
  z ← self_zone_id;
  await_api (async_hw_set_comfort_setpoint z temperature);;
  z ← self_zone_id;
  await_api (async_hw_set_continuous_comfort z).

Definition set_hvac_mode_wrapped (hvac_mode : HVACMode) : M unit :=
  if decide (hvac_mode = AUTO) then
    z ← self_zone_id; await_api (async_hw_set_schedule z)
  else if decide (hvac_mode = HEAT) then
    z ← self_zone_id; await_api (async_hw_set_continuous_comfort z)
  else if decide (hvac_mode = OFF) then
    z ← self_zone_id; await_api (async_hw_set_off z)
  else pass.

Definition set_schedule_wrapped : M unit :=
  z ← self_zone_id; await_api (async_hw_set_schedule z).

End Methods.

Definition set_continuous_comfort_with_temperature (temperature : value) : M unit :=
  debounce_async 5 (HotWater_set_continuous_comfort_with_temperature temperature).
Definition set_hvac_mode (hvac_mode : HVACMode) : M unit :=
  debounce_async 5 (HotWater_set_hvac_mode hvac_mode).
Definition set_schedule : M unit :=
  debounce_async 5 HotWater_set_schedule.

Definition async_set_temperature (temperature : option pyfloat) : M unit :=
  match temperature with
  | Some temperature =>
      (* temperature = int(temperature) *)
      temperature ← lift (py_int temperature);
      m ← hvac_mode;
      if decide (m = Some HEAT) then
        set_continuous_comfort_with_temperature (VInt temperature);;
        trigger_update_block 60;;
        assign "targetSetpoint" (VFloat (py_float temperature));;
        assign "dhwZoneMode" (str_or_none (HVAC_MODE_TO_REMEHA_HW_MODE !! HEAT));;
        async_write_ha_state;;
        async_request_refresh
      else pass
  | None => pass
  end.

Definition async_set_hvac_mode (hvac_mode : HVACMode) : M unit :=
  if decide (hvac_mode ∉ hvac_modes) then raise NotImplementedError
  else
    assign "dhwZoneMode" (str_or_none (HVAC_MODE_TO_REMEHA_HW_MODE !! hvac_mode));;
    (if decide (hvac_mode = HEAT) then
       v ← subscript "comfortSetPoint"; assign "targetSetpoint" v
     else if decide (hvac_mode = OFF) then
       assign "targetSetpoint" (VFloat (Finite 10))
     else pass);;
    set_hvac_mode hvac_mode;;
    async_write_ha_state;;
    trigger_update_block 60;;
    async_request_refresh.

Definition async_set_preset_mode (preset_mode : string) : M unit :=
  match HW_PRESET_MODE_TO_PRESET_INDEX !! preset_mode with
  | None => pass
  | Some target_preset =>
      previous_hvac_mode ← hvac_mode;
      (if decide (previous_hvac_mode ≠ Some AUTO) then
         assign "dhwZoneMode" (str_or_none (HVAC_MODE_TO_REMEHA_HW_MODE !! AUTO));;
         assign "activeDwhTimeProgramNumber" (VInt target_preset);;
         async_write_ha_state;;
         set_schedule;;
         trigger_update_block 60
       else pass);;
      async_request_refresh
  end.

End HotWater.

(** ** hot_water.py: RemehaHomeHotWaterEntity (no debounce, no update block) *)

Module LegacyHotWater.
Import LegacyTables.

Definition hvac_mode : M (option HVACMode) :=
  mode ← subscript "dhwZoneMode";
  mret (get_str REMEHA_MODE_TO_HVAC_MODE mode).

Definition hvac_modes : list HVACMode := [OFF; HEAT; AUTO].

Definition hvac_action : M (option HVACAction) :=
  m ← hvac_mode;
  if decide (m = Some OFF) then mret (Some ACTION_OFF)
  else
    action ← subscript "dhwStatus";
    mret (get_str REMEHA_STATUS_TO_HVAC_ACTION action).

Definition preset_mode : M string :=
  m ← hvac_mode;
  if decide (m = Some OFF) then mret "anti_frost"
  else
    m ← hvac_mode;
    if decide (m = Some HEAT) then mret "manual"
    else
      n ← subscript "activeDwhTimeProgramNumber";
      lift (subscript_int PRESET_INDEX_TO_PRESET_MODE n).

Section Methods.
Context `{RemehaHomeAPI}.

Definition async_set_temperature (temperature : option pyfloat) : M unit :=
  match temperature with
  | Some temperature =>
      m ← hvac_mode;
      if decide (m = Some AUTO) then pass
      else
        m ← hvac_mode;
        if decide (m = Some HEAT) then
          z ← self_zone_id;
          await_api (async_hw_set_comfort_setpoint z (VFloat temperature));;
          z ← self_zone_id;
          await_api (async_hw_set_continuous_comfort z);;
          async_request_refresh
        else
          m ← hvac_mode;
          if decide (m = Some OFF) then pass
          else async_request_refresh
  | None => pass
  end.

Definition async_set_hvac_mode (hvac_mode : HVACMode) : M unit :=
  assign "dhwZoneMode" (str_or_none (HVAC_MODE_TO_REMEHA_MODE !! hvac_mode));;
  async_write_ha_state;;
  (if decide (hvac_mode = AUTO) then
     z ← self_zone_id;
     n ← subscript "activeDwhTimeProgramNumber";
     await_api (async_set_schedule z n)
   else if decide (hvac_mode = HEAT) then
     z ← self_zone_id; await_api (async_hw_set_continuous_comfort z)
   else if decide (hvac_mode = OFF) then
     z ← self_zone_id; await_api (async_hw_set_off z)
   else raise NotImplementedError);;
  async_request_refresh.

Definition async_set_preset_mode (preset_mode : string) : M unit :=
  match PRESET_MODE_TO_PRESET_INDEX !! preset_mode with
  | None => pass
  | Some target_preset =>
      previous_hvac_mode ← hvac_mode;
      (if decide (previous_hvac_mode ≠ Some AUTO) then
         assign "dhwZoneMode" (str_or_none (HVAC_MODE_TO_REMEHA_MODE !! AUTO));;
         assign "activeDwhTimeProgramNumber" (VInt target_preset);;
         async_write_ha_state;;
         z ← self_zone_id; await_api (async_hw_set_schedule z)
       else pass);;
      async_request_refresh
  end.

End Methods.
End LegacyHotWater.

(** ** The event loop *)

Definition set_status (i : nat) (st : task_status) (p : list task) : list task :=
  match p !! i with
  | Some t => <[i := Task (t_key t) (t_job t) (t_due t) st]> p
  | None => p
  end.

(** What the control surface can do to an entity of climate.py: the three
    writes of either class, or a direct call of a decorated method. *)
Inductive command :=
| climate_set_temperature (temperature : option pyfloat)
| climate_set_hvac_mode (hvac_mode : HVACMode)
| climate_set_preset_mode (preset_mode : string)
| hot_water_set_temperature (temperature : option pyfloat)
| hot_water_set_hvac_mode (hvac_mode : HVACMode)
| hot_water_set_preset_mode (preset_mode : string)
| call_debounced (j : job).

Definition execute (c : command) : M unit :=
  match c with
  | climate_set_temperature t => Climate.async_set_temperature t
  | climate_set_hvac_mode m => Climate.async_set_hvac_mode m
  | climate_set_preset_mode p => Climate.async_set_preset_mode p
  | hot_water_set_temperature t => HotWater.async_set_temperature t
  | hot_water_set_hvac_mode m => HotWater.async_set_hvac_mode m
  | hot_water_set_preset_mode p => HotWater.async_set_preset_mode p
  | call_debounced j => debounce_async 5 j
  end.

Inductive event :=
| Command (c : command)                       (* a call from the control surface *)
| Elapse (dt : N)                             (* dt seconds pass *)
| Poll (snapshot : gmap string value).        (* the poller fetched the zone *)

Section EventLoop.
Context `{RemehaHomeAPI}.

(** The method a task calls once its sleep is over. *)
Definition method_body (j : job) : M unit :=
  match j with
  | Climate_set_temperature t => Climate.set_temperature_wrapped t
  | Climate_set_hvac_mode m => Climate.set_hvac_mode_wrapped m
  | Climate_activate_heating_time_program n prev =>
      Climate.activate_heating_time_program_wrapped n prev
  | HotWater_set_continuous_comfort_with_temperature t =>
      HotWater.set_continuous_comfort_with_temperature_wrapped t
  | HotWater_set_hvac_mode m => HotWater.set_hvac_mode_wrapped m
  | HotWater_set_schedule => HotWater.set_schedule_wrapped
  end.

(** The rest of [delayed()] for task [i], run when its sleep is over: the
    method is awaited; remote calls resolve or fail within the turn. Only
    [CancelledError] is caught, any other exception ends the task. A task is
    therefore never seen between the end of its sleep and the end of its
    method: in utils.py a task awaiting its remote call is not [done()], and
    a submission of the same method made at that moment cancels it; no
    property below speaks about such a moment. *)
Definition wake (i : nat) (w : World) : World :=
  match pool w !! i with
  | Some t =>
      match t_status t with
      | Sleeping =>
          if decide (t_due t <= now w) then
            let '(r, w') := method_body (t_job t) w in
            with_debounce (debounce_tasks w') (set_status i (Finished r) (pool w')) w'
          else w
      | _ => w
      end
  | None => w
  end.

(** Time advances to [t]: every sleeping task that is due runs, oldest first
    (all delays are equal, so creation order is the order of the timers). *)
Definition run_until (t : Z) (w : World) : World :=
  foldl (fun w i => wake i w) (with_now t w) (seq 0 (length (pool w))).

Definition elapse (dt : Z) (w : World) : World := run_until (now w + dt) w.

Definition step (e : event) (w : World) : World :=
  match e with
  | Command c => (execute c w).2
  | Elapse dt => elapse (Z.of_N dt) w
  | Poll snapshot => apply_poll snapshot w
  end.

Definition run (es : list event) (w : World) : World :=
  foldl (fun w e => step e w) w es.

End EventLoop.

(** The number of sleeping (uncancelled, unfired) tasks of a key. *)
Definition is_sleeping (t : task) : bool :=
  match t_status t with Sleeping => true | _ => false end.

Definition live (key : string) (t : task) : bool :=
  bool_decide (t_key t = key) && is_sleeping t.

Definition live_count (key : string) (w : World) : nat :=
  length (filter (fun t => live key t = true) (pool w)).

(** Two API clients for concrete runs. *)
Definition api_always_ok : RemehaHomeAPI := fun _ _ => true.
Definition api_always_failing : RemehaHomeAPI := fun _ _ => false.

(** ** The presets an entity offers *)

Module Presets.

(** The entries of the preset tables, in the order of the dict displays. *)
Definition PRESET_INDEX_TO_PRESET_MODE_items : list (Z * string) :=
  [ (1, "clock_program_1"); (2, "clock_program_2"); (3, "clock_program_3") ].

Definition PRESET_INDEX_TO_HW_PRESET_MODE_items : list (Z * string) :=
  [ (1, "Scheduling program") ].

(** [preset_modes] property of RemehaHomeClimateEntity:
    [list(PRESET_INDEX_TO_PRESET_MODE.values())], the values in insertion
    order. *)
Definition climate_preset_modes : list string :=
  PRESET_INDEX_TO_PRESET_MODE_items.*2.

(** [preset_modes] property of both hot-water classes. *)
Definition hot_water_preset_modes : list string :=
  PRESET_INDEX_TO_HW_PRESET_MODE_items.*2.

End Presets.

(** ** hot_water.py: the target temperature *)

Module LegacyReads.

(** [target_temperature] property of hot_water.py *)
Definition target_temperature : M value :=
  m ← LegacyHotWater.hvac_mode;
  if decide (m = Some OFF) then mret VNone else subscript "targetSetpoint".

End LegacyReads.

(** ** async_setup_entry *)

Set Warnings "-register-all".

(** The coordinator's data as parsed from JSON. An object keeps its entries
    in order; a later entry of the same key replaces an earlier one. *)
Inductive json :=
| JNull
| JBool (b : bool)
| JInt (z : Z)
| JFloat (f : pyfloat)
| JStr (s : string)
| JList (l : list json)
| JObject (d : list (string * json)).

(** [v[key]] for a [str] key: only a dict can be subscripted with it. *)
Definition py_getitem (v : json) (key : string) : result json :=
  match v with
  | JObject d =>
      match list_find (fun kv => kv.1 = key) (reverse d) with
      | Some (_, kv) => Ok kv.2
      | None => Raise KeyError
      end
  | _ => Raise TypeError
  end.

(** The items [for x in v] goes through: the elements of a list, the keys of
    a dict, the characters of a string; anything else is not iterable. *)
Definition py_iter (v : json) : result (list json) :=
  match v with
  | JList l => Ok l
  | JObject d => Ok (JStr <$> remove_dups (d.*1))
  | JStr s => Ok ((fun c => JStr (String c EmptyString)) <$> String.list_ascii_of_string s)
  | _ => Raise TypeError
  end.

#[global] Instance result_ret : MRet result := fun A a => Ok a.
#[global] Instance result_bind : MBind result := fun A B f r =>
  match r with
  | Ok a => f a
  | Raise e => Raise e
  end.

(** [for x in items: acc = body(acc, x)], stopping at the first exception. *)
Fixpoint for_each {A B} (body : B -> A -> result B) (acc : B) (items : list A)
    : result B :=
  match items with
  | [] => Ok acc
  | x :: items => acc ← body acc x; for_each body acc items
  end.

Inductive entity_class := RemehaHomeClimateEntity | RemehaHomeHotWaterEntity.

(** What [__init__] fixes of an entity: its class, zone id and unique id (the
    task table starts empty, see [new_entity]). *)
Record entity := Entity {
  e_class : entity_class;
  e_zone_id : string;
  e_unique_id : string;
}.

Section Setup.
(** [DOMAIN] comes from const.py, which is not among the sources. *)
Variable DOMAIN : string.

(** [__init__] of either class: [self._attr_unique_id =
    "_".join([DOMAIN, zone_id])]; [str.join] accepts only strings. *)
Definition init_entity (cls : entity_class) (zone_id : json) : result entity :=
  match zone_id with
  | JStr s => Ok (Entity cls s (String.append DOMAIN (String.append "_" s)))
  | _ => Raise TypeError
  end.

(** The entities one zone list of an appliance adds. *)
Definition append_zones (cls : entity_class) (list_key id_key : string)
    (entities : list entity) (appliance : json) : result (list entity) :=
  zones ← py_getitem appliance list_key;
  zones ← py_iter zones;
  for_each (fun entities zone =>
              zone_id ← py_getitem zone id_key;
              e ← init_entity cls zone_id;
              mret (entities ++ [e]))
           entities zones.

(** [async_setup_entry] of climate.py, from [entities = []] on, applied to
    [coordinator.data]: the result is the list handed to
    [async_add_entities], which is not called when an exception is raised. *)
Definition async_setup_entry (coordinator_data : json) : result (list entity) :=
  appliances ← py_getitem coordinator_data "appliances";
  appliances ← py_iter appliances;
  for_each (fun entities appliance =>
              entities ← append_zones RemehaHomeClimateEntity
                           "climateZones" "climateZoneId" entities appliance;
              append_zones RemehaHomeHotWaterEntity
                           "hotWaterZones" "hotWaterZoneId" entities appliance)
           [] appliances.

(** [async_setup_entry] of hot_water.py. *)
Definition legacy_async_setup_entry (coordinator_data : json) : result (list entity) :=
  appliances ← py_getitem coordinator_data "appliances";
  appliances ← py_iter appliances;
  for_each (append_zones RemehaHomeHotWaterEntity "hotWaterZones" "hotWaterZoneId")
           [] appliances.

End Setup.

(** ** Vocabulary of the properties *)

(** *** The debounce mechanism *)

(** The task the wrapper finds in the table for [key], if any. *)
Definition prev_task (key : string) (w : World) : option nat :=
  match debounce_tasks w !! key with
  | Some (Some i) => Some i
  | _ => None
  end.

(** The pool once the wrapper has cancelled the previous task of [key]. *)
Definition pool_after_cancel (key : string) (w : World) : list task :=
  match prev_task key w with
  | Some i => cancel i (pool w)
  | None => pool w
  end.

(** The world right after one call of the decorated method [j]. *)
Definition after_submit (j : job) (w : World) : World := (debounce_async 5 j w).2.

(** The invariant of the task table: a sleeping task is the one its key's
    table entry refers to. *)
Definition slots_ok (tasks : gmap string (option nat)) (p : list task) : Prop :=
  forall i t, p !! i = Some t -> is_sleeping t = true ->
              tasks !! t_key t = Some (Some i).

(** No task of the pool is asleep. *)
Definition quiescent (p : list task) : Prop :=
  Forall (fun t => is_sleeping t = false) p.

(** The state of the pool during a burst on one key that started from the
    pool [b]: [n] superseded tasks, all cancelled, then the task of the latest
    submission [j], asleep until [due], which the table refers to. *)
Definition pending (b : list task) (n : nat) (j : job) (due : Z) (w : World) : Prop :=
  exists cs,
    pool w = b ++ cs ++ [Task (method_name j) j due Sleeping]
    /\ length cs = n
    /\ Forall (fun t => t_status t = Cancelled) cs
    /\ debounce_tasks w !! method_name j = Some (Some (length b + n)%nat).

(** *** Bursts of writes *)

(** A burst of writes: the first one, then each further one after its gap. *)
Definition burst (write : pyfloat -> command) (first : pyfloat)
    (rest : list (N * pyfloat)) : list event :=
  Command (write first)
    :: flat_map (fun gt => [Elapse gt.1; Command (write gt.2)]) rest.

(** The temperature of the last write of a burst. *)
Definition last_temperature (first : pyfloat) (rest : list (N * pyfloat)) : pyfloat :=
  default first (last (map snd rest)).

(** The command [c] acts on the debounce mechanism as one call of the
    decorated method [j], and makes no remote call itself. *)
Definition submits (c : command) (j : job) (w : World) : Prop :=
  let w' := (execute c w).2 in
  pool w' = pool (after_submit j w)
  /\ debounce_tasks w' = debounce_tasks (after_submit j w)
  /\ now w' = now w /\ api_log w' = api_log w /\ zone_id w' = zone_id w.

(** The remote call by which a climate zone receives a setpoint: a temporary
    override in Auto, the manual setpoint in Heat. *)
Definition setpoint_call (m : HVACMode) (zone : string) (v : value) : api_call :=
  match m with
  | AUTO => async_set_temporary_override zone v
  | _ => async_set_manual zone v
  end.

(** A float other than an infinity or NaN. *)
Definition is_finite (t : pyfloat) : Prop :=
  match t with Finite _ => True | _ => False end.

(** [int(t)] of a finite float. *)
Definition truncated (t : pyfloat) : Z :=
  match py_int t with Ok n => n | Raise _ => 0 end.

(** *** Remote calls *)

(** How the remote call [c], made after the calls [log], ends. *)
Definition outcome `{RemehaHomeAPI} (log : list api_call) (c : api_call) : result unit :=
  if api_ok log c then Ok tt else Raise ApiError.

(** Every call of [made], made in this order after [log], resolved. *)
Fixpoint all_resolved `{RemehaHomeAPI} (log made : list api_call) : bool :=
  match made with
  | [] => true
  | c :: rest => api_ok log c && all_resolved (log ++ [c]) rest
  end.

(** *** The update block *)

(** A write of the control surface, as opposed to a direct call of a
    decorated method. *)
Definition is_write (c : command) : bool :=
  match c with
  | call_debounced _ => false
  | _ => true
  end.

(** The guards under which a write of climate.py goes through: the write is
    not a no-op (temperature absent, zone off, unknown preset, hot water
    outside Heat, hot-water preset in Auto) and does not raise before it
    reaches the debounced method. *)
Definition commits (c : command) (w : World) : Prop :=
  match c with
  | climate_set_temperature (Some _) =>
      exists m, (Climate.hvac_mode w).1 = Ok m /\ m <> Some OFF
  | climate_set_hvac_mode m => m ∈ Climate.hvac_modes
  | climate_set_preset_mode p =>
      is_Some (Tables.PRESET_MODE_TO_PRESET_INDEX !! p)
      /\ is_Some (data w !! "zoneMode")
  | hot_water_set_temperature (Some t) =>
      is_finite t /\ (HotWater.hvac_mode w).1 = Ok (Some HEAT)
  | hot_water_set_hvac_mode m =>
      m ∈ HotWater.hvac_modes
      /\ (m = HEAT -> is_Some (data w !! "comfortSetPoint"))
  | hot_water_set_preset_mode p =>
      is_Some (Tables.HW_PRESET_MODE_TO_PRESET_INDEX !! p)
      /\ exists m, (HotWater.hvac_mode w).1 = Ok m /\ m <> Some AUTO
  | _ => False
  end.

(** *** Zones and inputs of the concrete runs *)

(** A climate zone in Heat, in Off and in Auto with program 2. *)
Definition heat_zone : gmap string value :=
  py_dict [ ("zoneMode", VStr "Manual"); ("setPoint", VFloat (Finite 21));
            ("activeHeatingClimateTimeProgramNumber", VInt 2) ].

Definition off_zone : gmap string value :=
  py_dict [ ("zoneMode", VStr "FrostProtection"); ("setPoint", VFloat (Finite 21));
            ("activeHeatingClimateTimeProgramNumber", VInt 2) ].

Definition auto_zone_program_2 : gmap string value :=
  py_dict [ ("zoneMode", VStr "Scheduling"); ("setPoint", VFloat (Finite 21));
            ("activeHeatingClimateTimeProgramNumber", VInt 2) ].

(** A zone dict, read as a climate or a hot-water zone, in Auto with a
    program number and a status outside the tables. *)
Definition auto_zone_program_7 : gmap string value :=
  py_dict [ ("zoneMode", VStr "Scheduling"); ("dhwZoneMode", VStr "Scheduling");
            ("activeHeatingClimateTimeProgramNumber", VInt 7);
            ("activeDwhTimeProgramNumber", VInt 7);
            ("activeComfortDemand", VStr "Standby"); ("dhwStatus", VStr "Standby") ].

(** Hot-water zones of climate.py, off and in Auto. *)
Definition hot_water_zone_off : gmap string value :=
  py_dict [ ("dhwZoneMode", VStr "Off"); ("targetSetpoint", VFloat (Finite 10));
            ("comfortSetPoint", VFloat (Finite 55));
            ("activeDwhTimeProgramNumber", VInt 1) ].

Definition hot_water_zone_auto : gmap string value :=
  py_dict [ ("dhwZoneMode", VStr "Scheduling"); ("targetSetpoint", VFloat (Finite 50));
            ("comfortSetPoint", VFloat (Finite 55));
            ("activeDwhTimeProgramNumber", VInt 1) ].

(** A hot-water zone of climate.py in Heat. *)
Definition hot_water_zone_heat : gmap string value :=
  py_dict [ ("dhwZoneMode", VStr "ContinuousComfort");
            ("targetSetpoint", VFloat (Finite 50));
            ("comfortSetPoint", VFloat (Finite 55));
            ("activeDwhTimeProgramNumber", VInt 1) ].

(** A hot-water zone that reads Heat through the table of hot_water.py. *)
Definition legacy_heat_zone : gmap string value :=
  py_dict [ ("dhwZoneMode", VStr "Manual"); ("targetSetpoint", VFloat (Finite 50));
            ("activeDwhTimeProgramNumber", VInt 1) ].

(** Two further writes, each one second after the previous one. *)
Definition two_more_rapid : list (N * pyfloat) :=
  [ (1%N, Finite 22); (1%N, Finite (45 # 2)) ].

(** *** What the writes leave and send *)

(** The zone dict a supported hot-water mode write leaves: the mode, and for
    Heat and Off the target setpoint. *)
Definition hot_water_mode_overlay (m : HVACMode) (v : value)
    (d : gmap string value) : gmap string value :=
  let d' := <["dhwZoneMode" := str_or_none (Tables.HVAC_MODE_TO_REMEHA_HW_MODE !! m)]> d in
  match m with
  | HEAT => <["targetSetpoint" := v]> d'
  | OFF => <["targetSetpoint" := VFloat (Finite 10)]> d'
  | _ => d'
  end.

(** The remote calls the climate method [set_hvac_mode] makes for mode [m] on
    zone [z] with zone dict [d]: none when the field it reads is missing. *)
Definition climate_mode_calls (m : HVACMode) (z : string) (d : gmap string value)
    : list api_call :=
  match m with
  | AUTO =>
      match d !! "activeHeatingClimateTimeProgramNumber" with
      | Some n => [async_set_schedule z n]
      | None => []
      end
  | HEAT =>
      match d !! "setPoint" with
      | Some t => [async_set_manual z t]
      | None => []
      end
  | OFF => [async_set_off z]
  | _ => []
  end.

(** The remote call the hot-water method [set_hvac_mode] makes. *)
Definition hot_water_mode_calls (m : HVACMode) (z : string) : list api_call :=
  match m with
  | AUTO => [async_hw_set_schedule z]
  | HEAT => [async_hw_set_continuous_comfort z]
  | OFF => [async_hw_set_off z]
  | _ => []
  end.

(** The remote call a mode write of hot_water.py makes at once; for Auto it
    is the climate-zone schedule call with the zone's hot-water program. *)
Definition legacy_mode_calls (m : HVACMode) (z : string) (d : gmap string value)
    : list api_call :=
  match m with
  | AUTO =>
      match d !! "activeDwhTimeProgramNumber" with
      | Some n => [async_set_schedule z n]
      | None => []
      end
  | HEAT => [async_hw_set_continuous_comfort z]
  | OFF => [async_hw_set_off z]
  | _ => []
  end.

(** *** The task table over time *)

(** A task once cancelled. *)
Definition cancelled (t : task) : task :=
  Task (t_key t) (t_job t) (t_due t) Cancelled.

(** Every table entry refers to a task of its key. *)
Definition table_ok (tasks : gmap string (option nat)) (p : list task) : Prop :=
  forall k i, tasks !! k = Some (Some i) ->
              exists t, p !! i = Some t /\ t_key t = k.

(** A sleeping task is due within the delay, a finished one was due. *)
Definition bounded (clock : Z) (p : list task) : Prop :=
  forall i t, p !! i = Some t ->
              match t_status t with
              | Sleeping => t_due t <= clock + 5
              | Finished _ => t_due t <= clock
              | Cancelled => True
              end.

(** No sleeping task is due. *)
Definition not_overdue (clock : Z) (p : list task) : Prop :=
  forall i t, p !! i = Some t -> is_sleeping t = true -> clock < t_due t.

Definition sound (w : World) : Prop :=
  slots_ok (debounce_tasks w) (pool w) /\ table_ok (debounce_tasks w) (pool w)
  /\ bounded (now w) (pool w) /\ not_overdue (now w) (pool w).

(** *** Entities and coordinator data *)

(** The entity [__init__] builds for zone [id]. *)
Definition entity_for (DOMAIN : string) (cls : entity_class) (id : string) : entity :=
  Entity cls id (String.append DOMAIN (String.append "_" id)).

(** The zone object [z] carries the id [id] under [id_key]. *)
Definition zone_has_id (id_key id : string) (z : json) : Prop :=
  py_getitem z id_key = Ok (JStr id).

(** The appliance object [a] lists zones with the ids [ids] under
    [list_key]. *)
Definition lists_zones (list_key id_key : string) (ids : list string) (a : json)
    : Prop :=
  exists zones, py_getitem a list_key = Ok (JList zones)
                /\ Forall2 (zone_has_id id_key) ids zones.

(** The appliance [a] has the climate zones [s.1] and the hot-water zones
    [s.2]. *)
Definition appliance_has (s : list string * list string) (a : json) : Prop :=
  lists_zones "climateZones" "climateZoneId" s.1 a
  /\ lists_zones "hotWaterZones" "hotWaterZoneId" s.2 a.

(** An appliance with one climate zone and one hot-water zone, and one
    without hot-water zones. *)
Definition boiler : json :=
  JObject [ ("applianceId", JStr "a1");
            ("climateZones",
             JList [ JObject [ ("climateZoneId", JStr "c1"); ("name", JStr "Living") ] ]);
            ("hotWaterZones",
             JList [ JObject [ ("hotWaterZoneId", JStr "h1") ] ]) ].

Definition boiler_without_hot_water : json :=
  JObject [ ("applianceId", JStr "a2");
            ("climateZones", JList [ JObject [ ("climateZoneId", JStr "c2") ] ]) ].

Definition one_boiler : json := JObject [ ("appliances", JList [ boiler ]) ].

Definition two_boilers : json :=
  JObject [ ("appliances", JList [ boiler; boiler_without_hot_water ]) ].

(** One temperature write to a climate zone in Heat, two seconds ago. *)
Definition one_write_pending : list event :=
  [ Command (climate_set_temperature (Some (Finite 21))); Elapse 2 ].

(** * Properties *)

(** ** Mode translator *)

(** The climate-zone reverse table has exactly the three supported modes. *)
Lemma HVAC_MODE_TO_REMEHA_MODE_lookup (m : HVACMode) :
  Tables.HVAC_MODE_TO_REMEHA_MODE !! m =
  match m with
  | AUTO => Some "Scheduling" | HEAT => Some "Manual"
  | OFF => Some "FrostProtection" | _ => None
  end.
Proof. destruct m; reflexivity. Qed.

Lemma HVAC_MODE_TO_REMEHA_HW_MODE_lookup (m : HVACMode) :
  Tables.HVAC_MODE_TO_REMEHA_HW_MODE !! m =
  match m with
  | AUTO => Some "Scheduling" | HEAT => Some "ContinuousComfort"
  | OFF => Some "Off" | _ => None
  end.
Proof. destruct m; reflexivity. Qed.

Lemma REMEHA_HW_MODE_TO_HVAC_MODE_lookup (s : string) (m : HVACMode) :
  Tables.REMEHA_HW_MODE_TO_HVAC_MODE !! s = Some m <->
  (s = "ContinuousComfort" /\ m = HEAT) \/ (s = "Scheduling" /\ m = AUTO)
  \/ (s = "Off" /\ m = OFF).
Proof.
  unfold Tables.REMEHA_HW_MODE_TO_HVAC_MODE, py_dict; simpl foldl. split.
  - rewrite !lookup_insert_Some, lookup_empty. naive_solver.
  - intros [[-> ->] | [[-> ->] | [-> ->]]]; reflexivity.
Qed.

(** In climate.py the hot-water tables are inverse to each other, and pair
    ContinuousComfort with Heat, Scheduling with Auto and Off with Off. *)
Lemma hot_water_mode_bijection (s : string) (m : HVACMode) :
  Tables.REMEHA_HW_MODE_TO_HVAC_MODE !! s = Some m <->
  Tables.HVAC_MODE_TO_REMEHA_HW_MODE !! m = Some s.
Proof.
  rewrite REMEHA_HW_MODE_TO_HVAC_MODE_lookup, HVAC_MODE_TO_REMEHA_HW_MODE_lookup.
  destruct m; naive_solver.
Qed.

(** C4 (evaluation at the failing input). The hot-water entity of hot_water.py
    translates with the climate-zone vocabulary: the vendor strings
    ContinuousComfort and Off are unmapped, Heat is sent back as Manual and
    Off as FrostProtection; an entity whose zone reports ContinuousComfort
    reads mode None. *)
Theorem legacy_hot_water_mode_tables :
  LegacyTables.REMEHA_MODE_TO_HVAC_MODE !! "ContinuousComfort" = None
  /\ LegacyTables.REMEHA_MODE_TO_HVAC_MODE !! "Off" = None
  /\ LegacyTables.HVAC_MODE_TO_REMEHA_MODE !! HEAT = Some "Manual"
  /\ LegacyTables.HVAC_MODE_TO_REMEHA_MODE !! OFF = Some "FrostProtection"
  /\ (LegacyHotWater.hvac_mode
        (new_entity "hw1" (py_dict [("dhwZoneMode", VStr "ContinuousComfort")]) 0)).1
     = Ok None
  /\ (HotWater.hvac_mode
        (new_entity "hw1" (py_dict [("dhwZoneMode", VStr "ContinuousComfort")]) 0)).1
     = Ok (Some HEAT).
Proof. repeat split; reflexivity. Qed.

(** C8. Translating a supported abstract mode to the climate-zone vendor
    string and back gives the mode again; the other direction loses
    TemporaryOverride, which maps to Auto and comes back as Scheduling. *)
Theorem climate_mode_round_trip (m : HVACMode) (Hm : m ∈ Climate.hvac_modes) :
  (exists s, Tables.HVAC_MODE_TO_REMEHA_MODE !! m = Some s
             /\ Tables.REMEHA_MODE_TO_HVAC_MODE !! s = Some m)
  /\ (Tables.REMEHA_MODE_TO_HVAC_MODE !! "TemporaryOverride" = Some AUTO
      /\ Tables.HVAC_MODE_TO_REMEHA_MODE !! AUTO = Some "Scheduling"
      /\ "Scheduling" <> "TemporaryOverride").
Proof.
  split; [| repeat split; done].
  rewrite HVAC_MODE_TO_REMEHA_MODE_lookup.
  unfold Climate.hvac_modes in Hm.
  destruct m; try (exfalso; set_solver); eexists; split; reflexivity.
Qed.

Lemma climate_mode_round_trip_witness :
  (AUTO ∈ Climate.hvac_modes)
  /\ exists s, Tables.HVAC_MODE_TO_REMEHA_MODE !! AUTO = Some s
               /\ Tables.REMEHA_MODE_TO_HVAC_MODE !! s = Some AUTO.
Proof.
  assert (Hm : AUTO ∈ Climate.hvac_modes) by (unfold Climate.hvac_modes; set_solver).
  split; [exact Hm | exact (proj1 (climate_mode_round_trip AUTO Hm))].
Defined.

(** ** Reads *)

(** Symbolic execution of a coroutine body. *)
Ltac unfold_m :=
  unfold pass, call_member in *;
  unfold mbind, M_bind, mret, M_ret, raise, lift, subscript, assign,
    self_zone_id, async_write_ha_state, async_request_refresh,
    trigger_update_block, await_api in *.

Lemma PRESET_INDEX_TO_PRESET_MODE_outside (n : Z) :
  n <> 1 -> n <> 2 -> n <> 3 -> Tables.PRESET_INDEX_TO_PRESET_MODE !! n = None.
Proof.
  intros. unfold Tables.PRESET_INDEX_TO_PRESET_MODE, py_dict; simpl foldl.
  rewrite !lookup_insert_ne by done. apply lookup_empty.
Qed.

Lemma PRESET_INDEX_TO_HW_PRESET_MODE_outside (n : Z) :
  n <> 1 -> Tables.PRESET_INDEX_TO_HW_PRESET_MODE !! n = None.
Proof.
  intros. unfold Tables.PRESET_INDEX_TO_HW_PRESET_MODE, py_dict; simpl foldl.
  rewrite !lookup_insert_ne by done. apply lookup_empty.
Qed.

Lemma legacy_PRESET_INDEX_TO_PRESET_MODE_outside (n : Z) :
  n <> 1 -> LegacyTables.PRESET_INDEX_TO_PRESET_MODE !! n = None.
Proof.
  intros. unfold LegacyTables.PRESET_INDEX_TO_PRESET_MODE, py_dict; simpl foldl.
  rewrite !lookup_insert_ne by done. apply lookup_empty.
Qed.

(** The mode read of each class, in terms of the zone dict. *)
Lemma climate_hvac_mode_eq (w : World) :
  Climate.hvac_mode w =
  match data w !! "zoneMode" with
  | Some v => (Ok (get_str Tables.REMEHA_MODE_TO_HVAC_MODE v), w)
  | None => (Raise KeyError, w)
  end.
Proof. unfold Climate.hvac_mode. unfold_m. destruct (data w !! _); reflexivity. Qed.

Lemma hot_water_hvac_mode_eq (w : World) :
  HotWater.hvac_mode w =
  match data w !! "dhwZoneMode" with
  | Some v => (Ok (get_str Tables.REMEHA_HW_MODE_TO_HVAC_MODE v), w)
  | None => (Raise KeyError, w)
  end.
Proof. unfold HotWater.hvac_mode. unfold_m. destruct (data w !! _); reflexivity. Qed.

Lemma legacy_hvac_mode_eq (w : World) :
  LegacyHotWater.hvac_mode w =
  match data w !! "dhwZoneMode" with
  | Some v => (Ok (get_str LegacyTables.REMEHA_MODE_TO_HVAC_MODE v), w)
  | None => (Raise KeyError, w)
  end.
Proof. unfold LegacyHotWater.hvac_mode. unfold_m. destruct (data w !! _); reflexivity. Qed.

Lemma bind_eq {A B} (m : M A) (f : A -> M B) (w w' : World) (a : A) :
  m w = (Ok a, w') -> (m ≫= f) w = f a w'.
Proof. intros Hm. unfold mbind, M_bind. by rewrite Hm. Qed.

Lemma subscript_eq (key : string) (v : value) (w : World) :
  data w !! key = Some v -> subscript key w = (Ok v, w).
Proof. intros Hk. unfold subscript. by rewrite Hk. Qed.

(** A mode read leaves the world as it is. *)
Lemma climate_hvac_mode_read (w : World) (m : option HVACMode) :
  (Climate.hvac_mode w).1 = Ok m -> Climate.hvac_mode w = (Ok m, w).
Proof. rewrite climate_hvac_mode_eq. destruct (data w !! _); cbn [fst]; congruence. Qed.

Lemma hot_water_hvac_mode_read (w : World) (m : option HVACMode) :
  (HotWater.hvac_mode w).1 = Ok m -> HotWater.hvac_mode w = (Ok m, w).
Proof. rewrite hot_water_hvac_mode_eq. destruct (data w !! _); cbn [fst]; congruence. Qed.

Lemma legacy_hvac_mode_read (w : World) (m : option HVACMode) :
  (LegacyHotWater.hvac_mode w).1 = Ok m -> LegacyHotWater.hvac_mode w = (Ok m, w).
Proof. rewrite legacy_hvac_mode_eq. destruct (data w !! _); cbn [fst]; congruence. Qed.

(** C10. While the mode reads Auto, the preset read of each of the three
    entity classes raises KeyError when the cached program number is outside
    the preset table (climate: 1, 2, 3; hot water: 1). The mode read and the
    action read do not raise for an unmapped vendor string: they return
    None. *)
Theorem preset_mode_partial (w : World) (n : Z) (s : string) :
  ((Climate.hvac_mode w).1 = Ok (Some AUTO) ->
   data w !! "activeHeatingClimateTimeProgramNumber" = Some (VInt n) ->
   n <> 1 -> n <> 2 -> n <> 3 ->
   Climate.preset_mode w = (Raise KeyError, w))
  /\ ((HotWater.hvac_mode w).1 = Ok (Some AUTO) ->
      data w !! "activeDwhTimeProgramNumber" = Some (VInt n) ->
      n <> 1 ->
      HotWater.preset_mode w = (Raise KeyError, w))
  /\ ((LegacyHotWater.hvac_mode w).1 = Ok (Some AUTO) ->
      data w !! "activeDwhTimeProgramNumber" = Some (VInt n) ->
      n <> 1 ->
      LegacyHotWater.preset_mode w = (Raise KeyError, w))
  /\ (data w !! "zoneMode" = Some (VStr s) ->
      Tables.REMEHA_MODE_TO_HVAC_MODE !! s = None ->
      Climate.hvac_mode w = (Ok None, w))
  /\ (data w !! "dhwZoneMode" = Some (VStr s) ->
      (Tables.REMEHA_HW_MODE_TO_HVAC_MODE !! s = None ->
       HotWater.hvac_mode w = (Ok None, w))
      /\ (LegacyTables.REMEHA_MODE_TO_HVAC_MODE !! s = None ->
          LegacyHotWater.hvac_mode w = (Ok None, w)))
  /\ ((Climate.hvac_mode w).1 = Ok (Some AUTO) ->
      data w !! "activeComfortDemand" = Some (VStr s) ->
      Tables.REMEHA_STATUS_TO_HVAC_ACTION !! s = None ->
      Climate.hvac_action w = (Ok None, w))
  /\ (data w !! "dhwStatus" = Some (VStr s) ->
      ((HotWater.hvac_mode w).1 = Ok (Some AUTO) ->
       Tables.REMEHA_HW_STATUS_TO_HVAC_ACTION !! s = None ->
       HotWater.hvac_action w = (Ok None, w))
      /\ ((LegacyHotWater.hvac_mode w).1 = Ok (Some AUTO) ->
          LegacyTables.REMEHA_STATUS_TO_HVAC_ACTION !! s = None ->
          LegacyHotWater.hvac_action w = (Ok None, w))).
Proof.
  repeat split.
  - intros Hm%climate_hvac_mode_read Hn%subscript_eq ? ? ?.
    unfold Climate.preset_mode.
    rewrite (bind_eq _ _ _ _ _ Hm), decide_False by done.
    rewrite (bind_eq _ _ _ _ _ Hm), decide_False by done.
    rewrite (bind_eq _ _ _ _ _ Hn). unfold lift, subscript_int, int_key.
    by rewrite PRESET_INDEX_TO_PRESET_MODE_outside.
  - intros Hm%hot_water_hvac_mode_read Hn%subscript_eq ?.
    unfold HotWater.preset_mode.
    rewrite (bind_eq _ _ _ _ _ Hm), decide_False by done.
    rewrite (bind_eq _ _ _ _ _ Hm), decide_False by done.
    rewrite (bind_eq _ _ _ _ _ Hn). unfold lift, subscript_int, int_key.
    by rewrite PRESET_INDEX_TO_HW_PRESET_MODE_outside.
  - intros Hm%legacy_hvac_mode_read Hn%subscript_eq ?.
    unfold LegacyHotWater.preset_mode.
    rewrite (bind_eq _ _ _ _ _ Hm), decide_False by done.
    rewrite (bind_eq _ _ _ _ _ Hm), decide_False by done.
    rewrite (bind_eq _ _ _ _ _ Hn). unfold lift, subscript_int, int_key.
    by rewrite legacy_PRESET_INDEX_TO_PRESET_MODE_outside.
  - intros Hd Hs. rewrite climate_hvac_mode_eq, Hd. unfold get_str. by rewrite Hs.
  - intros Hs. rewrite hot_water_hvac_mode_eq, H. unfold get_str. by rewrite Hs.
  - intros Hs. rewrite legacy_hvac_mode_eq, H. unfold get_str. by rewrite Hs.
  - intros Hm%climate_hvac_mode_read Hd%subscript_eq Hs.
    unfold Climate.hvac_action.
    rewrite (bind_eq _ _ _ _ _ Hm), decide_False by done.
    rewrite (bind_eq _ _ _ _ _ Hd). unfold get_str. by rewrite Hs.
  - intros Hm%hot_water_hvac_mode_read Hs. apply subscript_eq in H.
    unfold HotWater.hvac_action.
    rewrite (bind_eq _ _ _ _ _ Hm), decide_False by done.
    rewrite (bind_eq _ _ _ _ _ H). unfold get_str. by rewrite Hs.
  - intros Hm%legacy_hvac_mode_read Hs. apply subscript_eq in H.
    unfold LegacyHotWater.hvac_action.
    rewrite (bind_eq _ _ _ _ _ Hm), decide_False by done.
    rewrite (bind_eq _ _ _ _ _ H). unfold get_str. by rewrite Hs.
Qed.

Lemma preset_mode_partial_witness :
  let w := new_entity "zone" auto_zone_program_7 0 in
  Climate.preset_mode w = (Raise KeyError, w)
  /\ HotWater.preset_mode w = (Raise KeyError, w)
  /\ LegacyHotWater.preset_mode w = (Raise KeyError, w)
  /\ Climate.hvac_action w = (Ok None, w)
  /\ HotWater.hvac_action w = (Ok None, w)
  /\ LegacyHotWater.hvac_action w = (Ok None, w).
Proof.
  intros w.
  destruct (preset_mode_partial w 7 "Standby")
    as (Hc & Hh & Hl & _ & _ & Hca & Ha).
  destruct (Ha eq_refl) as [Hha Hla].
  refine (conj (Hc _ _ _ _ _) (conj (Hh _ _ _) (conj (Hl _ _ _)
            (conj (Hca _ _ _) (conj (Hha _ _) (Hla _ _))))));
    first [reflexivity | lia].
Defined.

(** ** Rejected modes *)

(** Both classes of climate.py check the mode first: an unsupported mode is
    rejected with nothing written, nothing submitted and no remote call. *)
Lemma climate_rejects_unsupported_mode (m : HVACMode) (w : World) :
  m ∉ Climate.hvac_modes ->
  Climate.async_set_hvac_mode m w = (Raise NotImplementedError, w)
  /\ HotWater.async_set_hvac_mode m w = (Raise NotImplementedError, w).
Proof.
  intros Hm. unfold Climate.async_set_hvac_mode, HotWater.async_set_hvac_mode.
  change HotWater.hvac_modes with Climate.hvac_modes.
  rewrite !decide_True by done. done.
Qed.

(** C3 (evaluation at the failing input). The hot-water entity of
    hot_water.py, asked for the unsupported mode Cool while the zone is Off,
    raises NotImplementedError and makes no remote call, but has already
    overwritten the cached mode with None and notified the observers. *)
Theorem legacy_hot_water_writes_before_rejecting :
  let w := new_entity "hw1" hot_water_zone_off 0 in
  let out := LegacyHotWater.async_set_hvac_mode (H := api_always_ok) COOL w in
  (COOL ∉ LegacyHotWater.hvac_modes)
  /\ data w !! "dhwZoneMode" = Some (VStr "Off")
  /\ out.1 = Raise NotImplementedError
  /\ api_log out.2 = []
  /\ data out.2 !! "dhwZoneMode" = Some VNone
  /\ ha_state_writes out.2 = 1%nat
  /\ data out.2 <> data w.
Proof.
  cbv zeta. split; [unfold LegacyHotWater.hvac_modes; set_solver|].
  repeat split; try reflexivity.
  intros Heq. apply (f_equal (fun d => d !! "dhwZoneMode")) in Heq.
  vm_compute in Heq. discriminate.
Qed.

(** ** Hot-water setpoints *)

(** C5 (evaluation at the failing input). The hot-water entity of
    hot_water.py in Heat mode, asked for 45.5, transmits 45.5 in the
    comfort-setpoint call: the value is not a whole number. *)
Theorem legacy_hot_water_sends_fractional_setpoint :
  let w := new_entity "hw1" legacy_heat_zone 0 in
  let out :=
    LegacyHotWater.async_set_temperature (H := api_always_ok) (Some (Finite (91 # 2))) w in
  (LegacyHotWater.hvac_mode w).1 = Ok (Some HEAT)
  /\ out.1 = Ok tt
  /\ api_log out.2 = [ async_hw_set_comfort_setpoint "hw1" (VFloat (Finite (91 # 2)));
                       async_hw_set_continuous_comfort "hw1" ]
  /\ is_whole (VFloat (Finite (91 # 2))) = false.
Proof. cbv zeta. repeat split; reflexivity. Qed.

(** ** The debounce mechanism *)

Ltac fields :=
  cbn [zone_id data debounce_tasks pool now api_log block_until ha_state_writes
       refresh_requests with_data with_debounce with_now with_api_log
       with_block_until with_ha_state_writes with_refresh_requests fst snd
       t_key t_job t_due t_status] in *.

Lemma cancel_length (i : nat) (p : list task) : length (cancel i p) = length p.
Proof.
  unfold cancel. destruct (p !! i) as [t|]; [|done].
  destruct (t_status t); [|done..]. apply length_insert.
Qed.

Lemma cancel_lookup_ne (i j : nat) (p : list task) :
  i <> j -> cancel i p !! j = p !! j.
Proof.
  intros Hij. unfold cancel. destruct (p !! i) as [t|]; [|done].
  destruct (t_status t); [|done..]. by apply list_lookup_insert_ne.
Qed.

Lemma cancel_lookup_eq (i : nat) (p : list task) (t : task) :
  cancel i p !! i = Some t -> is_sleeping t = false.
Proof.
  unfold cancel. destruct (p !! i) as [t0|] eqn:Hi; [|congruence].
  unfold is_sleeping. destruct (t_status t0) eqn:Hs.
  - rewrite list_lookup_insert_eq by (by eapply lookup_lt_Some).
    intros [= <-]. reflexivity.
  - rewrite Hi. intros [= <-]. by rewrite Hs.
  - rewrite Hi. intros [= <-]. by rewrite Hs.
Qed.

(** A task still asleep after [cancel i] is another task, and was asleep. *)
Lemma cancel_sleeping (i j : nat) (p : list task) (t : task) :
  cancel i p !! j = Some t -> is_sleeping t = true -> p !! j = Some t /\ j <> i.
Proof.
  intros Hj Hs. destruct (decide (i = j)) as [->|Hne].
  - apply cancel_lookup_eq in Hj. congruence.
  - rewrite cancel_lookup_ne in Hj by done. done.
Qed.

(** Cancelling a task that is done changes nothing. *)
Lemma cancel_done (i : nat) (p : list task) :
  task_done p i = true -> cancel i p = p.
Proof.
  unfold task_done, cancel. destruct (p !! i) as [t|]; [|done].
  destruct (t_status t); done.
Qed.

Lemma pool_after_cancel_length (key : string) (w : World) :
  length (pool_after_cancel key w) = length (pool w).
Proof.
  unfold pool_after_cancel. destruct (prev_task key w); [apply cancel_length | done].
Qed.

Lemma debounce_async_pool (d : Z) (j : job) (w : World) :
  pool (debounce_async d j w).2 =
  pool_after_cancel (method_name j) w
    ++ [Task (method_name j) j (now w + d) Sleeping].
Proof.
  unfold debounce_async, pool_after_cancel, prev_task. fields.
  destruct (debounce_tasks w !! method_name j) as [[i|]|] eqn:Hk;
    rewrite ?lookup_insert_eq, ?Hk; cbn [default from_option id]; try reflexivity.
  destruct (task_done (pool w) i) eqn:Hd; cbn [negb]; [|reflexivity].
  by rewrite cancel_done.
Qed.

Lemma debounce_async_tasks (d : Z) (j : job) (w : World) (key : string) :
  debounce_tasks (debounce_async d j w).2 !! key =
  if decide (key = method_name j) then Some (Some (length (pool w)))
  else debounce_tasks w !! key.
Proof.
  unfold debounce_async. fields.
  assert (Hlen : forall o : option nat,
    length match o with
           | Some i => if negb (task_done (pool w) i) then cancel i (pool w) else pool w
           | None => pool w
           end = length (pool w)).
  { intros [i|]; [|done]. destruct (negb _); [apply cancel_length | done]. }
  case_decide as Hkey.
  - subst key. by rewrite lookup_insert_eq, Hlen.
  - rewrite lookup_insert_ne by done.
    destruct (debounce_tasks w !! method_name j); [done|].
    by rewrite lookup_insert_ne.
Qed.

(** The wrapper touches the task table and the pool, nothing else. *)
Lemma debounce_async_frame (d : Z) (j : job) (w : World) :
  let w' := (debounce_async d j w).2 in
  zone_id w' = zone_id w /\ data w' = data w /\ now w' = now w
  /\ api_log w' = api_log w /\ block_until w' = block_until w
  /\ ha_state_writes w' = ha_state_writes w
  /\ refresh_requests w' = refresh_requests w.
Proof. cbv zeta. unfold debounce_async. fields. done. Qed.

Lemma debounce_async_slots_ok (d : Z) (j : job) (w : World) :
  slots_ok (debounce_tasks w) (pool w) ->
  slots_ok (debounce_tasks (debounce_async d j w).2) (pool (debounce_async d j w).2).
Proof.
  intros Hok i t Hi Hs. rewrite debounce_async_tasks.
  rewrite debounce_async_pool in Hi.
  pose proof (pool_after_cancel_length (method_name j) w) as Hlen.
  destruct (decide (i < length (pool w))%nat) as [Hlt|Hge].
  - rewrite lookup_app_l in Hi by lia.
    assert (pool w !! i = Some t /\ prev_task (method_name j) w <> Some i) as [Hi' Hprev].
    { unfold pool_after_cancel in Hi.
      destruct (prev_task (method_name j) w) as [i0|].
      - apply cancel_sleeping in Hi as [? ?]; [|done]. split; congruence.
      - done. }
    specialize (Hok i t Hi' Hs). case_decide as Hkey; [|done].
    exfalso. apply Hprev. unfold prev_task. by rewrite <- Hkey, Hok.
  - rewrite lookup_app_r in Hi by lia. rewrite Hlen in Hi.
    destruct (i - length (pool w))%nat as [|k] eqn:Hk; [|done].
    cbn in Hi. injection Hi as <-. cbn [t_key].
    rewrite decide_True by done. do 2 f_equal. lia.
Qed.

(** ** Fired tasks *)

Section Fired.
Context `{RemehaHomeAPI}.

(** A debounced method only makes remote calls: of the world, it changes the
    log of calls alone. *)
Lemma method_body_frame (j : job) (w : World) :
  (method_body j w).2 = with_api_log (api_log (method_body j w).2) w.
Proof.
  destruct w. destruct j; unfold method_body;
    unfold Climate.set_temperature_wrapped, Climate.set_hvac_mode_wrapped,
      Climate.activate_heating_time_program_wrapped,
      HotWater.set_continuous_comfort_with_temperature_wrapped,
      HotWater.set_hvac_mode_wrapped, HotWater.set_schedule_wrapped,
      Climate.hvac_mode;
    unfold_m; fields;
    repeat (case_match; simplify_eq; fields); reflexivity.
Qed.

(** The calls a method makes are appended to the log. *)
Lemma method_body_log (j : job) (w : World) :
  exists made, api_log (method_body j w).2 = api_log w ++ made.
Proof.
  destruct j; unfold method_body;
    unfold Climate.set_temperature_wrapped, Climate.set_hvac_mode_wrapped,
      Climate.activate_heating_time_program_wrapped,
      HotWater.set_continuous_comfort_with_temperature_wrapped,
      HotWater.set_hvac_mode_wrapped, HotWater.set_schedule_wrapped,
      Climate.hvac_mode;
    unfold_m; fields;
    repeat (case_match; simplify_eq; fields);
    first [ by exists [] ; rewrite app_nil_r
          | by eexists [_]
          | by (eexists [_; _]; rewrite <- app_assoc) ].
Qed.

End Fired.

Lemma debounce_async_eq (j : job) (w : World) :
  debounce_async 5 j w = (Ok tt, after_submit j w).
Proof. reflexivity. Qed.

(** Symbolic execution of a write of the control surface, by cases on every
    test it makes; submissions are kept as [after_submit]. *)
Ltac exec :=
  unfold Climate.set_temperature, Climate.set_hvac_mode,
    Climate.activate_heating_time_program,
    HotWater.set_continuous_comfort_with_temperature, HotWater.set_hvac_mode,
    HotWater.set_schedule, Climate.hvac_mode, HotWater.hvac_mode,
    LegacyHotWater.hvac_mode in *;
  unfold_m; fields;
  repeat (first [rewrite debounce_async_eq | case_match];
          repeat match goal with
                 | Hd : debounce_async 5 _ _ = _ |- _ => rewrite debounce_async_eq in Hd
                 end;
          simplify_eq; fields).

Lemma execute_slots_ok (c : command) (w : World) :
  slots_ok (debounce_tasks w) (pool w) ->
  slots_ok (debounce_tasks (execute c w).2) (pool (execute c w).2).
Proof.
  intros Hok.
  destruct c; unfold execute;
    unfold Climate.async_set_temperature, Climate.async_set_hvac_mode,
      Climate.async_set_preset_mode, HotWater.async_set_temperature,
      HotWater.async_set_hvac_mode, HotWater.async_set_preset_mode;
    try (by apply debounce_async_slots_ok);
    exec; try assumption;
    match goal with
    | |- context [after_submit ?j ?w0] =>
        apply (debounce_async_slots_ok 5 j w0); fields; assumption
    end.
Qed.

Section Loop.
Context `{RemehaHomeAPI}.

(** What [wake] does: nothing, or the task's method runs and the task ends
    with the method's outcome. *)
Lemma wake_cases (i : nat) (w : World) :
  wake i w = w
  \/ exists t,
       pool w !! i = Some t /\ is_sleeping t = true /\ t_due t <= now w
       /\ wake i w =
            with_debounce (debounce_tasks w)
              (<[i := Task (t_key t) (t_job t) (t_due t)
                           (Finished (method_body (t_job t) w).1)]> (pool w))
              (with_api_log (api_log (method_body (t_job t) w).2) w).
Proof.
  unfold wake. destruct (pool w !! i) as [t|] eqn:Hi; [|by left].
  destruct (t_status t) eqn:Hs; [|by left..].
  case_decide as Hdue; [|by left].
  right. exists t. unfold is_sleeping. rewrite Hs. repeat split; try done.
  pose proof (method_body_frame (t_job t) w) as Hframe.
  destruct (method_body (t_job t) w) as [r w'] eqn:Hb. fields.
  rewrite Hframe. fields. unfold set_status. by rewrite Hi.
Qed.

Lemma wake_slots_ok (i : nat) (w : World) :
  slots_ok (debounce_tasks w) (pool w) ->
  slots_ok (debounce_tasks (wake i w)) (pool (wake i w)).
Proof.
  intros Hok. destruct (wake_cases i w) as [-> | (t & Hi & Hs & _ & ->)]; [done|].
  fields. intros i' t' Hi' Hs'.
  apply list_lookup_insert_Some in Hi' as [(-> & <- & _) | (Hne & Hi')].
  - done.
  - by apply Hok.
Qed.

(** A fired task leaves the zone dict, the clock, the update block and the
    task table alone, and the pool keeps its length. *)
Lemma wake_frame (i : nat) (w : World) :
  zone_id (wake i w) = zone_id w /\ data (wake i w) = data w
  /\ now (wake i w) = now w /\ block_until (wake i w) = block_until w
  /\ debounce_tasks (wake i w) = debounce_tasks w
  /\ length (pool (wake i w)) = length (pool w).
Proof.
  destruct (wake_cases i w) as [-> | (t & _ & _ & _ & ->)]; [done|].
  fields. by rewrite length_insert.
Qed.

Lemma wake_all_slots_ok (l : list nat) (w : World) :
  slots_ok (debounce_tasks w) (pool w) ->
  let w' := foldl (fun w i => wake i w) w l in
  slots_ok (debounce_tasks w') (pool w').
Proof.
  revert w. induction l as [|i l IH]; intros w Hok; [done|].
  cbn [foldl]. apply IH. by apply wake_slots_ok.
Qed.

Lemma wake_all_frame (l : list nat) (w : World) :
  let w' := foldl (fun w i => wake i w) w l in
  zone_id w' = zone_id w /\ data w' = data w /\ now w' = now w
  /\ block_until w' = block_until w /\ debounce_tasks w' = debounce_tasks w
  /\ length (pool w') = length (pool w).
Proof.
  revert w. induction l as [|i l IH]; intros w; [done|].
  cbn [foldl]. cbv zeta in IH.
  destruct (IH (wake i w)) as (-> & -> & -> & -> & -> & ->). apply wake_frame.
Qed.

Lemma elapse_frame (dt : Z) (w : World) :
  zone_id (elapse dt w) = zone_id w /\ data (elapse dt w) = data w
  /\ now (elapse dt w) = now w + dt /\ block_until (elapse dt w) = block_until w
  /\ debounce_tasks (elapse dt w) = debounce_tasks w
  /\ length (pool (elapse dt w)) = length (pool w).
Proof.
  unfold elapse, run_until.
  destruct (wake_all_frame (seq 0 (length (pool w))) (with_now (now w + dt) w))
    as (-> & -> & -> & -> & -> & ->). done.
Qed.

Lemma step_slots_ok (e : event) (w : World) :
  slots_ok (debounce_tasks w) (pool w) ->
  slots_ok (debounce_tasks (step e w)) (pool (step e w)).
Proof.
  intros Hok. destruct e as [c|dt|snapshot]; cbn [step].
  - by apply execute_slots_ok.
  - unfold elapse, run_until. by apply wake_all_slots_ok.
  - unfold apply_poll. repeat case_match; done.
Qed.

Lemma run_slots_ok (es : list event) (w : World) :
  slots_ok (debounce_tasks w) (pool w) ->
  slots_ok (debounce_tasks (run es w)) (pool (run es w)).
Proof.
  revert w. induction es as [|e es IH]; intros w Hok; [done|].
  cbn [run foldl]. apply IH. by apply step_slots_ok.
Qed.

End Loop.

Lemma slots_ok_live_count (w : World) (key : string) :
  slots_ok (debounce_tasks w) (pool w) -> (live_count key w <= 1)%nat.
Proof.
  unfold live_count. generalize (debounce_tasks w) (pool w). clear w.
  intros tasks p Hok.
  assert (Huniq : forall i i' t t',
            p !! i = Some t -> p !! i' = Some t' ->
            live key t = true -> live key t' = true -> i = i').
  { intros i i' t t' Hi Hi' [Hk Hs]%andb_prop [Hk' Hs']%andb_prop.
    apply bool_decide_eq_true in Hk, Hk'.
    pose proof (Hok i t Hi Hs) as H1. pose proof (Hok i' t' Hi' Hs') as H2.
    congruence. }
  clear Hok. induction p as [|a p IH]; [cbn; lia|].
  destruct (decide (live key a = true)) as [Ha|Ha].
  - rewrite filter_cons_True by done.
    destruct (filter (fun t => live key t = true) p) as [|b q] eqn:Hf; [cbn; lia|].
    assert (Hb : b ∈ filter (fun t => live key t = true) p) by (rewrite Hf; left).
    apply list_elem_of_filter in Hb as [Hb [i Hi]%list_elem_of_lookup].
    specialize (Huniq 0%nat (S i) a b eq_refl Hi Ha Hb). discriminate.
  - rewrite filter_cons_False by done. apply IH.
    intros i i' t t' Hi Hi' Ht Ht'.
    specialize (Huniq (S i) (S i') t t' Hi Hi' Ht Ht'). lia.
Qed.

(** C9. In every state an entity of climate.py reaches from its construction
    by writes of the control surface, direct calls of the decorated methods,
    elapsing time and polls, every key has at most one sleeping (uncancelled,
    unfired) task; right after a submission for a key, the key has exactly
    one: the submission's own. *)
Theorem at_most_one_live_task `{RemehaHomeAPI}
    (zone : string) (d : gmap string value) (t : Z) (es : list event)
    (key : string) (j : job) :
  let w := run es (new_entity zone d t) in
  (live_count key w <= 1)%nat
  /\ live_count (method_name j) (debounce_async 5 j w).2 = 1%nat
  /\ last (pool (debounce_async 5 j w).2)
     = Some (Task (method_name j) j (now w + 5) Sleeping).
Proof.
  cbv zeta.
  assert (Hok : slots_ok (debounce_tasks (run es (new_entity zone d t)))
                         (pool (run es (new_entity zone d t)))).
  { apply run_slots_ok. intros i tk Hi. done. }
  split; [by apply slots_ok_live_count|].
  set (w := run es (new_entity zone d t)) in *.
  split; [|by rewrite debounce_async_pool, last_snoc].
  pose proof (slots_ok_live_count (debounce_async 5 j w).2 (method_name j)
                (debounce_async_slots_ok 5 j w Hok)) as Hle.
  unfold live_count in *. rewrite debounce_async_pool in *.
  rewrite filter_app, length_app in *.
  rewrite (filter_cons_True _ (Task _ _ _ _)) in *.
  2,3: unfold live, is_sleeping; cbn; by rewrite bool_decide_eq_true_2.
  cbn [length filter] in *. rewrite filter_nil in *. cbn [length] in *. lia.
Qed.

(** ** Bursts of submissions *)

Lemma cancel_quiescent (i : nat) (p : list task) : quiescent p -> cancel i p = p.
Proof.
  intros Hq. apply cancel_done. unfold task_done.
  destruct (p !! i) as [t|] eqn:Hi; [|done].
  pose proof (proj1 (Forall_lookup _ _) Hq i t Hi) as Hs.
  unfold is_sleeping in Hs. by destruct (t_status t).
Qed.

(** The first submission of a burst. *)
Lemma submit_quiescent (j : job) (w : World) :
  quiescent (pool w) -> pending (pool w) 0 j (now w + 5) (after_submit j w).
Proof.
  intros Hq. exists []. unfold after_submit.
  rewrite debounce_async_pool, debounce_async_tasks, decide_True by done.
  repeat split; [|constructor|do 2 f_equal; lia].
  unfold pool_after_cancel. destruct (prev_task _ w); [|done].
  by rewrite cancel_quiescent.
Qed.

(** A later submission of the burst cancels the pending task and takes its
    place. *)
Lemma submit_pending (b : list task) (n : nat) (j0 j : job) (due : Z) (w : World) :
  method_name j = method_name j0 ->
  pending b n j0 due w ->
  pending b (S n) j (now w + 5) (after_submit j w).
Proof.
  intros Hkey (cs & Hpool & Hlen & Hcs & Htab).
  exists (cs ++ [Task (method_name j0) j0 due Cancelled]). unfold after_submit.
  rewrite debounce_async_pool, debounce_async_tasks, decide_True by done.
  repeat split.
  - unfold pool_after_cancel, prev_task. rewrite Hkey, Htab.
    unfold cancel. rewrite Hpool.
    assert (Hlast : (b ++ cs ++ [Task (method_name j0) j0 due Sleeping])
                      !! (length b + n)%nat
                    = Some (Task (method_name j0) j0 due Sleeping)).
    { rewrite lookup_app_r by lia. rewrite lookup_app_r by lia.
      replace (length b + n - length b - length cs)%nat with 0%nat by lia. done. }
    rewrite Hlast. fields.
    rewrite insert_app_r_alt by lia. rewrite insert_app_r_alt by lia.
    replace (length b + n - length b - length cs)%nat with 0%nat by lia.
    cbn [insert list_insert]. by rewrite <- !app_assoc.
  - rewrite length_app. cbn. lia.
  - apply Forall_app. split; [done|]. by repeat constructor.
  - rewrite Hpool, !length_app. cbn. do 2 f_equal. lia.
Qed.

Section BurstLoop.
Context `{RemehaHomeAPI}.

(** No task runs while none that sleeps is due. *)
Lemma wake_idle (i : nat) (w : World) :
  (forall t, pool w !! i = Some t -> is_sleeping t = true -> now w < t_due t) ->
  wake i w = w.
Proof.
  intros Hidle. destruct (wake_cases i w) as [-> | (t & Hi & Hs & Hdue & _)]; [done|].
  specialize (Hidle t Hi Hs). lia.
Qed.

Lemma wake_all_idle (l : list nat) (w : World) :
  (forall i t, i ∈ l -> pool w !! i = Some t -> is_sleeping t = true ->
               now w < t_due t) ->
  foldl (fun w i => wake i w) w l = w.
Proof.
  induction l as [|i l IH]; intros Hidle; [done|].
  cbn [foldl]. rewrite wake_idle.
  - apply IH. intros i' t Hi'. apply Hidle. by right.
  - intros t. apply Hidle. by left.
Qed.

Lemma pending_sleeping (b : list task) (n : nat) (j : job) (due : Z) (w : World)
    (i : nat) (t : task) :
  quiescent b -> pending b n j due w ->
  pool w !! i = Some t -> is_sleeping t = true ->
  i = (length b + n)%nat /\ t = Task (method_name j) j due Sleeping.
Proof.
  intros Hq (cs & Hpool & Hlen & Hcs & _) Hi Hs. rewrite Hpool in Hi.
  apply lookup_app_Some in Hi as [Hi | [Hgb Hi]].
  { pose proof (proj1 (Forall_lookup _ _) Hq _ _ Hi). congruence. }
  apply lookup_app_Some in Hi as [Hi | [Hge Hi]].
  { pose proof (proj1 (Forall_lookup _ _) Hcs _ _ Hi) as Hc.
    unfold is_sleeping in Hs. by rewrite Hc in Hs. }
  destruct (i - length b - length cs)%nat as [|k] eqn:Hk; [|done].
  cbn in Hi. injection Hi as <-. split; [lia | done].
Qed.

(** Less time passes than the pending task still sleeps: only the clock
    moves. *)
Lemma elapse_pending_early (b : list task) (n : nat) (j : job) (due dt : Z)
    (w : World) :
  quiescent b -> pending b n j due w -> now w + dt < due ->
  elapse dt w = with_now (now w + dt) w.
Proof.
  intros Hq Hp Hdt. unfold elapse, run_until. apply wake_all_idle.
  intros i t _ Hi Hs. fields.
  destruct (pending_sleeping b n j due (with_now (now w + dt) w) i t)
    as [_ ->]; try done.
Qed.

(** The pending task's sleep ends: its method runs, once, in the world of
    that moment, and its outcome ends the task. *)
Lemma elapse_pending_late (b : list task) (n : nat) (j : job) (due dt : Z)
    (w : World) :
  quiescent b -> pending b n j due w -> due <= now w + dt ->
  let w1 := with_now (now w + dt) w in
  exists cs,
    length cs = n /\ Forall (fun t => t_status t = Cancelled) cs
    /\ elapse dt w =
         with_debounce (debounce_tasks w)
           (b ++ cs ++ [Task (method_name j) j due (Finished (method_body j w1).1)])
           (with_api_log (api_log (method_body j w1).2) w1).
Proof.
  intros Hq Hp Hdue w1. pose proof Hp as (cs & Hpool & Hlen & Hcs & Htab).
  exists cs. split; [done|]. split; [done|].
  unfold elapse, run_until. fold w1.
  assert (Hl : length (pool w) = S (length b + n)) by
    (rewrite Hpool, !length_app; cbn; lia).
  rewrite Hl, seq_S, foldl_app. cbn [foldl Nat.add].
  rewrite wake_all_idle.
  - destruct (wake_cases (length b + n) w1) as [Hw | (t & Hi & Hs & _ & ->)].
    + exfalso. unfold wake in Hw. subst w1. fields.
      rewrite Hpool in Hw. rewrite lookup_app_r in Hw by lia.
      rewrite lookup_app_r in Hw by lia.
      replace (length b + n - length b - length cs)%nat with 0%nat in Hw by lia.
      cbn in Hw. rewrite decide_True in Hw by done.
      pose proof (method_body_frame j (with_now (now w + dt) w)) as Hf.
      destruct (method_body j (with_now (now w + dt) w)) as [r w'].
      apply (f_equal pool) in Hw. fields. rewrite Hf in Hw. fields.
      unfold set_status in Hw. rewrite Hpool in Hw.
      rewrite lookup_app_r in Hw by lia. rewrite lookup_app_r in Hw by lia.
      replace (length b + n - length b - length cs)%nat with 0%nat in Hw by lia.
      cbn in Hw. rewrite insert_app_r_alt in Hw by lia.
      rewrite insert_app_r_alt in Hw by lia.
      replace (length b + n - length b - length cs)%nat with 0%nat in Hw by lia.
      cbn in Hw. apply app_inv_head in Hw. apply app_inv_head in Hw. done.
    + destruct (pending_sleeping b n j due w1 _ t Hq Hp Hi Hs) as [_ ->].
      subst w1. fields. rewrite Hpool.
      rewrite insert_app_r_alt by lia. rewrite insert_app_r_alt by lia.
      replace (length b + n - length b - length cs)%nat with 0%nat by lia.
      reflexivity.
  - intros i t Hi%elem_of_seq Hi' Hs. exfalso.
    destruct (pending_sleeping b n j due w1 i t Hq Hp Hi' Hs) as [-> _]. lia.
Qed.

End BurstLoop.

Section Burst.
Context `{RemehaHomeAPI}.
Variable J : World -> Prop.                (* what the writes rely on *)
Variable valid : pyfloat -> Prop.          (* the temperatures they accept *)
Variable write : pyfloat -> command.
Variable job_of : pyfloat -> job.
Hypothesis same_key : forall t t', method_name (job_of t) = method_name (job_of t').
Hypothesis J_data : forall w w', data w = data w' -> J w -> J w'.
Hypothesis write_submits :
  forall w t, J w -> valid t ->
              submits (write t) (job_of t) w /\ J (execute (write t) w).2.

Lemma burst_snoc (first : pyfloat) (rest : list (N * pyfloat)) (g : N) (t : pyfloat)
    (w : World) :
  run (burst write first (rest ++ [(g, t)])) w =
  step (Command (write t)) (step (Elapse g) (run (burst write first rest) w)).
Proof.
  unfold burst, run. rewrite flat_map_app. cbn [flat_map].
  rewrite app_comm_cons, foldl_app. reflexivity.
Qed.

(** After the writes of a burst, none of which waited for the previous one's
    delay to pass: every earlier task is cancelled, the task of the last write
    sleeps, and no remote call has been made. *)
Lemma burst_pending (w : World) (first : pyfloat) (rest : list (N * pyfloat)) :
  quiescent (pool w) -> J w -> valid first ->
  Forall (fun gt => (gt.1 < 5)%N /\ valid gt.2) rest ->
  let w' := run (burst write first rest) w in
  J w'
  /\ pending (pool w) (length rest) (job_of (last_temperature first rest))
             (now w' + 5) w'
  /\ api_log w' = api_log w /\ zone_id w' = zone_id w.
Proof.
  intros Hq HJ Hfirst. induction rest as [|[g t] rest IH] using rev_ind; intros Hrest.
  - cbn. destruct (write_submits w first HJ Hfirst)
      as [(Hpool & Htab & Hnow & Hlog & Hzone) HJ'].
    split; [done|]. split; [|done].
    destruct (submit_quiescent (job_of first) w Hq) as (cs & Hp & ? & ? & Ht).
    exists cs. rewrite Hpool, Htab, Hnow. done.
  - apply Forall_app in Hrest as [Hrest [[Hg Ht] _]%Forall_cons].
    destruct (IH Hrest) as (HJ1 & Hp1 & Hlog1 & Hzone1). clear IH.
    rewrite burst_snoc. set (w1 := run (burst write first rest) w) in *.
    cbn [step fst snd] in *.
    assert (He : elapse (Z.of_N g) w1 = with_now (now w1 + Z.of_N g) w1).
    { eapply elapse_pending_early; [exact Hq | exact Hp1 | lia]. }
    rewrite He. set (w2 := with_now (now w1 + Z.of_N g) w1).
    assert (HJ2 : J w2) by (apply (J_data w1); done).
    destruct (write_submits w2 t HJ2 Ht) as [(Hpool & Htab & Hnow & Hlog & Hzone) HJ'].
    split; [done|].
    unfold last_temperature at 1. rewrite map_app. cbn [map snd]. rewrite last_snoc.
    cbn [default from_option id].
    split; [|split; [by rewrite Hlog | by rewrite Hzone]].
    assert (Hp2 : pending (pool w) (length rest)
                    (job_of (last_temperature first rest)) (now w1 + 5) w2).
    { destruct Hp1 as (cs & ? & ? & ? & ?). exists cs. done. }
    destruct (submit_pending _ _ _ (job_of t) _ _ (same_key _ _) Hp2)
      as (cs & Hp & Hl & Hc & Htb).
    exists cs. rewrite Hpool, Htab, Hnow, length_app. cbn [length].
    replace (length rest + 1)%nat with (S (length rest)) by lia. done.
Qed.

(** Once the delay of the last write has passed: its method has run once, in
    the world of that moment; the tasks of the superseded writes are
    cancelled. *)
Lemma burst_settles (w : World) (first : pyfloat) (rest : list (N * pyfloat))
    (settle : N) :
  quiescent (pool w) -> J w -> valid first ->
  Forall (fun gt => (gt.1 < 5)%N /\ valid gt.2) rest ->
  (5 <= settle)%N ->
  let j := job_of (last_temperature first rest) in
  let w' := run (burst write first rest ++ [Elapse settle]) w in
  exists w1 cs due,
    J w1 /\ api_log w1 = api_log w /\ zone_id w1 = zone_id w
    /\ api_log w' = api_log (method_body j w1).2
    /\ pool w' = pool w ++ cs
                   ++ [Task (method_name j) j due (Finished (method_body j w1).1)]
    /\ length cs = length rest
    /\ Forall (fun t => t_status t = Cancelled) cs.
Proof.
  intros Hq HJ Hfirst Hrest Hsettle j w'.
  destruct (burst_pending w first rest Hq HJ Hfirst Hrest) as (HJ1 & Hp & Hlog & Hzone).
  subst w'. unfold run. rewrite foldl_app. cbn [foldl step].
  fold (run (burst write first rest) w). set (w0 := run (burst write first rest) w) in *.
  destruct (elapse_pending_late _ _ _ _ (Z.of_N settle) w0 Hq Hp) as (cs & Hl & Hc & ->);
    [lia|].
  exists (with_now (now w0 + Z.of_N settle) w0), cs, (now w0 + 5).
  fields. repeat split; try done. by apply (J_data w0).
Qed.

End Burst.

(** A mode read depends on the zone dict alone. *)
Lemma climate_hvac_mode_data (w w' : World) :
  data w = data w' -> (Climate.hvac_mode w).1 = (Climate.hvac_mode w').1.
Proof.
  intros Hd. rewrite !climate_hvac_mode_eq, Hd. by destruct (data w' !! _).
Qed.

Lemma hot_water_hvac_mode_data (w w' : World) :
  data w = data w' -> (HotWater.hvac_mode w).1 = (HotWater.hvac_mode w').1.
Proof.
  intros Hd. rewrite !hot_water_hvac_mode_eq, Hd. by destruct (data w' !! _).
Qed.

Section SetTemperature.
Context `{RemehaHomeAPI}.

Lemma climate_write_submits (m : HVACMode) (t : pyfloat) (w : World) :
  m <> OFF ->
  (Climate.hvac_mode w).1 = Ok (Some m) ->
  submits (climate_set_temperature (Some t)) (Climate_set_temperature (VFloat t)) w
  /\ (Climate.hvac_mode (execute (climate_set_temperature (Some t)) w).2).1
     = Ok (Some m).
Proof.
  intros Hm HJ. pose proof (climate_hvac_mode_read w _ HJ) as Hread.
  unfold submits. cbv zeta.
  destruct (execute (climate_set_temperature (Some t)) w) as [r w'] eqn:Hex.
  unfold execute, Climate.async_set_temperature in Hex.
  rewrite (bind_eq _ _ _ _ _ Hread) in Hex.
  destruct (decide (Some m = Some OFF)) as [?|_]; [congruence|].
  unfold Climate.set_temperature in Hex. unfold_m.
  rewrite debounce_async_eq in Hex. simplify_eq. fields.
  destruct (debounce_async_frame 5 (Climate_set_temperature (VFloat t)) w)
    as (Hz & Hd & Hn & Hl & _).
  fold (after_submit (Climate_set_temperature (VFloat t)) w) in *.
  repeat split; try done.
  rewrite <- HJ. apply climate_hvac_mode_data. fields. done.
Qed.

(** The climate method makes the one call of the zone's mode. *)
Lemma climate_set_temperature_fires (m : HVACMode) (v : value) (w : World) :
  m = AUTO \/ m = HEAT ->
  (Climate.hvac_mode w).1 = Ok (Some m) ->
  api_log (Climate.set_temperature_wrapped v w).2
    = api_log w ++ [setpoint_call m (zone_id w) v]
  /\ (Climate.set_temperature_wrapped v w).1
     = outcome (api_log w) (setpoint_call m (zone_id w) v).
Proof.
  intros Hm HJ. pose proof (climate_hvac_mode_read w _ HJ) as Hread.
  unfold Climate.set_temperature_wrapped, outcome.
  rewrite (bind_eq _ _ _ _ _ Hread).
  destruct Hm as [-> | ->].
  - rewrite decide_True by done. unfold_m. cbn [setpoint_call].
    destruct (api_ok _ _); done.
  - rewrite decide_False by done.
    rewrite (bind_eq _ _ _ _ _ Hread), decide_True by done.
    unfold_m. cbn [setpoint_call]. destruct (api_ok _ _); done.
Qed.

Lemma hot_water_write_submits (t : pyfloat) (w : World) :
  is_finite t ->
  (HotWater.hvac_mode w).1 = Ok (Some HEAT) ->
  submits (hot_water_set_temperature (Some t))
          (HotWater_set_continuous_comfort_with_temperature (VInt (truncated t))) w
  /\ (HotWater.hvac_mode (execute (hot_water_set_temperature (Some t)) w).2).1
     = Ok (Some HEAT).
Proof.
  intros Ht HJ. pose proof (hot_water_hvac_mode_read w _ HJ) as Hread.
  destruct t as [q| |]; [|done..]. unfold truncated. cbn [py_int].
  unfold submits. cbv zeta.
  destruct (execute (hot_water_set_temperature (Some (Finite q))) w)
    as [r w'] eqn:Hex.
  unfold execute, HotWater.async_set_temperature in Hex. cbn [py_int] in Hex.
  unfold lift in Hex.
  rewrite (bind_eq _ _ w w (Z.quot (Qnum q) (Z.pos (Qden q)))) in Hex by done.
  rewrite (bind_eq _ _ _ _ _ Hread), decide_True in Hex by done.
  unfold HotWater.set_continuous_comfort_with_temperature in Hex. unfold_m.
  rewrite debounce_async_eq in Hex. simplify_eq. fields.
  match goal with |- context [after_submit ?j w] =>
    destruct (debounce_async_frame 5 j w) as (Hz & Hd & Hn & Hl & _);
    fold (after_submit j w) in *
  end.
  repeat split; try done.
  rewrite hot_water_hvac_mode_eq. fields. by rewrite lookup_insert_eq.
Qed.

(** The hot-water method transmits the value it was given, then selects
    continuous comfort if the first call resolved. *)
Lemma hot_water_set_comfort_fires (v : value) (w : World) :
  api_log (HotWater.set_continuous_comfort_with_temperature_wrapped v w).2
    = api_log w
        ++ async_hw_set_comfort_setpoint (zone_id w) v
           :: (if api_ok (api_log w) (async_hw_set_comfort_setpoint (zone_id w) v)
               then [async_hw_set_continuous_comfort (zone_id w)] else []).
Proof.
  unfold HotWater.set_continuous_comfort_with_temperature_wrapped. unfold_m. fields.
  destruct (api_ok (api_log w) _); fields; [|done].
  destruct (api_ok _ _); fields; by rewrite <- app_assoc.
Qed.

End SetTemperature.

(** Writes that submit nothing. *)
Section IdleBurst.
Context `{RemehaHomeAPI}.
Variable J : World -> Prop.                (* what makes the writes return early *)
Variable valid : pyfloat -> Prop.
Variable write : pyfloat -> command.
Hypothesis J_data : forall w w', data w = data w' -> J w -> J w'.
Hypothesis write_idle :
  forall w t, J w -> valid t -> (execute (write t) w).2 = w.

(** While no task sleeps, time passing moves the clock alone. *)
Lemma elapse_quiescent (dt : Z) (w : World) :
  quiescent (pool w) -> elapse dt w = with_now (now w + dt) w.
Proof.
  intros Hq. unfold elapse, run_until. apply wake_all_idle.
  intros i t _ Hi Hs. fields.
  pose proof (proj1 (Forall_lookup _ _) Hq _ _ Hi). congruence.
Qed.

(** A burst of writes each of which returns early creates no task and makes
    no remote call, however long one waits. *)
Lemma burst_idle (w : World) (first : pyfloat) (rest : list (N * pyfloat))
    (settle : N) :
  quiescent (pool w) -> J w -> valid first ->
  Forall (fun gt => valid gt.2) rest ->
  let w' := run (burst write first rest ++ [Elapse settle]) w in
  pool w' = pool w /\ api_log w' = api_log w.
Proof.
  intros Hq HJ Hfirst Hrest.
  assert (Hburst : J (run (burst write first rest) w)
                   /\ pool (run (burst write first rest) w) = pool w
                   /\ api_log (run (burst write first rest) w) = api_log w).
  { induction rest as [|[g t] rest IH] using rev_ind.
    - cbn. rewrite write_idle by done. by split_and!.
    - apply Forall_app in Hrest as [Hrest [Ht _]%Forall_cons].
      destruct (IH Hrest) as (HJ1 & Hp1 & Hl1). clear IH.
      rewrite (burst_snoc write). set (w1 := run (burst write first rest) w) in *.
      cbn [step]. rewrite elapse_quiescent by (by rewrite Hp1).
      assert (HJ2 : J (with_now (now w1 + Z.of_N g) w1)) by (by apply (J_data w1)).
      rewrite write_idle by done. fields. by split_and!. }
  destruct Hburst as (HJ1 & Hp1 & Hl1). cbv zeta.
  unfold run. rewrite foldl_app. cbn [foldl step].
  fold (run (burst write first rest) w).
  rewrite elapse_quiescent by (by rewrite Hp1). fields. by split.
Qed.

End IdleBurst.

Section SetTemperatureCases.
Context `{RemehaHomeAPI}.

(** A climate write submits whenever the mode does not read Off, also when
    it reads as no mode at all. *)
Lemma climate_write_submits_unless_off (mo : option HVACMode) (t : pyfloat)
    (w : World) :
  mo <> Some OFF ->
  (Climate.hvac_mode w).1 = Ok mo ->
  submits (climate_set_temperature (Some t)) (Climate_set_temperature (VFloat t)) w
  /\ (Climate.hvac_mode (execute (climate_set_temperature (Some t)) w).2).1 = Ok mo.
Proof.
  intros Hm HJ. pose proof (climate_hvac_mode_read w _ HJ) as Hread.
  unfold submits. cbv zeta.
  destruct (execute (climate_set_temperature (Some t)) w) as [r w'] eqn:Hex.
  unfold execute, Climate.async_set_temperature in Hex.
  rewrite (bind_eq _ _ _ _ _ Hread), decide_False in Hex by done.
  unfold Climate.set_temperature in Hex. unfold_m.
  rewrite debounce_async_eq in Hex. simplify_eq. fields.
  destruct (debounce_async_frame 5 (Climate_set_temperature (VFloat t)) w)
    as (Hz & Hd & Hn & Hl & _).
  fold (after_submit (Climate_set_temperature (VFloat t)) w) in *.
  repeat split; try done.
  rewrite <- HJ. apply climate_hvac_mode_data. fields. done.
Qed.

(** The climate method does nothing when the mode reads neither Auto nor
    Heat. *)
Lemma climate_set_temperature_no_call (mo : option HVACMode) (v : value)
    (w : World) :
  mo <> Some AUTO -> mo <> Some HEAT ->
  (Climate.hvac_mode w).1 = Ok mo ->
  Climate.set_temperature_wrapped v w = (Ok tt, w).
Proof.
  intros Ha Hh HJ. pose proof (climate_hvac_mode_read w _ HJ) as Hread.
  unfold Climate.set_temperature_wrapped.
  rewrite (bind_eq _ _ _ _ _ Hread), decide_False by done.
  by rewrite (bind_eq _ _ _ _ _ Hread), decide_False.
Qed.

(** A climate write returns at once while the mode reads Off. *)
Lemma climate_write_off (t : pyfloat) (w : World) :
  (Climate.hvac_mode w).1 = Ok (Some OFF) ->
  (execute (climate_set_temperature (Some t)) w).2 = w.
Proof.
  intros Hread%climate_hvac_mode_read.
  unfold execute, Climate.async_set_temperature.
  by rewrite (bind_eq _ _ _ _ _ Hread), decide_True.
Qed.

(** A hot-water write of a finite temperature returns at once while the mode
    does not read Heat. *)
Lemma hot_water_write_not_heat (mo : option HVACMode) (t : pyfloat) (w : World) :
  mo <> Some HEAT -> is_finite t ->
  (HotWater.hvac_mode w).1 = Ok mo ->
  (execute (hot_water_set_temperature (Some t)) w).2 = w.
Proof.
  intros Hm Ht Hread%hot_water_hvac_mode_read.
  destruct t as [q| |]; [|done..].
  unfold execute, HotWater.async_set_temperature. cbn [py_int]. unfold lift.
  rewrite (bind_eq _ _ w w (Z.quot (Qnum q) (Z.pos (Qden q)))) by done.
  by rewrite (bind_eq _ _ _ _ _ Hread), decide_False.
Qed.

End SetTemperatureCases.

(** C1 (amended). A burst of set-temperature writes to a zone of climate.py
    whose mode can be read, started with no task asleep, each write arriving
    less than 5 seconds after the previous one; the state once 5 seconds have
    passed after the last write, case by case.
    - Climate zone, mode reads Auto or Heat: the tasks of all superseded
      writes are cancelled (their method never ran), the method of the last
      write has run once, and exactly one remote call was made, the temporary
      override (Auto) or the manual setpoint (Heat) with the last
      temperature.
    - Hot-water zone, mode reads Heat, temperatures finite: the same holds of
      the tasks, and exactly one comfort-setpoint call was made, with the
      last temperature truncated, followed by the continuous-comfort call if
      the first resolved.
    - Climate zone, mode reads as none of Off, Auto, Heat: the same holds of
      the tasks, and the method of the last write made no remote call.
    - Climate zone, mode reads Off: no write submitted anything; no task was
      created and no remote call made.
    - Hot-water zone, mode does not read Heat, temperatures finite: no write
      submitted anything; no task was created and no remote call made. *)
Theorem burst_makes_one_setpoint_call `{RemehaHomeAPI}
    (w : World) (first : pyfloat) (rest : list (N * pyfloat)) (settle : N) :
  quiescent (pool w) ->
  Forall (fun gt => (gt.1 < 5)%N) rest ->
  (5 <= settle)%N ->
  let t := last_temperature first rest in
  (forall m, (Climate.hvac_mode w).1 = Ok (Some m) -> m = AUTO \/ m = HEAT ->
     let w' := run (burst (fun t => climate_set_temperature (Some t)) first rest
                      ++ [Elapse settle]) w in
     api_log w' = api_log w ++ [setpoint_call m (zone_id w) (VFloat t)]
     /\ exists cs due,
          pool w' = pool w ++ cs
            ++ [Task "set_temperature" (Climate_set_temperature (VFloat t)) due
                  (Finished (outcome (api_log w)
                               (setpoint_call m (zone_id w) (VFloat t))))]
          /\ length cs = length rest
          /\ Forall (fun t => t_status t = Cancelled) cs)
  /\ ((HotWater.hvac_mode w).1 = Ok (Some HEAT) ->
      Forall is_finite (first :: map snd rest) ->
      let w' := run (burst (fun t => hot_water_set_temperature (Some t)) first rest
                       ++ [Elapse settle]) w in
      let c := async_hw_set_comfort_setpoint (zone_id w) (VInt (truncated t)) in
      py_int t = Ok (truncated t)
      /\ api_log w' = api_log w
           ++ c :: (if api_ok (api_log w) c
                    then [async_hw_set_continuous_comfort (zone_id w)] else [])
      /\ exists cs due r,
           pool w' = pool w ++ cs
             ++ [Task "set_continuous_comfort_with_temperature"
                   (HotWater_set_continuous_comfort_with_temperature
                      (VInt (truncated t))) due (Finished r)]
           /\ length cs = length rest
           /\ Forall (fun t => t_status t = Cancelled) cs)
  /\ (forall mo, (Climate.hvac_mode w).1 = Ok mo ->
        mo <> Some OFF -> mo <> Some AUTO -> mo <> Some HEAT ->
        let w' := run (burst (fun t => climate_set_temperature (Some t)) first rest
                         ++ [Elapse settle]) w in
        api_log w' = api_log w
        /\ exists cs due,
             pool w' = pool w ++ cs
               ++ [Task "set_temperature" (Climate_set_temperature (VFloat t)) due
                     (Finished (Ok tt))]
             /\ length cs = length rest
             /\ Forall (fun t => t_status t = Cancelled) cs)
  /\ ((Climate.hvac_mode w).1 = Ok (Some OFF) ->
      let w' := run (burst (fun t => climate_set_temperature (Some t)) first rest
                       ++ [Elapse settle]) w in
      pool w' = pool w /\ api_log w' = api_log w)
  /\ (forall mo, (HotWater.hvac_mode w).1 = Ok mo -> mo <> Some HEAT ->
        Forall is_finite (first :: map snd rest) ->
        let w' := run (burst (fun t => hot_water_set_temperature (Some t)) first rest
                         ++ [Elapse settle]) w in
        pool w' = pool w /\ api_log w' = api_log w).
Proof.
  intros Hq Hgaps Hsettle t. split_and!.
  - intros m HJ Hm.
    assert (Hoff : m <> OFF) by (destruct Hm; congruence).
    destruct (burst_settles
                (fun w => (Climate.hvac_mode w).1 = Ok (Some m))
                (fun _ => True)
                (fun t => climate_set_temperature (Some t))
                (fun t => Climate_set_temperature (VFloat t))
                (fun _ _ => eq_refl))
      with (w := w) (first := first) (rest := rest) (settle := settle)
      as (w1 & cs & due & HJ1 & Hlog1 & Hz1 & Hlog & Hpool & Hlen & Hcs);
      try done.
    + intros w0 w0' Hd <-. symmetry. by apply climate_hvac_mode_data.
    + intros w0 t0 HJ0 _. by apply climate_write_submits.
    + eapply Forall_impl; [exact Hgaps | by intros].
    + cbv zeta. fold t in Hlog, Hpool. cbn [method_body method_name] in *.
      destruct (climate_set_temperature_fires m (VFloat t) w1 Hm HJ1) as [Hl Hr].
      rewrite Hlog, Hl, Hlog1, Hz1. split; [done|].
      exists cs, due. rewrite Hpool, Hr, Hlog1, Hz1. done.
  - intros HJ Hfin.
    destruct (burst_settles
                (fun w => (HotWater.hvac_mode w).1 = Ok (Some HEAT))
                is_finite
                (fun t => hot_water_set_temperature (Some t))
                (fun t => HotWater_set_continuous_comfort_with_temperature
                            (VInt (truncated t)))
                (fun _ _ => eq_refl))
      with (w := w) (first := first) (rest := rest) (settle := settle)
      as (w1 & cs & due & HJ1 & Hlog1 & Hz1 & Hlog & Hpool & Hlen & Hcs);
      try done.
    + intros w0 w0' Hd <-. symmetry. by apply hot_water_hvac_mode_data.
    + intros w0 t0 HJ0 Ht0. by apply hot_water_write_submits.
    + by apply Forall_cons in Hfin as [? _].
    + apply Forall_cons in Hfin as [_ Hfin].
      apply Forall_lookup. intros i [g t0] Hi. split.
      * by apply (proj1 (Forall_lookup _ _) Hgaps i (g, t0)).
      * apply (proj1 (Forall_lookup _ _) Hfin i). by rewrite list_lookup_fmap, Hi.
    + cbv zeta. fold t in Hlog, Hpool. cbn [method_body method_name] in *.
      split.
      { assert (Ht : is_finite t).
        { unfold t, last_temperature.
          destruct (last (map snd rest)) as [x|] eqn:Hlast; cbn.
          - apply last_Some_elem_of in Hlast.
            apply (proj1 (Forall_forall _ _) Hfin). by right.
          - by apply Forall_cons in Hfin as [? _]. }
        unfold truncated. by destruct t. }
      rewrite Hlog, hot_water_set_comfort_fires, Hlog1, Hz1. split; [done|].
      exists cs, due. eexists. rewrite Hpool. done.
  - intros mo HJ Hoff Hauto Hheat.
    destruct (burst_settles
                (fun w => (Climate.hvac_mode w).1 = Ok mo)
                (fun _ => True)
                (fun t => climate_set_temperature (Some t))
                (fun t => Climate_set_temperature (VFloat t))
                (fun _ _ => eq_refl))
      with (w := w) (first := first) (rest := rest) (settle := settle)
      as (w1 & cs & due & HJ1 & Hlog1 & Hz1 & Hlog & Hpool & Hlen & Hcs);
      try done.
    + intros w0 w0' Hd <-. symmetry. by apply climate_hvac_mode_data.
    + intros w0 t0 HJ0 _. by apply climate_write_submits_unless_off.
    + eapply Forall_impl; [exact Hgaps | by intros].
    + cbv zeta. fold t in Hlog, Hpool. cbn [method_body method_name] in *.
      rewrite (climate_set_temperature_no_call mo (VFloat t) w1) in Hlog, Hpool
        by done.
      cbn [fst snd] in *. split; [by rewrite Hlog|].
      exists cs, due. by rewrite Hpool.
  - intros HJ.
    apply (burst_idle (fun w => (Climate.hvac_mode w).1 = Ok (Some OFF))
             (fun _ => True) (fun t => climate_set_temperature (Some t)));
      try done.
    + intros w0 w0' Hd <-. symmetry. by apply climate_hvac_mode_data.
    + intros w0 t0 HJ0 _. by apply climate_write_off.
    + eapply Forall_impl; [exact Hgaps | by intros].
  - intros mo HJ Hm Hfin.
    apply (burst_idle (fun w => (HotWater.hvac_mode w).1 = Ok mo)
             is_finite (fun t => hot_water_set_temperature (Some t)));
      try done.
    + intros w0 w0' Hd <-. symmetry. by apply hot_water_hvac_mode_data.
    + intros w0 t0 HJ0 Ht0. by apply (hot_water_write_not_heat mo).
    + by apply Forall_cons in Hfin as [? _].
    + apply Forall_cons in Hfin as [_ Hfin].
      apply Forall_lookup. intros i [g t0] Hi.
      apply (proj1 (Forall_lookup _ _) Hfin i). by rewrite list_lookup_fmap, Hi.
Qed.

Lemma burst_makes_one_setpoint_call_witness :
  let w := new_entity "z1" heat_zone 0 in
  let hw := new_entity "hw1" hot_water_zone_heat 0 in
  let off := new_entity "z1" off_zone 0 in
  let hw_auto := new_entity "hw1" hot_water_zone_auto 0 in
  api_log (run (H := api_always_ok)
             (burst (fun t => climate_set_temperature (Some t))
                    (Finite (43 # 2)) two_more_rapid ++ [Elapse 5]) w)
  = api_log w ++ [async_set_manual "z1" (VFloat (Finite (45 # 2)))]
  /\ api_log (run (H := api_always_ok)
                (burst (fun t => hot_water_set_temperature (Some t))
                       (Finite (43 # 2)) two_more_rapid ++ [Elapse 5]) hw)
     = [ async_hw_set_comfort_setpoint "hw1" (VInt 22);
         async_hw_set_continuous_comfort "hw1" ]
  /\ pool (run (H := api_always_ok)
             (burst (fun t => climate_set_temperature (Some t))
                    (Finite (43 # 2)) two_more_rapid ++ [Elapse 5]) off) = []
  /\ api_log (run (H := api_always_ok)
                (burst (fun t => hot_water_set_temperature (Some t))
                       (Finite (43 # 2)) two_more_rapid ++ [Elapse 5]) hw_auto) = [].
Proof.
  intros w hw off hw_auto.
  assert (Hgaps : Forall (fun gt : N * pyfloat => (gt.1 < 5)%N) two_more_rapid)
    by (repeat constructor).
  assert (Hsettle : (5 <= 5)%N) by lia.
  assert (Hq : quiescent []) by constructor.
  assert (Hfin : Forall is_finite (Finite (43 # 2) :: map snd two_more_rapid))
    by (repeat constructor).
  assert (Hne : Some AUTO <> Some HEAT) by discriminate.
  refine (conj _ (conj _ (conj _ _))).
  - destruct (burst_makes_one_setpoint_call (H := api_always_ok) w
                (Finite (43 # 2)) two_more_rapid 5 Hq Hgaps Hsettle)
      as [Hclimate _].
    exact (proj1 (Hclimate HEAT eq_refl (or_intror eq_refl))).
  - destruct (burst_makes_one_setpoint_call (H := api_always_ok) hw
                (Finite (43 # 2)) two_more_rapid 5 Hq Hgaps Hsettle)
      as (_ & Hhot & _).
    exact (proj1 (proj2 (Hhot eq_refl Hfin))).
  - destruct (burst_makes_one_setpoint_call (H := api_always_ok) off
                (Finite (43 # 2)) two_more_rapid 5 Hq Hgaps Hsettle)
      as (_ & _ & _ & Hoff & _).
    exact (proj1 (Hoff eq_refl)).
  - destruct (burst_makes_one_setpoint_call (H := api_always_ok) hw_auto
                (Finite (43 # 2)) two_more_rapid 5 Hq Hgaps Hsettle)
      as (_ & _ & _ & _ & Hidle).
    exact (proj2 (Hidle (Some AUTO) eq_refl Hne Hfin)).
Defined.

(** C1 (counterexample). Three rapid set-temperature writes to a climate zone
    that is off make no remote call at all: the write returns before
    submitting anything. Three rapid calls of the decorated method itself on
    that zone are debounced, the last one runs, and it makes no remote call
    either. Two writes one second apart to the hot-water entity of
    hot_water.py in Heat, which has no debounce, are both transmitted. *)
Lemma burst_without_one_setpoint_call :
  let w := new_entity "z1" off_zone 0 in
  let writes :=
    run (H := api_always_ok)
      (burst (fun t => climate_set_temperature (Some t)) (Finite (43 # 2)) two_more_rapid
         ++ [Elapse 5]) w in
  let calls :=
    run (H := api_always_ok)
      (burst (fun t => call_debounced (Climate_set_temperature (VFloat t)))
             (Finite (43 # 2)) two_more_rapid ++ [Elapse 5]) w in
  let legacy :=
    let w0 := new_entity "hw1" legacy_heat_zone 0 in
    let w1 := (LegacyHotWater.async_set_temperature (H := api_always_ok)
                 (Some (Finite 45)) w0).2 in
    (LegacyHotWater.async_set_temperature (H := api_always_ok)
       (Some (Finite 46)) (elapse (H := api_always_ok) 1 w1)).2 in
  (Climate.hvac_mode w).1 = Ok (Some OFF)
  /\ api_log writes = [] /\ pool writes = []
  /\ api_log calls = []
  /\ t_status <$> pool calls = [Cancelled; Cancelled; Finished (Ok tt)]
  /\ api_log legacy =
       [ async_hw_set_comfort_setpoint "hw1" (VFloat (Finite 45));
         async_hw_set_continuous_comfort "hw1";
         async_hw_set_comfort_setpoint "hw1" (VFloat (Finite 46));
         async_hw_set_continuous_comfort "hw1" ].
Proof. cbv zeta. repeat split; vm_compute; reflexivity. Qed.

(** ** Presets *)

(** The method behind a preset change always ends in a TypeError once its
    first call has resolved, whatever the previous mode: the test that guards
    the schedule call applies the enum member [HVACMode.AUTO]. *)
Lemma activate_heating_time_program_raises `{RemehaHomeAPI}
    (n : Z) (prev : option HVACMode) (w : World) :
  let c := async_activate_heating_time_program (zone_id w) (VInt n) in
  api_ok (api_log w) c = true ->
  Climate.activate_heating_time_program_wrapped n prev w
  = (Raise TypeError, with_api_log (api_log w ++ [c]) w).
Proof.
  cbv zeta. intros Hok. unfold Climate.activate_heating_time_program_wrapped.
  unfold_m. by rewrite Hok.
Qed.

(** C2 (evaluation at the failing input). Climate zone in Auto with program
    2, preset changed to program 1 (named clock_program_1 in the preset
    table): the overlay reads Auto with program 1 and the caller returns;
    when the task fires, the activate call with index 1 is the only remote
    call, and the task then ends with a TypeError instead of completing. The
    name program_1 itself is not in the table: with it the write is dropped
    and nothing changes. *)
Theorem set_preset_task_ends_in_type_error :
  let w := new_entity "z1" auto_zone_program_2 0 in
  let out := Climate.async_set_preset_mode "clock_program_1" w in
  let w' := elapse (H := api_always_ok) 5 out.2 in
  (Climate.hvac_mode w).1 = Ok (Some AUTO)
  /\ data w !! "activeHeatingClimateTimeProgramNumber" = Some (VInt 2)
  /\ out.1 = Ok tt
  /\ (Climate.hvac_mode out.2).1 = Ok (Some AUTO)
  /\ data out.2 !! "activeHeatingClimateTimeProgramNumber" = Some (VInt 1)
  /\ api_log w' = [async_activate_heating_time_program "z1" (VInt 1)]
  /\ t_status <$> pool w' = [Finished (Raise TypeError)]
  /\ Climate.async_set_preset_mode "program_1" w = (Ok tt, w).
Proof. cbv zeta. repeat split; vm_compute; reflexivity. Qed.

(** ** Remote failures *)

Section Failures.
Context `{RemehaHomeAPI}.

(** A method that ends with a remote failure stopped at the failing call: the
    calls before it resolved, and it is the last one made. *)
Lemma method_body_failure (j : job) (w : World) :
  (method_body j w).1 = Raise ApiError ->
  exists made c,
    api_log (method_body j w).2 = api_log w ++ made ++ [c]
    /\ all_resolved (api_log w) made = true
    /\ api_ok (api_log w ++ made) c = false.
Proof.
  destruct j; unfold method_body;
    unfold Climate.set_temperature_wrapped, Climate.set_hvac_mode_wrapped,
      Climate.activate_heating_time_program_wrapped,
      HotWater.set_continuous_comfort_with_temperature_wrapped,
      HotWater.set_hvac_mode_wrapped, HotWater.set_schedule_wrapped,
      Climate.hvac_mode;
    unfold_m; fields;
    repeat (case_match; simplify_eq; fields); intros Hr; simplify_eq;
    first
      [ by (eexists [], _; rewrite app_nil_r; cbn [all_resolved app])
      | by (eexists [_], _; rewrite <- app_assoc; cbn [all_resolved app];
            split; [reflexivity|]; split; [by apply andb_true_intro|done]) ].
Qed.

(** No write of the control surface, and no call of a decorated method,
    raises a remote failure: they make no remote call. *)
Lemma execute_no_api_error (c : command) (w : World) :
  (execute c w).1 <> Raise ApiError /\ api_log (execute c w).2 = api_log w.
Proof.
  destruct c; unfold execute;
    unfold Climate.async_set_temperature, Climate.async_set_hvac_mode,
      Climate.async_set_preset_mode, HotWater.async_set_temperature,
      HotWater.async_set_hvac_mode, HotWater.async_set_preset_mode;
    try (split; [done | apply debounce_async_frame]);
    exec;
    (split;
     [first [ done
            | by (intros [= ->];
                  match goal with Hp : py_int ?p = _ |- _ => destruct p end) ]|]);
    try reflexivity;
    match goal with
    | |- context [after_submit ?j ?w0] =>
        unfold after_submit;
        destruct (debounce_async_frame 5 j w0) as (_ & _ & _ & -> & _); by fields
    end.
Qed.

(** C7 (amended). When the task of a debounced command fires and its method
    ends with a remote failure, the failure ends the task: the task's outcome
    is the error (the wrapper does not swallow it), the failing call is the
    last call made, once, after calls that resolved (nothing is retried), and
    the task never runs again. The caller of the write does not observe it:
    no write raises a remote failure or makes a remote call, it has returned
    when the task fires. *)
Theorem remote_failure_ends_the_task (i : nat) (t : task) (w : World) :
  pool w !! i = Some t -> is_sleeping t = true -> t_due t <= now w ->
  (method_body (t_job t) w).1 = Raise ApiError ->
  let w' := wake i w in
  (t_status <$> pool w' !! i) = Some (Finished (Raise ApiError))
  /\ (exists made c,
        api_log w' = api_log w ++ made ++ [c]
        /\ all_resolved (api_log w) made = true
        /\ api_ok (api_log w ++ made) c = false)
  /\ wake i w' = w'
  /\ forall c w0, (execute c w0).1 <> Raise ApiError
                  /\ api_log (execute c w0).2 = api_log w0.
Proof.
  intros Hi Hs Hdue Herr w'.
  destruct (wake_cases i w) as [Hw | (t' & Hi' & _ & _ & Hw)].
  { exfalso. unfold wake in Hw. rewrite Hi in Hw. unfold is_sleeping in Hs.
    destruct (t_status t) eqn:Hst; try done. rewrite decide_True in Hw by done.
    pose proof (method_body_frame (t_job t) w) as Hf.
    destruct (method_body (t_job t) w) as [r w1]. apply (f_equal pool) in Hw.
    fields. rewrite Hf in Hw. fields. unfold set_status in Hw. rewrite Hi in Hw.
    apply (f_equal (fun p => t_status <$> p !! i)) in Hw.
    rewrite list_lookup_insert_eq in Hw by (by eapply lookup_lt_Some).
    rewrite Hi in Hw. cbn in Hw. congruence. }
  assert (t' = t) as -> by congruence.
  assert (Hlt : (i < length (pool w))%nat) by (by eapply lookup_lt_Some).
  subst w'. rewrite Hw. fields. repeat split.
  - rewrite list_lookup_insert_eq by done. cbn. by rewrite Herr.
  - by apply method_body_failure.
  - apply wake_idle. fields. intros t0.
    rewrite list_lookup_insert_eq by done. by intros [= <-].
  - apply execute_no_api_error.
  - apply execute_no_api_error.
Qed.

End Failures.

Lemma remote_failure_ends_the_task_witness :
  let w := with_now 5
             (Climate.async_set_temperature (Some (Finite (45 # 2)))
                (new_entity "z1" heat_zone 0)).2 in
  (t_status <$> pool (wake (H := api_always_failing) 0 w) !! 0%nat)
  = Some (Finished (Raise ApiError)).
Proof.
  intros w.
  refine (proj1 (remote_failure_ends_the_task (H := api_always_failing) 0
                   (Task "set_temperature"
                         (Climate_set_temperature (VFloat (Finite (45 # 2))))
                         5 Sleeping) w _ _ _ _)).
  - reflexivity.
  - reflexivity.
  - vm_compute. discriminate.
  - reflexivity.
Defined.

(** C7 (counterexample). Climate zone in Heat, remote API failing: the write
    returns normally without any remote call; five seconds later the task
    fires, the manual-setpoint call fails, and the error stays in the task.
    The caller of the write has not seen it. *)
Lemma caller_does_not_observe_remote_failure :
  let w := new_entity "z1" heat_zone 0 in
  let out := Climate.async_set_temperature (Some (Finite (45 # 2))) w in
  let w' := elapse (H := api_always_failing) 5 out.2 in
  out.1 = Ok tt
  /\ out.1 <> Raise ApiError
  /\ api_log out.2 = []
  /\ api_log w' = [async_set_manual "z1" (VFloat (Finite (45 # 2)))]
  /\ api_ok (RemehaHomeAPI := api_always_failing) []
       (async_set_manual "z1" (VFloat (Finite (45 # 2)))) = false
  /\ t_status <$> pool w' = [Finished (Raise ApiError)].
Proof. cbv zeta. repeat split; try (vm_compute; reflexivity). discriminate. Qed.

(** ** The update block *)

Section UpdateBlock.
Context `{RemehaHomeAPI}.

(** A poll that arrives while the update block lasts does not touch the zone
    dict, whatever fired in between. *)
Lemma poll_blocked (w : World) (deadline : Z) (dt : N)
    (snapshot : gmap string value) :
  block_until w = Some deadline -> now w + Z.of_N dt <= deadline ->
  data (run [Elapse dt; Poll snapshot] w) = data w.
Proof.
  intros Hb Hdt. cbn [run foldl step]. unfold apply_poll.
  destruct (elapse_frame (Z.of_N dt) w) as (_ & Hd & Hn & Hbl & _).
  rewrite Hbl, Hb, Hn, decide_True by done. exact Hd.
Qed.

Lemma after_submit_length (j : job) (w : World) :
  length (pool (after_submit j w)) = S (length (pool w)).
Proof.
  unfold after_submit. rewrite debounce_async_pool, length_app.
  rewrite pool_after_cancel_length. cbn. lia.
Qed.

(** A write either submits nothing and leaves the update block as it was, or
    submits one debounced command, returns normally and sets the update block
    to 60 seconds from now. *)
Lemma write_cases (c : command) (w : World) :
  is_write c = true ->
  (pool (execute c w).2 = pool w /\ block_until (execute c w).2 = block_until w)
  \/ (length (pool (execute c w).2) = S (length (pool w))
      /\ (execute c w).1 = Ok tt
      /\ block_until (execute c w).2 = Some (now w + 60)
      /\ now (execute c w).2 = now w).
Proof.
  intros Hc. destruct (execute c w) as [r w'] eqn:Hex.
  destruct c; try discriminate Hc; clear Hc; unfold execute in Hex;
    unfold Climate.async_set_temperature, Climate.async_set_hvac_mode,
      Climate.async_set_preset_mode, HotWater.async_set_temperature,
      HotWater.async_set_hvac_mode, HotWater.async_set_preset_mode in Hex;
    exec; try (left; split; reflexivity);
    right;
    match goal with
    | |- context [after_submit ?j ?w0] =>
        pose proof (after_submit_length j w0) as Hlen;
        destruct (debounce_async_frame 5 j w0) as (_ & _ & Hnow & _);
        fold (after_submit j w0) in Hnow; fields
    end;
    rewrite Hnow; done.
Qed.

(** A write submits exactly when its guards hold. *)
Lemma submitted_iff_commits (c : command) (w : World) :
  is_write c = true ->
  length (pool (execute c w).2) = S (length (pool w)) <-> commits c w.
Proof.
  intros Hc. destruct (execute c w) as [r w'] eqn:Hex.
  destruct c; try discriminate Hc; clear Hc; unfold execute in Hex;
    unfold Climate.async_set_temperature, Climate.async_set_hvac_mode,
      Climate.async_set_preset_mode, HotWater.async_set_temperature,
      HotWater.async_set_hvac_mode, HotWater.async_set_preset_mode in Hex;
    unfold commits; exec;
    try match goal with
    | |- context [after_submit ?j ?w0] =>
        pose proof (after_submit_length j w0) as Hlen; fields
    end.
  all: try (split; [intros; lia|]).
  all: try (split; [intros _|done]).
  all: unfold is_Some, Climate.hvac_modes, HotWater.hvac_modes in *.
  all: try (by (intros; exfalso; naive_solver)).
  all: try (by (apply dec_stable; naive_solver)).
  all: try (by naive_solver).
  all: try (by destruct hvac_mode; set_solver).
  all: try (by (destruct p; naive_solver)).
  all: try (by (split; [set_solver | naive_solver])).
  all: repeat match goal with
              | Hl : <[_:=_]> _ !! _ = _ |- _ => rewrite lookup_insert_ne in Hl by done
              end.
  - split; [set_solver | eauto].
  - intros [_ Hx]. destruct (Hx eq_refl). simplify_eq.
Qed.

(** C6 (amended). A write to an entity of climate.py whose guards hold
    returns normally with the update block set to 60 seconds from the write,
    and a poll within those 60 seconds leaves the overlaid zone dict
    untouched. A write whose guards do not hold submits nothing and leaves
    the update block as it was. *)
Theorem write_that_submits_blocks_refresh (c : command) (w : World) (dt : N)
    (snapshot : gmap string value) :
  is_write c = true ->
  let out := execute c w in
  (commits c w ->
   out.1 = Ok tt
   /\ length (pool out.2) = S (length (pool w))
   /\ block_until out.2 = Some (now w + 60)
   /\ ((dt <= 60)%N ->
       data (run [Elapse dt; Poll snapshot] out.2) = data out.2))
  /\ (~ commits c w ->
      pool out.2 = pool w /\ block_until out.2 = block_until w).
Proof.
  intros Hc. cbv zeta.
  pose proof (submitted_iff_commits c w Hc) as Hiff.
  destruct (write_cases c w Hc) as [[Hpool Hsame] | (Hlen & Hr & Hblock & Hnow)].
  - split; [|done]. intros Hcommits%Hiff. rewrite Hpool in Hcommits. lia.
  - split; [|by intros Hn; destruct Hn; apply Hiff].
    intros _. repeat split; try done.
    intros Hdt. eapply poll_blocked; [exact Hblock | lia].
Qed.

End UpdateBlock.

Lemma write_that_submits_blocks_refresh_witness :
  let w := new_entity "z1" heat_zone 100 in
  let out := execute (climate_set_hvac_mode AUTO) w in
  block_until out.2 = Some 160
  /\ data (run (H := api_always_ok)
             [Elapse 30; Poll (<["zoneMode" := VStr "Manual"]> (data w))] out.2)
     = data out.2.
Proof.
  intros w out.
  assert (Hcommits : commits (climate_set_hvac_mode AUTO) w)
    by (unfold commits, Climate.hvac_modes; set_solver).
  destruct (proj1 (write_that_submits_blocks_refresh (H := api_always_ok)
                     (climate_set_hvac_mode AUTO) w 30
                     (<["zoneMode" := VStr "Manual"]> (data w)) eq_refl) Hcommits)
    as (_ & _ & Hblock & Hpoll).
  split; [exact Hblock | apply Hpoll; lia].
Defined.

(** C6 (counterexample). A hot-water zone of climate.py in Auto accepts the
    preset write without an error, but submits nothing and leaves the update
    block unset; a poll ten seconds later replaces the zone dict. The
    hot-water entity of hot_water.py accepts a mode write, overlays the mode
    and makes the remote call, and has no update block to set. *)
Lemma write_without_update_block :
  let w := new_entity "hw1" hot_water_zone_auto 100 in
  let out := HotWater.async_set_preset_mode "Scheduling program" w in
  let snapshot : gmap string value := py_dict [("dhwZoneMode", VStr "Off")] in
  let legacy :=
    LegacyHotWater.async_set_hvac_mode (H := api_always_ok) HEAT
      (new_entity "hw1" hot_water_zone_off 100) in
  out.1 = Ok tt
  /\ refresh_requests out.2 = 1%nat
  /\ block_until out.2 = None
  /\ block_until out.2 <> Some (now w + 60)
  /\ data (run (H := api_always_ok) [Elapse 10; Poll snapshot] out.2) = snapshot
  /\ legacy.1 = Ok tt
  /\ data legacy.2 !! "dhwZoneMode" = Some (VStr "Manual")
  /\ api_log legacy.2 = [async_hw_set_continuous_comfort "hw1"]
  /\ block_until legacy.2 = None.
Proof. cbv zeta. repeat split; try (vm_compute; reflexivity). discriminate. Qed.

(** ** Hot-water setpoints in climate.py *)

(** The hot-water write of climate.py either submits nothing or submits the
    comfort method with the requested temperature truncated to an int. *)
Lemma hot_water_write_truncates (t : pyfloat) (w : World) :
  let w' := (HotWater.async_set_temperature (Some t) w).2 in
  pool w' = pool w
  \/ exists n,
       py_int t = Ok n
       /\ is_whole (VInt n) = true
       /\ last (pool w')
          = Some (Task "set_continuous_comfort_with_temperature"
                       (HotWater_set_continuous_comfort_with_temperature (VInt n))
                       (now w + 5) Sleeping).
Proof.
  cbv zeta.
  destruct (HotWater.async_set_temperature (Some t) w) as [r w'] eqn:Hex.
  unfold HotWater.async_set_temperature in Hex.
  exec; try (left; reflexivity).
  right. eexists. split; [reflexivity|]. split; [reflexivity|].
  unfold after_submit. by rewrite debounce_async_pool, last_snoc.
Qed.

(** * Further properties of the entities *)

(** ** Reads after a mode write *)

(** The world a supported mode write of the climate class leaves. *)
Lemma climate_set_hvac_mode_eq (m : HVACMode) (w : World) :
  m ∈ Climate.hvac_modes ->
  Climate.async_set_hvac_mode m w =
  (Ok tt,
   with_refresh_requests (S (refresh_requests w))
     (with_block_until (Some (now w + 60))
        (after_submit (Climate_set_hvac_mode m)
           (with_ha_state_writes (S (ha_state_writes w))
              (with_data
                 (<["zoneMode" := str_or_none (Tables.HVAC_MODE_TO_REMEHA_MODE !! m)]>
                    (data w)) w))))).
Proof.
  intros Hm. unfold Climate.async_set_hvac_mode.
  rewrite decide_False by (by intros ?).
  unfold Climate.set_hvac_mode. unfold_m. rewrite debounce_async_eq. fields.
  match goal with |- context [after_submit ?j ?w0] =>
    destruct (debounce_async_frame 5 j w0) as (_ & _ & Hnow & _);
    fold (after_submit j w0) in Hnow; rewrite Hnow
  end.
  reflexivity.
Qed.

Section ModeReads.
Context `{RemehaHomeAPI}.

(** X1. A write of a supported mode (Off, Heat, Auto) to a climate entity
    returns without error and without a remote call, notifies the observers
    once, changes no field of the zone dict but [zoneMode], and the overlay
    survives any time passing without a poll. The mode then reads as the mode
    written; after Off the action reads off, the target temperature None and
    the preset anti_frost, after Heat the preset reads manual. *)
Theorem climate_set_mode_reads (m : HVACMode) (w : World) (dt : Z) :
  m ∈ Climate.hvac_modes ->
  let out := Climate.async_set_hvac_mode m w in
  out.1 = Ok tt
  /\ api_log out.2 = api_log w
  /\ ha_state_writes out.2 = S (ha_state_writes w)
  /\ (forall key, key <> "zoneMode" -> data out.2 !! key = data w !! key)
  /\ data (elapse dt out.2) = data out.2
  /\ (Climate.hvac_mode out.2).1 = Ok (Some m)
  /\ (m = OFF ->
      (Climate.hvac_action out.2).1 = Ok (Some ACTION_OFF)
      /\ (Climate.target_temperature out.2).1 = Ok VNone
      /\ (Climate.preset_mode out.2).1 = Ok "anti_frost")
  /\ (m = HEAT -> (Climate.preset_mode out.2).1 = Ok "manual").
Proof.
  intros Hm. cbv zeta. rewrite (climate_set_hvac_mode_eq m w Hm). cbn [fst snd].
  set (j := Climate_set_hvac_mode m).
  set (w0 := with_ha_state_writes _ _).
  destruct (debounce_async_frame 5 j w0) as (_ & Hd & _ & Hl & _ & Hha & _).
  fold (after_submit j w0) in *. fields.
  assert (Hmode : forall w1, data w1 = data (after_submit j w0) ->
                             Climate.hvac_mode w1 = (Ok (Some m), w1)).
  { intros w1 Hw1. rewrite climate_hvac_mode_eq, Hw1, Hd. subst w0. fields.
    rewrite lookup_insert_eq. unfold Climate.hvac_modes in Hm.
    destruct m; try (exfalso; set_solver); reflexivity. }
  set (w1 := with_refresh_requests _ _).
  assert (Hw1 : data w1 = data (after_submit j w0)) by reflexivity.
  split_and!.
  - reflexivity.
  - exact Hl.
  - exact Hha.
  - intros key Hkey. rewrite Hd. subst w0. fields. by rewrite lookup_insert_ne.
  - by destruct (elapse_frame dt w1) as (_ & -> & _).
  - by rewrite (Hmode w1 Hw1).
  - intros ->. split_and!.
    + unfold Climate.hvac_action. rewrite (bind_eq _ _ _ _ _ (Hmode w1 Hw1)).
      by rewrite decide_True.
    + unfold Climate.target_temperature. rewrite (bind_eq _ _ _ _ _ (Hmode w1 Hw1)).
      by rewrite decide_True.
    + unfold Climate.preset_mode. rewrite (bind_eq _ _ _ _ _ (Hmode w1 Hw1)).
      by rewrite decide_True.
  - intros ->. unfold Climate.preset_mode. rewrite (bind_eq _ _ _ _ _ (Hmode w1 Hw1)).
    rewrite decide_False by congruence.
    rewrite (bind_eq _ _ _ _ _ (Hmode w1 Hw1)).
    by rewrite decide_True.
Qed.

End ModeReads.

Lemma climate_set_mode_reads_witness :
  let out := Climate.async_set_hvac_mode OFF (new_entity "z1" heat_zone 0) in
  (Climate.hvac_mode out.2).1 = Ok (Some OFF)
  /\ (Climate.target_temperature out.2).1 = Ok VNone
  /\ data out.2 !! "setPoint" = Some (VFloat (Finite 21)).
Proof.
  intros out.
  assert (Hm : OFF ∈ Climate.hvac_modes) by (unfold Climate.hvac_modes; set_solver).
  destruct (climate_set_mode_reads (H := api_always_ok) OFF
              (new_entity "z1" heat_zone 0) 0 Hm)
    as (_ & _ & _ & Hkeys & _ & Hmode & Hoff & _).
  refine (conj Hmode (conj (proj1 (proj2 (Hoff eq_refl))) _)).
  assert (Hkey : "setPoint" <> "zoneMode") by discriminate.
  exact (Hkeys "setPoint" Hkey).
Defined.

(** A submission leaves everything but the task table and the pool. *)
Lemma after_submit_fields (j : job) (w : World) :
  zone_id (after_submit j w) = zone_id w /\ data (after_submit j w) = data w
  /\ now (after_submit j w) = now w /\ api_log (after_submit j w) = api_log w
  /\ block_until (after_submit j w) = block_until w
  /\ ha_state_writes (after_submit j w) = ha_state_writes w
  /\ refresh_requests (after_submit j w) = refresh_requests w.
Proof. apply debounce_async_frame. Qed.

Ltac submit_frame :=
  repeat match goal with
         | |- context [zone_id (after_submit ?j ?w0)] =>
             rewrite (proj1 (after_submit_fields j w0))
         | |- context [data (after_submit ?j ?w0)] =>
             rewrite (proj1 (proj2 (after_submit_fields j w0)))
         | |- context [now (after_submit ?j ?w0)] =>
             rewrite (proj1 (proj2 (proj2 (after_submit_fields j w0))))
         | |- context [api_log (after_submit ?j ?w0)] =>
             rewrite (proj1 (proj2 (proj2 (proj2 (after_submit_fields j w0)))))
         | |- context [block_until (after_submit ?j ?w0)] =>
             rewrite (proj1 (proj2 (proj2 (proj2 (proj2 (after_submit_fields j w0))))))
         | |- context [ha_state_writes (after_submit ?j ?w0)] =>
             rewrite (proj1 (proj2 (proj2 (proj2 (proj2 (proj2
                        (after_submit_fields j w0)))))))
         | |- context [refresh_requests (after_submit ?j ?w0)] =>
             rewrite (proj2 (proj2 (proj2 (proj2 (proj2 (proj2
                        (after_submit_fields j w0)))))))
         end; fields.

Lemma hot_water_set_hvac_mode_eq (m : HVACMode) (v : value) (w : World) :
  m ∈ HotWater.hvac_modes ->
  (m = HEAT -> data w !! "comfortSetPoint" = Some v) ->
  HotWater.async_set_hvac_mode m w =
  (Ok tt,
   with_refresh_requests (S (refresh_requests w))
     (with_block_until (Some (now w + 60))
        (with_ha_state_writes (S (ha_state_writes w))
           (after_submit (HotWater_set_hvac_mode m)
              (with_data (hot_water_mode_overlay m v (data w)) w))))).
Proof.
  intros Hm Hv. unfold HotWater.async_set_hvac_mode.
  rewrite decide_False by (by intros ?).
  unfold HotWater.hvac_modes in Hm. unfold hot_water_mode_overlay.
  destruct m; try (exfalso; set_solver); clear Hm.
  - rewrite decide_False by done. rewrite decide_True by done.
    unfold HotWater.set_hvac_mode. unfold_m. rewrite debounce_async_eq. fields.
    submit_frame. reflexivity.
  - specialize (Hv eq_refl). rewrite decide_True by done.
    unfold HotWater.set_hvac_mode. unfold_m. fields.
    rewrite lookup_insert_ne, Hv by done. rewrite debounce_async_eq. fields.
    submit_frame. reflexivity.
  - rewrite !decide_False by done.
    unfold HotWater.set_hvac_mode. unfold_m. rewrite debounce_async_eq. fields.
    submit_frame. reflexivity.
Qed.

(** The mode reads as written from the overlay of a supported mode. *)
Lemma hot_water_mode_overlay_mode (m : HVACMode) (v : value)
    (d : gmap string value) (w1 : World) :
  m ∈ HotWater.hvac_modes ->
  data w1 = hot_water_mode_overlay m v d ->
  HotWater.hvac_mode w1 = (Ok (Some m), w1).
Proof.
  intros Hm Hd. rewrite hot_water_hvac_mode_eq, Hd.
  unfold HotWater.hvac_modes in Hm. unfold hot_water_mode_overlay.
  destruct m; try (exfalso; set_solver);
    rewrite ?lookup_insert_eq, ?lookup_insert_ne by done;
    rewrite ?lookup_insert_eq; reflexivity.
Qed.

Section HotWaterModeReads.
Context `{RemehaHomeAPI}.

(** X2. A write of a supported mode to a hot-water entity of climate.py (for
    Heat, on a zone that has a comfort setpoint [v]) returns without error and
    without a remote call, and the mode then reads as the mode written. The
    target temperature reads the zone's comfort setpoint after Heat and None
    after Off and Auto: Off stores 10.0 as the target setpoint, but the
    property hides it. After Off the action reads off and the preset
    anti_frost; after Heat the preset reads manual. *)
Theorem hot_water_set_mode_reads (m : HVACMode) (v : value) (w : World) (dt : Z) :
  m ∈ HotWater.hvac_modes ->
  (m = HEAT -> data w !! "comfortSetPoint" = Some v) ->
  let out := HotWater.async_set_hvac_mode m w in
  out.1 = Ok tt
  /\ api_log out.2 = api_log w
  /\ data (elapse dt out.2) = data out.2
  /\ (HotWater.hvac_mode out.2).1 = Ok (Some m)
  /\ (HotWater.target_temperature out.2).1
     = Ok (if decide (m = HEAT) then v else VNone)
  /\ (m = OFF ->
      data out.2 !! "targetSetpoint" = Some (VFloat (Finite 10))
      /\ (HotWater.hvac_action out.2).1 = Ok (Some ACTION_OFF)
      /\ (HotWater.preset_mode out.2).1 = Ok "anti_frost")
  /\ (m = HEAT -> (HotWater.preset_mode out.2).1 = Ok "manual").
Proof.
  intros Hm Hv. cbv zeta.
  rewrite (hot_water_set_hvac_mode_eq m v w Hm Hv). cbn [fst snd].
  set (w1 := with_refresh_requests _ _).
  assert (Hd : data w1 = hot_water_mode_overlay m v (data w))
    by (subst w1; fields; submit_frame; reflexivity).
  pose proof (hot_water_mode_overlay_mode m v (data w) w1 Hm Hd) as Hmode.
  split_and!.
  - reflexivity.
  - subst w1. fields. submit_frame. reflexivity.
  - by destruct (elapse_frame dt w1) as (_ & -> & _).
  - by rewrite Hmode.
  - unfold HotWater.target_temperature. rewrite (bind_eq _ _ _ _ _ Hmode).
    unfold HotWater.hvac_modes in Hm.
    destruct m; try (exfalso; set_solver).
    + by rewrite decide_False, (bind_eq _ _ _ _ _ Hmode), decide_True.
    + rewrite decide_False, (bind_eq _ _ _ _ _ Hmode), decide_False by done.
      unfold subscript. rewrite Hd. unfold hot_water_mode_overlay.
      by rewrite lookup_insert_eq.
    + by rewrite decide_True.
  - intros ->. split_and!.
    + rewrite Hd. unfold hot_water_mode_overlay. by rewrite lookup_insert_eq.
    + unfold HotWater.hvac_action. by rewrite (bind_eq _ _ _ _ _ Hmode), decide_True.
    + unfold HotWater.preset_mode. by rewrite (bind_eq _ _ _ _ _ Hmode), decide_True.
  - intros ->. unfold HotWater.preset_mode.
    rewrite (bind_eq _ _ _ _ _ Hmode), decide_False by done.
    by rewrite (bind_eq _ _ _ _ _ Hmode), decide_True.
Qed.

End HotWaterModeReads.

Lemma hot_water_set_mode_reads_witness :
  let out := HotWater.async_set_hvac_mode HEAT (new_entity "hw1" hot_water_zone_off 0) in
  (HotWater.hvac_mode out.2).1 = Ok (Some HEAT)
  /\ (HotWater.target_temperature out.2).1 = Ok (VFloat (Finite 55)).
Proof.
  intros out.
  assert (Hm : HEAT ∈ HotWater.hvac_modes) by (unfold HotWater.hvac_modes; set_solver).
  destruct (hot_water_set_mode_reads (H := api_always_ok) HEAT (VFloat (Finite 55))
              (new_entity "hw1" hot_water_zone_off 0) 0 Hm (fun _ => eq_refl))
    as (_ & _ & _ & Hmode & Htarget & _).
  exact (conj Hmode Htarget).
Defined.

(** ** What a mode write sends *)

Section ModeFires.
Context `{RemehaHomeAPI}.

(** A command submitted while no task sleeps fires once its delay has
    passed: its method runs once, in the world of that moment. *)
Lemma submitted_task_fires (j : job) (w0 w1 : World) (dt : Z) :
  quiescent (pool w0) ->
  pool w1 = pool (after_submit j w0) ->
  debounce_tasks w1 = debounce_tasks (after_submit j w0) ->
  now w1 = now w0 -> 5 <= dt ->
  let w2 := with_now (now w1 + dt) w1 in
  api_log (elapse dt w1) = api_log (method_body j w2).2
  /\ pool (elapse dt w1)
     = pool w0 ++ [Task (method_name j) j (now w0 + 5) (Finished (method_body j w2).1)]
  /\ data (elapse dt w1) = data w1.
Proof.
  intros Hq Hpool Htab Hnow Hdt w2.
  assert (Hp : pending (pool w0) 0 j (now w0 + 5) w1).
  { destruct (submit_quiescent j w0 Hq) as (cs & Hp & Hl & Hc & Ht).
    exists cs. by rewrite Hpool, Htab. }
  destruct (elapse_pending_late _ _ _ _ dt w1 Hq Hp) as (cs & Hl & _ & ->); [lia|].
  destruct cs; [|done]. fields. split_and!; done.
Qed.

Lemma climate_set_hvac_mode_body (m : HVACMode) (w : World) :
  m ∈ Climate.hvac_modes ->
  api_log (Climate.set_hvac_mode_wrapped m w).2
  = api_log w ++ climate_mode_calls m (zone_id w) (data w).
Proof.
  intros Hm. unfold Climate.hvac_modes in Hm.
  unfold Climate.set_hvac_mode_wrapped, climate_mode_calls.
  destruct m; try (exfalso; set_solver); unfold_m; cbn [decide]; fields.
  - rewrite decide_False, decide_False, decide_True by done.
    by destruct (api_ok _ _).
  - rewrite decide_False, decide_True by done.
    destruct (data w !! "setPoint"); fields; [|by rewrite app_nil_r].
    by destruct (api_ok _ _).
  - rewrite decide_True by done.
    destruct (data w !! "activeHeatingClimateTimeProgramNumber"); fields;
      [|by rewrite app_nil_r].
    by destruct (api_ok _ _).
Qed.

Lemma hot_water_set_hvac_mode_body (m : HVACMode) (w : World) :
  m ∈ HotWater.hvac_modes ->
  api_log (HotWater.set_hvac_mode_wrapped m w).2
  = api_log w ++ hot_water_mode_calls m (zone_id w).
Proof.
  intros Hm. unfold HotWater.hvac_modes in Hm.
  unfold HotWater.set_hvac_mode_wrapped, hot_water_mode_calls.
  destruct m; try (exfalso; set_solver); unfold_m; fields.
  - rewrite decide_False, decide_False, decide_True by done.
    by destruct (api_ok _ _).
  - rewrite decide_False, decide_True by done. by destruct (api_ok _ _).
  - rewrite decide_True by done. by destruct (api_ok _ _).
Qed.

(** X3. A write of a supported mode to a climate entity with no task
    asleep, followed by five or more seconds, makes exactly the remote call of
    that mode, with the values the zone had before the write: set_off for
    Off, set_manual with the zone's setpoint for Heat, set_schedule with the
    zone's active program for Auto (no call when that field is missing). The
    mode still reads as written, the pool has one task more and none is
    asleep. *)
Theorem climate_set_mode_fires (m : HVACMode) (w : World) (settle : N) :
  quiescent (pool w) -> m ∈ Climate.hvac_modes -> (5 <= settle)%N ->
  let w' := run [Command (climate_set_hvac_mode m); Elapse settle] w in
  api_log w' = api_log w ++ climate_mode_calls m (zone_id w) (data w)
  /\ (Climate.hvac_mode w').1 = Ok (Some m)
  /\ length (pool w') = S (length (pool w))
  /\ quiescent (pool w').
Proof.
  intros Hq Hm Hsettle. cbn [run foldl step execute].
  rewrite (climate_set_hvac_mode_eq m w Hm). cbn [fst snd].
  set (j := Climate_set_hvac_mode m).
  set (w0 := with_ha_state_writes _ _). set (w1 := with_refresh_requests _ _).
  destruct (submitted_task_fires j w0 w1 (Z.of_N settle))
    as (Hlog & Hpool & Hdata); try done; try lia.
  rewrite Hlog, Hpool. cbn [method_body j].
  rewrite climate_set_hvac_mode_body by done.
  assert (Hd : data w1 = <["zoneMode" :=
                 str_or_none (Tables.HVAC_MODE_TO_REMEHA_MODE !! m)]> (data w))
    by (subst w1; fields; submit_frame; reflexivity).
  split_and!.
  - fields. subst w1. fields. submit_frame. subst w0. fields.
    f_equal. unfold climate_mode_calls.
    rewrite !lookup_insert_ne by done. reflexivity.
  - rewrite climate_hvac_mode_eq, Hdata, Hd, lookup_insert_eq.
    unfold Climate.hvac_modes in Hm.
    destruct m; try (exfalso; set_solver); reflexivity.
  - rewrite length_app. cbn. subst w0. fields. lia.
  - apply Forall_app. split; [exact Hq | by repeat constructor].
Qed.

(** X4. A write of a supported mode to a hot-water entity of climate.py
    with no task asleep, followed by five or more seconds, makes exactly one
    remote call: hw_set_off, hw_set_continuous_comfort or hw_set_schedule.
    The comfort setpoint overlaid by Heat is not sent. *)
Theorem hot_water_set_mode_fires (m : HVACMode) (v : value) (w : World) (settle : N) :
  quiescent (pool w) -> m ∈ HotWater.hvac_modes ->
  (m = HEAT -> data w !! "comfortSetPoint" = Some v) -> (5 <= settle)%N ->
  let w' := run [Command (hot_water_set_hvac_mode m); Elapse settle] w in
  api_log w' = api_log w ++ hot_water_mode_calls m (zone_id w)
  /\ (HotWater.hvac_mode w').1 = Ok (Some m)
  /\ length (pool w') = S (length (pool w))
  /\ quiescent (pool w').
Proof.
  intros Hq Hm Hv Hsettle. cbn [run foldl step execute].
  rewrite (hot_water_set_hvac_mode_eq m v w Hm Hv). cbn [fst snd].
  set (j := HotWater_set_hvac_mode m).
  set (w0 := with_data _ w). set (w1 := with_refresh_requests _ _).
  assert (Hd : data w1 = hot_water_mode_overlay m v (data w))
    by (subst w1; fields; submit_frame; reflexivity).
  destruct (submitted_task_fires j w0 w1 (Z.of_N settle))
    as (Hlog & Hpool & Hdata); try done; try lia.
  rewrite Hlog, Hpool. cbn [method_body j].
  rewrite hot_water_set_hvac_mode_body by done.
  split_and!.
  - fields. subst w1. fields. submit_frame. reflexivity.
  - rewrite (hot_water_mode_overlay_mode m v (data w)); [done|done|].
    by rewrite Hdata.
  - rewrite length_app. cbn. subst w0. fields. lia.
  - apply Forall_app. split; [exact Hq | by repeat constructor].
Qed.

End ModeFires.

Lemma climate_set_mode_fires_witness :
  let w := new_entity "z1" off_zone 0 in
  api_log (run (H := api_always_ok) [Command (climate_set_hvac_mode HEAT); Elapse 5] w)
  = [async_set_manual "z1" (VFloat (Finite 21))].
Proof.
  intros w.
  assert (Hq : quiescent (pool w)) by constructor.
  assert (Hm : HEAT ∈ Climate.hvac_modes) by (unfold Climate.hvac_modes; set_solver).
  assert (Hsettle : (5 <= 5)%N) by lia.
  exact (proj1 (climate_set_mode_fires (H := api_always_ok) HEAT w 5 Hq Hm Hsettle)).
Defined.

Lemma hot_water_set_mode_fires_witness :
  let w := new_entity "hw1" hot_water_zone_off 0 in
  api_log (run (H := api_always_ok) [Command (hot_water_set_hvac_mode HEAT); Elapse 5] w)
  = [async_hw_set_continuous_comfort "hw1"].
Proof.
  intros w.
  assert (Hq : quiescent (pool w)) by constructor.
  assert (Hm : HEAT ∈ HotWater.hvac_modes) by (unfold HotWater.hvac_modes; set_solver).
  assert (Hsettle : (5 <= 5)%N) by lia.
  exact (proj1 (hot_water_set_mode_fires (H := api_always_ok) HEAT (VFloat (Finite 55))
                  w 5 Hq Hm (fun _ => eq_refl) Hsettle)).
Defined.

(** ** Presets *)

Lemma climate_preset_modes_table (p : string) :
  p ∈ Presets.climate_preset_modes <->
  exists n, Tables.PRESET_MODE_TO_PRESET_INDEX !! p = Some n
            /\ Tables.PRESET_INDEX_TO_PRESET_MODE !! n = Some p.
Proof.
  unfold Presets.climate_preset_modes, Presets.PRESET_INDEX_TO_PRESET_MODE_items,
    Tables.PRESET_MODE_TO_PRESET_INDEX, Tables.PRESET_INDEX_TO_PRESET_MODE, py_dict.
  cbn [fmap list_fmap foldl fst snd]. split.
  - intros Hp. repeat (apply elem_of_cons in Hp as [-> | Hp]);
      [by exists 1 | by exists 2 | by exists 3 | by apply elem_of_nil in Hp].
  - intros (n & Hn & _). rewrite !lookup_insert_Some, lookup_empty in Hn.
    set_solver.
Qed.

Lemma hot_water_preset_modes_table (p : string) :
  p ∈ Presets.hot_water_preset_modes <->
  Tables.HW_PRESET_MODE_TO_PRESET_INDEX !! p = Some 1
  /\ Tables.PRESET_INDEX_TO_HW_PRESET_MODE !! 1 = Some p
  /\ LegacyTables.PRESET_MODE_TO_PRESET_INDEX !! p = Some 1.
Proof.
  unfold Presets.hot_water_preset_modes, Presets.PRESET_INDEX_TO_HW_PRESET_MODE_items,
    Tables.HW_PRESET_MODE_TO_PRESET_INDEX, Tables.PRESET_INDEX_TO_HW_PRESET_MODE,
    LegacyTables.PRESET_MODE_TO_PRESET_INDEX, py_dict.
  cbn [fmap list_fmap foldl fst snd]. split.
  - intros Hp. apply elem_of_cons in Hp as [-> | Hp]; [done|].
    by apply elem_of_nil in Hp.
  - intros (Hn & _). rewrite lookup_insert_Some, lookup_empty in Hn. set_solver.
Qed.

Lemma not_preset_lookup (p : string) :
  (p ∉ Presets.climate_preset_modes ->
   Tables.PRESET_MODE_TO_PRESET_INDEX !! p = None)
  /\ (p ∉ Presets.hot_water_preset_modes ->
      Tables.HW_PRESET_MODE_TO_PRESET_INDEX !! p = None
      /\ LegacyTables.PRESET_MODE_TO_PRESET_INDEX !! p = None).
Proof.
  unfold Presets.climate_preset_modes, Presets.hot_water_preset_modes,
    Presets.PRESET_INDEX_TO_PRESET_MODE_items,
    Presets.PRESET_INDEX_TO_HW_PRESET_MODE_items,
    Tables.PRESET_MODE_TO_PRESET_INDEX, Tables.HW_PRESET_MODE_TO_PRESET_INDEX,
    LegacyTables.PRESET_MODE_TO_PRESET_INDEX, py_dict.
  cbn [fmap list_fmap foldl fst snd]. split.
  - intros Hp. rewrite !lookup_insert_ne by set_solver. apply lookup_empty.
  - intros Hp. rewrite !lookup_insert_ne by set_solver. by rewrite lookup_empty.
Qed.

Section PresetWrites.
Context `{RemehaHomeAPI}.

(** X5. A preset write with a name that [preset_modes] does not list is
    dropped by all three classes: it returns without error and changes
    nothing, neither the zone dict nor the tasks, the call log, the update
    block or the refresh requests. *)
Theorem unknown_preset_is_dropped (p : string) (w : World) :
  (p ∉ Presets.climate_preset_modes ->
   Climate.async_set_preset_mode p w = (Ok tt, w))
  /\ (p ∉ Presets.hot_water_preset_modes ->
      HotWater.async_set_preset_mode p w = (Ok tt, w)
      /\ LegacyHotWater.async_set_preset_mode p w = (Ok tt, w)).
Proof.
  destruct (not_preset_lookup p) as [Hc Hh]. split.
  - intros Hp. unfold Climate.async_set_preset_mode. by rewrite (Hc Hp).
  - intros Hp. destruct (Hh Hp) as [Hh1 Hh2].
    unfold HotWater.async_set_preset_mode, LegacyHotWater.async_set_preset_mode.
    by rewrite Hh1, Hh2.
Qed.

(** X6. While the mode of a climate or hot-water entity of climate.py
    reads Off or Heat, the preset it reports (anti_frost or manual) is not in
    its own [preset_modes], and writing the reported preset back is
    dropped. *)
Theorem reported_preset_is_not_settable (m : HVACMode) (w : World) :
  m = OFF \/ m = HEAT ->
  ((Climate.hvac_mode w).1 = Ok (Some m) ->
   exists p, Climate.preset_mode w = (Ok p, w)
             /\ (p ∉ Presets.climate_preset_modes)
             /\ Climate.async_set_preset_mode p w = (Ok tt, w))
  /\ ((HotWater.hvac_mode w).1 = Ok (Some m) ->
      exists p, HotWater.preset_mode w = (Ok p, w)
                /\ (p ∉ Presets.hot_water_preset_modes)
                /\ HotWater.async_set_preset_mode p w = (Ok tt, w)).
Proof.
  intros Hm.
  assert (Hc : forall p, p = "anti_frost" \/ p = "manual" ->
                         (p ∉ Presets.climate_preset_modes)
                         /\ (p ∉ Presets.hot_water_preset_modes)).
  { intros p [-> | ->];
      unfold Presets.climate_preset_modes, Presets.hot_water_preset_modes;
      cbn; set_solver. }
  split.
  - intros Hmode%climate_hvac_mode_read.
    exists (if decide (m = OFF) then "anti_frost" else "manual").
    assert (Hp : (if decide (m = OFF) then "anti_frost" else "manual")
                 ∉ Presets.climate_preset_modes)
      by (apply Hc; destruct Hm as [-> | ->]; cbn; auto).
    split_and!; [|exact Hp|].
    2: { unfold Climate.async_set_preset_mode.
         by rewrite (proj1 (not_preset_lookup _) Hp). }
    unfold Climate.preset_mode. rewrite (bind_eq _ _ _ _ _ Hmode).
    destruct Hm as [-> | ->]; [by rewrite decide_True|].
    rewrite decide_False by done.
    by rewrite (bind_eq _ _ _ _ _ Hmode), decide_True.
  - intros Hmode%hot_water_hvac_mode_read.
    exists (if decide (m = OFF) then "anti_frost" else "manual").
    assert (Hp : (if decide (m = OFF) then "anti_frost" else "manual")
                 ∉ Presets.hot_water_preset_modes)
      by (apply Hc; destruct Hm as [-> | ->]; cbn; auto).
    split_and!; [|exact Hp|].
    2: { unfold HotWater.async_set_preset_mode.
         by rewrite (proj1 (proj2 (not_preset_lookup _) Hp)). }
    unfold HotWater.preset_mode. rewrite (bind_eq _ _ _ _ _ Hmode).
    destruct Hm as [-> | ->]; [by rewrite decide_True|].
    rewrite decide_False by done.
    by rewrite (bind_eq _ _ _ _ _ Hmode), decide_True.
Qed.

Lemma climate_set_preset_mode_eq (p : string) (n : Z) (v : value) (w : World) :
  Tables.PRESET_MODE_TO_PRESET_INDEX !! p = Some n ->
  data w !! "zoneMode" = Some v ->
  Climate.async_set_preset_mode p w =
  (Ok tt,
   with_refresh_requests (S (refresh_requests w))
     (with_block_until (Some (now w + 60))
        (after_submit
           (Climate_activate_heating_time_program n
              (get_str Tables.REMEHA_MODE_TO_HVAC_MODE v))
           (with_ha_state_writes (S (ha_state_writes w))
              (with_data
                 (<["activeHeatingClimateTimeProgramNumber" := VInt n]>
                    (<["zoneMode" := VStr "Scheduling"]> (data w))) w))))).
Proof.
  intros Hp Hv. unfold Climate.async_set_preset_mode. rewrite Hp.
  assert (Hmode : Climate.hvac_mode w
                  = (Ok (get_str Tables.REMEHA_MODE_TO_HVAC_MODE v), w))
    by (by rewrite climate_hvac_mode_eq, Hv).
  rewrite (bind_eq _ _ _ _ _ Hmode).
  unfold Climate.activate_heating_time_program. unfold_m.
  rewrite debounce_async_eq. fields. submit_frame. reflexivity.
Qed.

(** X7. A write of a listed preset to a climate entity whose zone has a
    mode returns without error and without a remote call; the mode then reads
    Auto and the preset reads as the preset written, the update block is set
    to sixty seconds from the write, and the overlay survives any time
    passing without a poll. *)
Theorem climate_set_preset_reads (p : string) (w : World) (dt : Z) :
  p ∈ Presets.climate_preset_modes ->
  is_Some (data w !! "zoneMode") ->
  let out := Climate.async_set_preset_mode p w in
  out.1 = Ok tt
  /\ api_log out.2 = api_log w
  /\ (Climate.hvac_mode out.2).1 = Ok (Some AUTO)
  /\ (Climate.preset_mode out.2).1 = Ok p
  /\ block_until out.2 = Some (now w + 60)
  /\ data (elapse dt out.2) = data out.2.
Proof.
  intros (n & Hn & Hinv)%climate_preset_modes_table [v Hv]. cbv zeta.
  rewrite (climate_set_preset_mode_eq p n v w Hn Hv). cbn [fst snd].
  set (w1 := with_refresh_requests _ _).
  assert (Hd : data w1 = <["activeHeatingClimateTimeProgramNumber" := VInt n]>
                           (<["zoneMode" := VStr "Scheduling"]> (data w)))
    by (subst w1; fields; submit_frame; reflexivity).
  assert (Hmode : Climate.hvac_mode w1 = (Ok (Some AUTO), w1)).
  { rewrite climate_hvac_mode_eq, Hd.
    by rewrite lookup_insert_ne, lookup_insert_eq. }
  split_and!.
  - reflexivity.
  - subst w1. fields. submit_frame. reflexivity.
  - by rewrite Hmode.
  - unfold Climate.preset_mode.
    rewrite (bind_eq _ _ _ _ _ Hmode), decide_False by done.
    rewrite (bind_eq _ _ _ _ _ Hmode), decide_False by done.
    assert (Hsub : subscript "activeHeatingClimateTimeProgramNumber" w1
                   = (Ok (VInt n), w1))
      by (apply subscript_eq; by rewrite Hd, lookup_insert_eq).
    rewrite (bind_eq _ _ _ _ _ Hsub).
    unfold lift, subscript_int, int_key. by rewrite Hinv.
  - subst w1. fields. reflexivity.
  - by destruct (elapse_frame dt w1) as (_ & -> & _).
Qed.

Lemma hot_water_set_preset_mode_eq (p : string) (m : option HVACMode) (w : World) :
  p ∈ Presets.hot_water_preset_modes ->
  (HotWater.hvac_mode w).1 = Ok m ->
  HotWater.async_set_preset_mode p w =
  (Ok tt,
   if decide (m = Some AUTO) then with_refresh_requests (S (refresh_requests w)) w
   else
     with_refresh_requests (S (refresh_requests w))
       (with_block_until (Some (now w + 60))
          (after_submit HotWater_set_schedule
             (with_ha_state_writes (S (ha_state_writes w))
                (with_data
                   (<["activeDwhTimeProgramNumber" := VInt 1]>
                      (<["dhwZoneMode" := VStr "Scheduling"]> (data w))) w))))).
Proof.
  intros (Hn & _)%hot_water_preset_modes_table Hmode%hot_water_hvac_mode_read.
  unfold HotWater.async_set_preset_mode. rewrite Hn.
  rewrite (bind_eq _ _ _ _ _ Hmode).
  destruct (decide (m = Some AUTO)) as [->|Hm].
  - rewrite decide_False by (by intros ?). reflexivity.
  - rewrite decide_True by done.
    unfold HotWater.set_schedule. unfold_m.
    rewrite debounce_async_eq. fields. submit_frame. reflexivity.
Qed.

(** X8. A write of the listed preset to a hot-water entity of climate.py:
    while the mode reads Auto it only requests a refresh; otherwise, with no
    task asleep and after five or more seconds, exactly one hw_set_schedule
    call has been made, the mode reads Auto and the preset reads as the
    preset written. *)
Theorem hot_water_set_preset (p : string) (m : option HVACMode) (w : World)
    (settle : N) :
  p ∈ Presets.hot_water_preset_modes ->
  (HotWater.hvac_mode w).1 = Ok m ->
  (m = Some AUTO ->
   HotWater.async_set_preset_mode p w
   = (Ok tt, with_refresh_requests (S (refresh_requests w)) w))
  /\ (m <> Some AUTO -> quiescent (pool w) -> (5 <= settle)%N ->
      let w' := run [Command (hot_water_set_preset_mode p); Elapse settle] w in
      api_log w' = api_log w ++ [async_hw_set_schedule (zone_id w)]
      /\ (HotWater.hvac_mode w').1 = Ok (Some AUTO)
      /\ (HotWater.preset_mode w').1 = Ok p
      /\ quiescent (pool w')).
Proof.
  intros Hp Hmode. pose proof (hot_water_set_preset_mode_eq p m w Hp Hmode) as Heq.
  split.
  - intros ->. by rewrite Heq, decide_True.
  - intros Hm Hq Hsettle. cbn [run foldl step execute].
    rewrite Heq, decide_False by done. cbn [fst snd].
    set (w0 := with_ha_state_writes _ _). set (w1 := with_refresh_requests _ _).
    destruct (submitted_task_fires HotWater_set_schedule w0 w1 (Z.of_N settle))
      as (Hlog & Hpool & Hdata); try done; try lia.
    assert (Hd : data w1 = <["activeDwhTimeProgramNumber" := VInt 1]>
                             (<["dhwZoneMode" := VStr "Scheduling"]> (data w)))
      by (subst w1; fields; submit_frame; reflexivity).
    assert (Hread : HotWater.hvac_mode (elapse (Z.of_N settle) w1)
                    = (Ok (Some AUTO), elapse (Z.of_N settle) w1)).
    { rewrite hot_water_hvac_mode_eq, Hdata, Hd.
      by rewrite lookup_insert_ne, lookup_insert_eq. }
    split_and!.
    + rewrite Hlog. cbn [method_body]. unfold HotWater.set_schedule_wrapped.
      unfold_m. fields. subst w1. fields. submit_frame.
      by destruct (api_ok _ _).
    + by rewrite Hread.
    + unfold HotWater.preset_mode.
      rewrite (bind_eq _ _ _ _ _ Hread), decide_False by done.
      rewrite (bind_eq _ _ _ _ _ Hread), decide_False by done.
      assert (Hsub : subscript "activeDwhTimeProgramNumber"
                       (elapse (Z.of_N settle) w1)
                     = (Ok (VInt 1), elapse (Z.of_N settle) w1))
        by (apply subscript_eq; by rewrite Hdata, Hd, lookup_insert_eq).
      rewrite (bind_eq _ _ _ _ _ Hsub).
      apply hot_water_preset_modes_table in Hp as (_ & Hinv & _).
      unfold lift, subscript_int, int_key. by rewrite Hinv.
    + rewrite Hpool. apply Forall_app. split; [exact Hq | by repeat constructor].
Qed.

End PresetWrites.

Lemma unknown_preset_is_dropped_witness :
  let w := new_entity "z1" heat_zone 0 in
  Climate.async_set_preset_mode "program_1" w = (Ok tt, w)
  /\ HotWater.async_set_preset_mode "clock_program_1" w = (Ok tt, w).
Proof.
  intros w.
  assert (Hc : "program_1" ∉ Presets.climate_preset_modes)
    by (unfold Presets.climate_preset_modes; cbn; set_solver).
  assert (Hh : "clock_program_1" ∉ Presets.hot_water_preset_modes)
    by (unfold Presets.hot_water_preset_modes; cbn; set_solver).
  exact (conj (proj1 (unknown_preset_is_dropped (H := api_always_ok) "program_1" w) Hc)
              (proj1 (proj2 (unknown_preset_is_dropped (H := api_always_ok)
                               "clock_program_1" w) Hh))).
Defined.

Lemma reported_preset_is_not_settable_witness :
  let w := new_entity "z1" heat_zone 0 in
  exists p, Climate.preset_mode w = (Ok p, w)
            /\ (p ∉ Presets.climate_preset_modes)
            /\ Climate.async_set_preset_mode p w = (Ok tt, w).
Proof.
  intros w.
  exact (proj1 (reported_preset_is_not_settable HEAT w (or_intror eq_refl)) eq_refl).
Defined.

Lemma climate_set_preset_reads_witness :
  let out := Climate.async_set_preset_mode "clock_program_3"
               (new_entity "z1" heat_zone 100) in
  (Climate.hvac_mode out.2).1 = Ok (Some AUTO)
  /\ (Climate.preset_mode out.2).1 = Ok "clock_program_3"
  /\ block_until out.2 = Some 160.
Proof.
  intros out.
  assert (Hp : "clock_program_3" ∈ Presets.climate_preset_modes)
    by (unfold Presets.climate_preset_modes; cbn; set_solver).
  destruct (climate_set_preset_reads (H := api_always_ok) "clock_program_3"
              (new_entity "z1" heat_zone 100) 0 Hp (ex_intro _ _ eq_refl))
    as (_ & _ & Hmode & Hpreset & Hblock & _).
  exact (conj Hmode (conj Hpreset Hblock)).
Defined.

Lemma hot_water_set_preset_witness :
  let w := new_entity "hw1" hot_water_zone_heat 0 in
  let w' := run (H := api_always_ok)
              [Command (hot_water_set_preset_mode "Scheduling program"); Elapse 5] w in
  api_log w' = [async_hw_set_schedule "hw1"]
  /\ (HotWater.hvac_mode w').1 = Ok (Some AUTO).
Proof.
  intros w w'.
  assert (Hp : "Scheduling program" ∈ Presets.hot_water_preset_modes)
    by (unfold Presets.hot_water_preset_modes; cbn; set_solver).
  assert (Hm : Some HEAT <> Some AUTO) by discriminate.
  assert (Hq : quiescent (pool w)) by constructor.
  assert (Hsettle : (5 <= 5)%N) by lia.
  destruct (proj2 (hot_water_set_preset (H := api_always_ok) "Scheduling program"
                     (Some HEAT) w 5 Hp eq_refl) Hm Hq Hsettle)
    as (Hlog & Hmode & _).
  exact (conj Hlog Hmode).
Defined.

(** ** Writes that stop half-way *)

Section MoreEdges.
Context `{RemehaHomeAPI}.

(** X9. A write of Heat to a hot-water entity of climate.py whose zone has
    no comfort setpoint raises KeyError after the mode has been overlaid: the
    mode reads Heat, but nothing is submitted, no remote call is made, the
    update block and the refresh requests are unchanged and the observers are
    not notified. *)
Theorem hot_water_set_heat_without_comfort_setpoint (w : World) :
  data w !! "comfortSetPoint" = None ->
  let out := HotWater.async_set_hvac_mode HEAT w in
  out.1 = Raise KeyError
  /\ (HotWater.hvac_mode out.2).1 = Ok (Some HEAT)
  /\ data out.2 = <["dhwZoneMode" := VStr "ContinuousComfort"]> (data w)
  /\ pool out.2 = pool w /\ api_log out.2 = api_log w
  /\ block_until out.2 = block_until w
  /\ ha_state_writes out.2 = ha_state_writes w
  /\ refresh_requests out.2 = refresh_requests w.
Proof.
  intros Hc. cbv zeta. rewrite hot_water_hvac_mode_eq.
  unfold HotWater.async_set_hvac_mode, HotWater.hvac_modes.
  rewrite decide_False by (intros Hn; apply Hn; set_solver).
  rewrite decide_True by done. unfold_m. fields.
  rewrite lookup_insert_ne, Hc by done. fields.
  rewrite lookup_insert_eq. split_and!; done.
Qed.

(** X10. A write of a listed preset to a climate entity with no task
    asleep, followed by five or more seconds, makes exactly one remote call,
    activate_heating_time_program with the preset's index, whatever the mode
    was before: the schedule call that should follow for a zone that was not
    in Auto is never made, and the task never ends normally (TypeError when
    the call resolved, the remote failure otherwise). *)
Theorem climate_set_preset_fires (p : string) (w : World) (settle : N) :
  p ∈ Presets.climate_preset_modes -> is_Some (data w !! "zoneMode") ->
  quiescent (pool w) -> (5 <= settle)%N ->
  let w' := run [Command (climate_set_preset_mode p); Elapse settle] w in
  exists n prev,
    Tables.PRESET_MODE_TO_PRESET_INDEX !! p = Some n
    /\ (Climate.hvac_mode w).1 = Ok prev
    /\ let c := async_activate_heating_time_program (zone_id w) (VInt n) in
       api_log w' = api_log w ++ [c]
       /\ pool w'
          = pool w
              ++ [Task "activate_heating_time_program"
                    (Climate_activate_heating_time_program n prev) (now w + 5)
                    (Finished (if api_ok (api_log w) c
                               then Raise TypeError else Raise ApiError))].
Proof.
  intros (n & Hn & _)%climate_preset_modes_table [v Hv] Hq Hsettle.
  exists n, (get_str Tables.REMEHA_MODE_TO_HVAC_MODE v).
  split; [done|]. split; [by rewrite climate_hvac_mode_eq, Hv|].
  cbn [run foldl step execute].
  rewrite (climate_set_preset_mode_eq p n v w Hn Hv). cbn [fst snd].
  set (j := Climate_activate_heating_time_program n _).
  set (w0 := with_ha_state_writes _ _). set (w1 := with_refresh_requests _ _).
  destruct (submitted_task_fires j w0 w1 (Z.of_N settle))
    as (Hlog & Hpool & _); try done; try lia.
  cbv zeta. rewrite Hlog, Hpool. cbn [method_body method_name j].
  unfold Climate.activate_heating_time_program_wrapped. unfold_m. fields.
  subst w1 w0. fields. submit_frame.
  destruct (api_ok _ _); fields; done.
Qed.

End MoreEdges.

Lemma hot_water_set_heat_without_comfort_setpoint_witness :
  let w := new_entity "hw1" (py_dict [("dhwZoneMode", VStr "Off")]) 0 in
  let out := HotWater.async_set_hvac_mode HEAT w in
  out.1 = Raise KeyError /\ (HotWater.hvac_mode out.2).1 = Ok (Some HEAT)
  /\ pool out.2 = [].
Proof.
  intros w out.
  destruct (hot_water_set_heat_without_comfort_setpoint w eq_refl)
    as (Hraise & Hmode & _ & Hpool & _).
  exact (conj Hraise (conj Hmode Hpool)).
Defined.

Lemma climate_set_preset_fires_witness :
  let w := new_entity "z1" heat_zone 0 in
  let w' := run (H := api_always_ok)
              [Command (climate_set_preset_mode "clock_program_1"); Elapse 5] w in
  exists n prev,
    Tables.PRESET_MODE_TO_PRESET_INDEX !! "clock_program_1" = Some n
    /\ (Climate.hvac_mode w).1 = Ok prev
    /\ api_log w' = [async_activate_heating_time_program "z1" (VInt n)]
    /\ pool w'
       = [Task "activate_heating_time_program"
            (Climate_activate_heating_time_program n prev) 5
            (Finished (Raise TypeError))].
Proof.
  intros w w'.
  assert (Hp : "clock_program_1" ∈ Presets.climate_preset_modes)
    by (unfold Presets.climate_preset_modes; cbn; set_solver).
  assert (Hq : quiescent (pool w)) by constructor.
  assert (Hsettle : (5 <= 5)%N) by lia.
  exact (climate_set_preset_fires (H := api_always_ok) "clock_program_1" w 5 Hp
           (ex_intro _ _ eq_refl) Hq Hsettle).
Defined.

(** ** Temperature writes *)

Lemma climate_target_temperature_data (w w' : World) :
  data w = data w' ->
  (Climate.target_temperature w).1 = (Climate.target_temperature w').1.
Proof.
  intros Hd. unfold Climate.target_temperature. unfold mbind, M_bind.
  rewrite !climate_hvac_mode_eq, Hd.
  destruct (data w' !! "zoneMode"); [|done].
  case_decide; [done|]. unfold subscript. rewrite Hd.
  by destruct (data w' !! "setPoint").
Qed.

Section TemperatureWrites.
Context `{RemehaHomeAPI}.

(** X11. Temperature writes that do nothing at all: to a climate entity
    whose mode reads Off; to a hot-water entity of climate.py whose mode does
    not read Heat (the world is unchanged; the write returns normally unless
    the temperature is infinite or NaN, where [int] raises first); to the
    entity of hot_water.py whose mode reads Auto or Off; and to any entity
    when no temperature is given. *)
Theorem temperature_write_without_effect (t : option pyfloat) (w : World) :
  ((Climate.hvac_mode w).1 = Ok (Some OFF) ->
   Climate.async_set_temperature t w = (Ok tt, w))
  /\ (forall m, (HotWater.hvac_mode w).1 = Ok m -> m <> Some HEAT ->
        (HotWater.async_set_temperature t w).2 = w
        /\ (from_option is_finite True t ->
            (HotWater.async_set_temperature t w).1 = Ok tt))
  /\ (forall m, (LegacyHotWater.hvac_mode w).1 = Ok (Some m) ->
        m = AUTO \/ m = OFF ->
        LegacyHotWater.async_set_temperature t w = (Ok tt, w))
  /\ (Climate.async_set_temperature None w = (Ok tt, w)
      /\ HotWater.async_set_temperature None w = (Ok tt, w)
      /\ LegacyHotWater.async_set_temperature None w = (Ok tt, w)).
Proof.
  split_and!; try reflexivity.
  - intros Hm%climate_hvac_mode_read. destruct t as [t|]; [|done].
    unfold Climate.async_set_temperature.
    by rewrite (bind_eq _ _ _ _ _ Hm), decide_True.
  - intros m Hm%hot_water_hvac_mode_read Hne. destruct t as [t|]; [|done].
    unfold HotWater.async_set_temperature.
    destruct t as [q| |]; cbn [py_int from_option is_finite];
      [|by split; [reflexivity|]..].
    unfold lift. rewrite (bind_eq _ _ w w (Z.quot (Qnum q) (Z.pos (Qden q)))) by done.
    by rewrite (bind_eq _ _ _ _ _ Hm), decide_False.
  - intros m Hm%legacy_hvac_mode_read Hcase. destruct t as [t|]; [|done].
    unfold LegacyHotWater.async_set_temperature.
    rewrite (bind_eq _ _ _ _ _ Hm).
    destruct Hcase as [-> | ->]; [by rewrite decide_True|].
    rewrite decide_False by done.
    rewrite (bind_eq _ _ _ _ _ Hm), decide_False by done.
    by rewrite (bind_eq _ _ _ _ _ Hm), decide_True.
Qed.

(** X12. No temperature write to a climate entity touches the zone dict:
    unlike the mode and preset writes it overlays nothing, notifies no
    observer and makes no remote call itself, so the target temperature reads
    the same before and after the write. *)
Theorem climate_set_temperature_keeps_zone_dict (t : option pyfloat) (w : World) :
  let out := Climate.async_set_temperature t w in
  data out.2 = data w
  /\ api_log out.2 = api_log w
  /\ ha_state_writes out.2 = ha_state_writes w
  /\ (Climate.target_temperature out.2).1 = (Climate.target_temperature w).1.
Proof.
  cbv zeta.
  assert (Hd : data (Climate.async_set_temperature t w).2 = data w
               /\ api_log (Climate.async_set_temperature t w).2 = api_log w
               /\ ha_state_writes (Climate.async_set_temperature t w).2
                  = ha_state_writes w).
  { destruct (Climate.async_set_temperature t w) as [r w'] eqn:Hex.
    unfold Climate.async_set_temperature in Hex.
    exec; try done; submit_frame; done. }
  destruct Hd as (Hd & Hl & Hh). split_and!; try done.
  by apply climate_target_temperature_data.
Qed.

(** X13. A write of a finite temperature to a hot-water entity of
    climate.py whose mode reads Heat returns without error and without a
    remote call; the mode still reads Heat, the target temperature reads the
    written temperature truncated to a whole number, the update block is set
    to sixty seconds from the write, and the overlay survives any time
    passing without a poll. *)
Theorem hot_water_set_temperature_overlay (t : pyfloat) (w : World) (dt : Z) :
  is_finite t ->
  (HotWater.hvac_mode w).1 = Ok (Some HEAT) ->
  let out := HotWater.async_set_temperature (Some t) w in
  out.1 = Ok tt
  /\ api_log out.2 = api_log w
  /\ (HotWater.hvac_mode out.2).1 = Ok (Some HEAT)
  /\ (HotWater.target_temperature out.2).1 = Ok (VFloat (py_float (truncated t)))
  /\ is_whole (VFloat (py_float (truncated t))) = true
  /\ block_until out.2 = Some (now w + 60)
  /\ data (elapse dt out.2) = data out.2.
Proof.
  intros Ht Hmode%hot_water_hvac_mode_read. cbv zeta.
  destruct t as [q| |]; [|done..]. unfold truncated. cbn [py_int].
  set (n := Z.quot (Qnum q) (Z.pos (Qden q))).
  assert (Heq : HotWater.async_set_temperature (Some (Finite q)) w =
    (Ok tt,
     with_refresh_requests (S (refresh_requests w))
       (with_ha_state_writes (S (ha_state_writes w))
          (with_data
             (<["dhwZoneMode" := VStr "ContinuousComfort"]>
                (<["targetSetpoint" := VFloat (py_float n)]> (data w)))
             (with_block_until (Some (now w + 60))
                (after_submit
                   (HotWater_set_continuous_comfort_with_temperature (VInt n)) w)))))).
  { unfold HotWater.async_set_temperature. cbn [py_int]. fold n.
    unfold lift. rewrite (bind_eq _ _ w w n) by done.
    rewrite (bind_eq _ _ _ _ _ Hmode), decide_True by done.
    unfold HotWater.set_continuous_comfort_with_temperature. unfold_m.
    rewrite debounce_async_eq. fields. submit_frame. reflexivity. }
  rewrite Heq. cbn [fst snd]. set (w1 := with_refresh_requests _ _).
  assert (Hd : data w1 = <["dhwZoneMode" := VStr "ContinuousComfort"]>
                            (<["targetSetpoint" := VFloat (py_float n)]> (data w)))
    by reflexivity.
  assert (Hm1 : HotWater.hvac_mode w1 = (Ok (Some HEAT), w1))
    by (by rewrite hot_water_hvac_mode_eq, Hd, lookup_insert_eq).
  split_and!.
  - reflexivity.
  - subst w1. fields. submit_frame. reflexivity.
  - by rewrite Hm1.
  - unfold HotWater.target_temperature.
    rewrite (bind_eq _ _ _ _ _ Hm1), decide_False by done.
    rewrite (bind_eq _ _ _ _ _ Hm1), decide_False by done.
    unfold subscript. by rewrite Hd, lookup_insert_ne, lookup_insert_eq.
  - unfold is_whole, py_float, inject_Z. cbn [Qnum Qden].
    apply bool_decide_eq_true_2. apply Z.rem_1_r.
  - reflexivity.
  - by destruct (elapse_frame dt w1) as (_ & -> & _).
Qed.

(** X14. A temperature write to the entity of hot_water.py whose mode
    reads Heat calls the API at once: the comfort-setpoint call with the
    temperature as given, then the continuous-comfort call if the first
    resolved. The write raises the remote failure if either call fails, and
    requests a refresh only if both resolved. It changes neither the zone
    dict nor the tasks nor the update block. *)
Theorem legacy_set_temperature_in_heat (t : pyfloat) (w : World) :
  (LegacyHotWater.hvac_mode w).1 = Ok (Some HEAT) ->
  let out := LegacyHotWater.async_set_temperature (Some t) w in
  let c1 := async_hw_set_comfort_setpoint (zone_id w) (VFloat t) in
  let c2 := async_hw_set_continuous_comfort (zone_id w) in
  api_log out.2
  = api_log w ++ c1 :: (if api_ok (api_log w) c1 then [c2] else [])
  /\ out.1 = (if api_ok (api_log w) c1 && api_ok (api_log w ++ [c1]) c2
              then Ok tt else Raise ApiError)
  /\ refresh_requests out.2
     = (if api_ok (api_log w) c1 && api_ok (api_log w ++ [c1]) c2
        then S (refresh_requests w) else refresh_requests w)
  /\ data out.2 = data w /\ pool out.2 = pool w
  /\ block_until out.2 = block_until w.
Proof.
  intros Hmode%legacy_hvac_mode_read. cbv zeta.
  unfold LegacyHotWater.async_set_temperature.
  rewrite (bind_eq _ _ _ _ _ Hmode), decide_False by done.
  rewrite (bind_eq _ _ _ _ _ Hmode), decide_True by done.
  unfold_m. fields.
  destruct (api_ok (api_log w) _); fields; [|done].
  destruct (api_ok (api_log w ++ _) _); fields; by rewrite <- app_assoc.
Qed.

End TemperatureWrites.

Lemma temperature_write_without_effect_witness :
  let w := new_entity "z1" off_zone 0 in
  let hw := new_entity "hw1" hot_water_zone_auto 0 in
  Climate.async_set_temperature (Some (Finite 21)) w = (Ok tt, w)
  /\ (HotWater.async_set_temperature (Some (Finite 50)) hw).2 = hw.
Proof.
  intros w hw.
  assert (Hne : Some AUTO <> Some HEAT) by discriminate.
  exact (conj
    (proj1 (temperature_write_without_effect (H := api_always_ok)
              (Some (Finite 21)) w) eq_refl)
    (proj1 (proj1 (proj2 (temperature_write_without_effect (H := api_always_ok)
                            (Some (Finite 50)) hw)) (Some AUTO) eq_refl Hne))).
Defined.

Lemma hot_water_set_temperature_overlay_witness :
  let out := HotWater.async_set_temperature (Some (Finite (91 # 2)))
               (new_entity "hw1" hot_water_zone_heat 0) in
  (HotWater.target_temperature out.2).1 = Ok (VFloat (Finite 45))
  /\ block_until out.2 = Some 60.
Proof.
  intros out.
  destruct (hot_water_set_temperature_overlay (H := api_always_ok) (Finite (91 # 2))
              (new_entity "hw1" hot_water_zone_heat 0) 0 I eq_refl)
    as (_ & _ & _ & Htarget & _ & Hblock & _).
  exact (conj Htarget Hblock).
Defined.

Lemma legacy_set_temperature_in_heat_witness :
  let out := LegacyHotWater.async_set_temperature (H := api_always_ok)
               (Some (Finite (91 # 2))) (new_entity "hw1" legacy_heat_zone 0) in
  api_log out.2 = [ async_hw_set_comfort_setpoint "hw1" (VFloat (Finite (91 # 2)));
                    async_hw_set_continuous_comfort "hw1" ]
  /\ out.1 = Ok tt.
Proof.
  intros out.
  destruct (legacy_set_temperature_in_heat (H := api_always_ok) (Finite (91 # 2))
              (new_entity "hw1" legacy_heat_zone 0) eq_refl)
    as (Hlog & Hres & _).
  exact (conj Hlog Hres).
Defined.

(** ** hot_water.py: mode writes *)

Section LegacyMode.
Context `{RemehaHomeAPI}.

(** X15. A write of a supported mode to the entity of hot_water.py
    overlays the mode, notifies the observers and calls the API at once:
    hw_set_off for Off, hw_set_continuous_comfort for Heat, and for Auto the
    climate-zone call set_schedule with the zone's hot-water program number
    (KeyError and no call when the zone has none). The write raises the remote
    failure if the call fails and requests a refresh only if it resolved;
    no task is created and the update block is not set. After Off the target
    temperature reads None. *)
Theorem legacy_set_mode (m : HVACMode) (w : World) :
  m ∈ LegacyHotWater.hvac_modes ->
  let out := LegacyHotWater.async_set_hvac_mode m w in
  let calls := legacy_mode_calls m (zone_id w) (data w) in
  (LegacyHotWater.hvac_mode out.2).1 = Ok (Some m)
  /\ api_log out.2 = api_log w ++ calls
  /\ out.1 = match calls with
             | [] => Raise KeyError
             | c :: _ => if api_ok (api_log w) c then Ok tt else Raise ApiError
             end
  /\ ha_state_writes out.2 = S (ha_state_writes w)
  /\ refresh_requests out.2
     = match out.1 with
       | Ok _ => S (refresh_requests w)
       | Raise _ => refresh_requests w
       end
  /\ pool out.2 = pool w /\ block_until out.2 = block_until w
  /\ (m = OFF -> (LegacyReads.target_temperature out.2).1 = Ok VNone).
Proof.
  intros Hm. cbv zeta. unfold LegacyHotWater.hvac_modes in Hm.
  rewrite legacy_hvac_mode_eq.
  unfold LegacyHotWater.async_set_hvac_mode, legacy_mode_calls.
  destruct m; try (exfalso; set_solver); clear Hm; unfold_m; fields.
  - rewrite decide_False, decide_False, decide_True by done. fields.
    destruct (api_ok _ _); fields; rewrite lookup_insert_eq; split_and!; try done.
    all: intros _; unfold LegacyReads.target_temperature.
    all: unfold mbind, M_bind; rewrite legacy_hvac_mode_eq; fields.
    all: by rewrite lookup_insert_eq.
  - rewrite decide_False, decide_True by done. fields.
    destruct (api_ok _ _); fields; rewrite lookup_insert_eq; split_and!; done.
  - rewrite decide_True by done. fields. rewrite lookup_insert_ne by done.
    destruct (data w !! "activeDwhTimeProgramNumber"); fields.
    + destruct (api_ok _ _); fields; rewrite lookup_insert_eq; split_and!; done.
    + rewrite lookup_insert_eq, app_nil_r. split_and!; done.
Qed.

End LegacyMode.

Lemma legacy_set_mode_witness :
  let out := LegacyHotWater.async_set_hvac_mode (H := api_always_ok) AUTO
               (new_entity "hw1" legacy_heat_zone 0) in
  api_log out.2 = [async_set_schedule "hw1" (VInt 1)]
  /\ out.1 = Ok tt /\ pool out.2 = [] /\ block_until out.2 = None.
Proof.
  intros out.
  assert (Hm : AUTO ∈ LegacyHotWater.hvac_modes)
    by (unfold LegacyHotWater.hvac_modes; set_solver).
  destruct (legacy_set_mode (H := api_always_ok) AUTO
              (new_entity "hw1" legacy_heat_zone 0) Hm)
    as (_ & Hlog & Hres & _ & _ & Hpool & Hblock & _).
  exact (conj Hlog (conj Hres (conj Hpool Hblock))).
Defined.

(** ** The debounce mechanism: keys and timing *)

Lemma cancel_lookup (i0 i : nat) (p : list task) :
  cancel i0 p !! i =
  (fun t => if decide (i = i0) then (if is_sleeping t then cancelled t else t) else t)
    <$> p !! i.
Proof.
  unfold cancel. destruct (p !! i0) as [t0|] eqn:Hi0.
  - unfold is_sleeping. destruct (t_status t0) eqn:Hs.
    + rewrite list_lookup_insert. case_decide as Hc.
      * destruct Hc as [-> Hlt]. rewrite Hi0. cbn. rewrite decide_True by done.
        by rewrite Hs.
      * destruct (p !! i) as [t|] eqn:Hi; [|done]. cbn.
        rewrite decide_False; [done|]. intros ->. apply Hc. split; [done|].
        by eapply lookup_lt_Some.
    + destruct (p !! i) as [t|] eqn:Hi; [|done]. cbn. case_decide; [|done].
      subst. simplify_eq. by rewrite Hs.
    + destruct (p !! i) as [t|] eqn:Hi; [|done]. cbn. case_decide; [|done].
      subst. simplify_eq. by rewrite Hs.
  - destruct (p !! i) as [t|] eqn:Hi; [|done]. cbn. case_decide; [|done].
    subst. congruence.
Qed.

(** What the wrapper does to the tasks that exist: in a world where the
    table is sound, it cancels the sleeping task of its key, if any, and
    touches no other. *)
Lemma debounce_async_old_tasks (j : job) (w : World) (i : nat) (t : task) :
  slots_ok (debounce_tasks w) (pool w) -> table_ok (debounce_tasks w) (pool w) ->
  pool w !! i = Some t ->
  pool (debounce_async 5 j w).2 !! i
  = Some (if live (method_name j) t then cancelled t else t).
Proof.
  intros Hs Ht Hi. rewrite debounce_async_pool.
  rewrite lookup_app_l
    by (rewrite pool_after_cancel_length; by eapply lookup_lt_Some).
  unfold pool_after_cancel, live.
  destruct (prev_task (method_name j) w) as [i0|] eqn:Hprev.
  - assert (Htab : debounce_tasks w !! method_name j = Some (Some i0)).
    { unfold prev_task in Hprev.
      destruct (debounce_tasks w !! method_name j) as [[?|]|]; congruence. }
    rewrite cancel_lookup, Hi. cbn. case_decide as Hc.
    + subst i0. destruct (Ht _ _ Htab) as (t' & Hi' & Hk).
      assert (t' = t) as -> by congruence.
      rewrite bool_decide_eq_true_2 by done. done.
    + destruct (is_sleeping t) eqn:Hsl; [|by rewrite andb_false_r].
      rewrite bool_decide_eq_false_2; [done|]. intros Hk.
      specialize (Hs i t Hi Hsl). rewrite Hk in Hs. congruence.
  - rewrite Hi. destruct (is_sleeping t) eqn:Hsl; [|by rewrite andb_false_r].
    rewrite bool_decide_eq_false_2; [done|]. intros Hk.
    specialize (Hs i t Hi Hsl). rewrite Hk in Hs.
    unfold prev_task in Hprev. by rewrite Hs in Hprev.
Qed.

Lemma debounce_async_sound (j : job) (w : World) :
  sound w -> sound (debounce_async 5 j w).2.
Proof.
  intros (Hs & Ht & Hb & Hn).
  assert (Hold : forall i t', pool (debounce_async 5 j w).2 !! i = Some t' ->
            (exists t, pool w !! i = Some t
                       /\ t' = (if live (method_name j) t then cancelled t else t))
            \/ (i = length (pool w)
                /\ t' = Task (method_name j) j (now w + 5) Sleeping)).
  { intros i t' Hi. destruct (pool w !! i) as [t|] eqn:Hiw.
    - left. exists t. split; [done|].
      rewrite (debounce_async_old_tasks j w i t Hs Ht Hiw) in Hi. congruence.
    - right. apply lookup_ge_None in Hiw.
      rewrite debounce_async_pool in Hi.
      rewrite lookup_app_r in Hi by (by rewrite pool_after_cancel_length).
      rewrite pool_after_cancel_length in Hi.
      destruct (i - length (pool w))%nat as [|k] eqn:Hk; [|done].
      cbn in Hi. split; [lia | congruence]. }
  split_and!.
  - by apply debounce_async_slots_ok.
  - intros k i. rewrite debounce_async_tasks. case_decide as Hk.
    + intros [= <-]. subst k.
      exists (Task (method_name j) j (now w + 5) Sleeping). split; [|reflexivity].
      rewrite debounce_async_pool, lookup_app_r
        by (by rewrite pool_after_cancel_length).
      by rewrite pool_after_cancel_length, Nat.sub_diag.
    + intros Htab. destruct (Ht k i Htab) as (t & Hi & Hkey).
      rewrite (debounce_async_old_tasks j w i t Hs Ht Hi).
      eexists. split; [reflexivity|]. by destruct (live _ t).
  - destruct (debounce_async_frame 5 j w) as (_ & _ & -> & _).
    intros i t' Hi. destruct (Hold i t' Hi) as [(t & Hiw & ->) | [_ ->]].
    + specialize (Hb i t Hiw). by destruct (live _ t).
    + cbn. lia.
  - destruct (debounce_async_frame 5 j w) as (_ & _ & -> & _).
    intros i t' Hi Hsl. destruct (Hold i t' Hi) as [(t & Hiw & ->) | [_ ->]].
    + destruct (live _ t); [done|]. by apply (Hn i t).
    + cbn. lia.
Qed.

Lemma execute_sound (c : command) (w : World) : sound w -> sound (execute c w).2.
Proof.
  intros Hok.
  destruct c; unfold execute;
    unfold Climate.async_set_temperature, Climate.async_set_hvac_mode,
      Climate.async_set_preset_mode, HotWater.async_set_temperature,
      HotWater.async_set_hvac_mode, HotWater.async_set_preset_mode;
    try (by apply debounce_async_sound);
    exec; try assumption;
    match goal with
    | |- context [after_submit ?j ?w0] =>
        pose proof (debounce_async_sound j w0 Hok) as Hx;
        fold (after_submit j w0) in Hx;
        destruct (after_submit_fields j w0) as (_ & _ & Hnow & _);
        unfold sound in *; fields; rewrite ?Hnow in *; exact Hx
    end.
Qed.

Section Timing.
Context `{RemehaHomeAPI}.

(** A sleeping task that is due runs when woken. *)
Lemma wake_fires (i : nat) (t : task) (w : World) :
  pool w !! i = Some t -> is_sleeping t = true -> t_due t <= now w ->
  wake i w =
  with_debounce (debounce_tasks w)
    (<[i := Task (t_key t) (t_job t) (t_due t)
                 (Finished (method_body (t_job t) w).1)]> (pool w))
    (with_api_log (api_log (method_body (t_job t) w).2) w).
Proof.
  intros Hi Hs Hdue. unfold wake. rewrite Hi. unfold is_sleeping in Hs.
  destruct (t_status t); try done. rewrite decide_True by done.
  pose proof (method_body_frame (t_job t) w) as Hf.
  destruct (method_body (t_job t) w) as [r w']. fields. rewrite Hf. fields.
  unfold set_status. by rewrite Hi.
Qed.

(** What [wake] leaves of the pool: the woken task may have finished, every
    other task is as it was. *)
Lemma wake_lookup (j i : nat) (w : World) (t' : task) :
  pool (wake j w) !! i = Some t' ->
  pool w !! i = Some t'
  \/ (i = j /\ exists t r, pool w !! i = Some t /\ is_sleeping t = true
                           /\ t_due t <= now w
                           /\ t' = Task (t_key t) (t_job t) (t_due t) (Finished r)).
Proof.
  destruct (wake_cases j w) as [-> | (t & Hj & Hs & Hdue & ->)]; [by left|].
  fields. intros [(-> & <- & _) | (Hne & Hi)]%list_lookup_insert_Some.
  - right. split; [done|]. by eexists _, _.
  - by left.
Qed.

Lemma wake_keeps_bounds (j : nat) (w : World) :
  table_ok (debounce_tasks w) (pool w) -> bounded (now w) (pool w) ->
  table_ok (debounce_tasks (wake j w)) (pool (wake j w))
  /\ bounded (now (wake j w)) (pool (wake j w)).
Proof.
  intros Ht Hb. destruct (wake_frame j w) as (_ & _ & Hnow & _ & Htab & _).
  rewrite Hnow, Htab. split.
  - intros k i Hk. destruct (Ht k i Hk) as (t & Hi & Hkey).
    destruct (wake_cases j w) as [-> | (t0 & Hj & _ & _ & ->)]; [by eexists|].
    fields. destruct (decide (i = j)) as [->|Hne].
    + assert (t0 = t) as -> by congruence.
      exists (Task (t_key t) (t_job t) (t_due t)
                   (Finished (method_body (t_job t) w).1)).
      split; [|exact Hkey].
      apply list_lookup_insert_eq. by eapply lookup_lt_Some.
    + exists t. by rewrite list_lookup_insert_ne.
  - intros i t' Hi.
    destruct (wake_lookup j i w t' Hi) as [Hi' | (_ & t & r & _ & _ & Hdue & ->)].
    + by apply (Hb i).
    + done.
Qed.

(** Waking task [j] leaves no other task overdue that was not, and task [j]
    itself is not overdue afterwards. *)
Lemma wake_settles (j i : nat) (w : World) :
  (i = j \/ forall t, pool w !! i = Some t -> is_sleeping t = true -> now w < t_due t) ->
  forall t, pool (wake j w) !! i = Some t -> is_sleeping t = true ->
            now (wake j w) < t_due t.
Proof.
  intros Hcase t' Hi Hs. destruct (wake_frame j w) as (_ & _ & -> & _).
  destruct (wake_lookup j i w t' Hi) as [Hi' | (_ & t & r & _ & _ & _ & ->)];
    [|done].
  destruct Hcase as [-> | Hq]; [|by apply Hq].
  destruct (decide (t_due t' <= now w)) as [Hdue|]; [|lia].
  rewrite (wake_fires j t' w Hi' Hs Hdue) in Hi. fields.
  rewrite list_lookup_insert_eq in Hi by (by eapply lookup_lt_Some).
  injection Hi as Hi. rewrite <- Hi in Hs. done.
Qed.

Lemma wake_all_settles (l : list nat) (w : World) (i : nat) :
  (i ∈ l \/ forall t, pool w !! i = Some t -> is_sleeping t = true -> now w < t_due t) ->
  let w' := foldl (fun w j => wake j w) w l in
  forall t, pool w' !! i = Some t -> is_sleeping t = true -> now w' < t_due t.
Proof.
  revert w. induction l as [|j l IH]; intros w Hcase; cbn [foldl].
  - destruct Hcase as [Hin | Hq]; [by apply elem_of_nil in Hin | exact Hq].
  - apply IH.
    destruct Hcase as [[-> | Hin]%elem_of_cons | Hq].
    + right. apply wake_settles. by left.
    + by left.
    + right. apply wake_settles. by right.
Qed.

Lemma wake_all_keeps_bounds (l : list nat) (w : World) :
  table_ok (debounce_tasks w) (pool w) -> bounded (now w) (pool w) ->
  let w' := foldl (fun w j => wake j w) w l in
  table_ok (debounce_tasks w') (pool w') /\ bounded (now w') (pool w').
Proof.
  revert w. induction l as [|j l IH]; intros w Ht Hb; cbn [foldl]; [done|].
  destruct (wake_keeps_bounds j w Ht Hb). by apply IH.
Qed.

Lemma elapse_sound (dt : N) (w : World) :
  sound w -> sound (elapse (Z.of_N dt) w).
Proof.
  intros (Hs & Ht & Hb & Hn). unfold elapse, run_until.
  set (w0 := with_now (now w + Z.of_N dt) w).
  assert (Hb0 : bounded (now w0) (pool w0)).
  { intros i t Hi. specialize (Hb i t Hi). subst w0. fields.
    destruct (t_status t); lia. }
  destruct (wake_all_keeps_bounds (seq 0 (length (pool w))) w0 Ht Hb0) as [Ht' Hb'].
  split_and!; try done.
  - by apply (wake_all_slots_ok _ w0).
  - intros i t Hi Hsl.
    apply (wake_all_settles (seq 0 (length (pool w))) w0 i); try done.
    left. apply elem_of_seq.
    destruct (wake_all_frame (seq 0 (length (pool w))) w0) as (_ & _ & _ & _ & _ & Hlen).
    apply lookup_lt_Some in Hi. cbv zeta in Hlen. rewrite Hlen in Hi.
    subst w0. fields. lia.
Qed.

Lemma run_sound (es : list event) (w : World) : sound w -> sound (run es w).
Proof.
  revert w. induction es as [|e es IH]; intros w Hok; [done|].
  cbn [run foldl]. apply IH. destruct e as [c|dt|snapshot]; cbn [step].
  - by apply execute_sound.
  - by apply elapse_sound.
  - unfold apply_poll. repeat case_match; done.
Qed.

Lemma new_entity_sound (zone : string) (d : gmap string value) (t : Z) :
  sound (new_entity zone d t).
Proof. split_and!; intros ? ?; done. Qed.

(** A task that sleeps after time has passed slept before. *)
Lemma wake_all_sleeping_old (l : list nat) (w : World) (i : nat) (t : task) :
  pool (foldl (fun w j => wake j w) w l) !! i = Some t -> is_sleeping t = true ->
  pool w !! i = Some t.
Proof.
  revert w. induction l as [|j l IH]; intros w Hi Hs; [done|].
  cbn [foldl] in Hi. specialize (IH _ Hi Hs).
  by destruct (wake_lookup j i w t IH) as [? | (_ & ? & ? & _ & _ & _ & ->)].
Qed.

(** X16. In every state an entity reaches from its creation in which no task
    is in the middle of its remote call (a fired method runs in one step
    here), submitting a debounced command cancels the sleeping task of the
    same method, if there is one. It leaves a task of any other method as it
    is, asleep or not, and it leaves a task that has finished or has been
    cancelled as it is. *)
Theorem submission_cancels_only_its_key
    (zone : string) (d : gmap string value) (t0 : Z) (es : list event)
    (j : job) (i : nat) (t : task) :
  let w := run es (new_entity zone d t0) in
  let p' := pool (debounce_async 5 j w).2 in
  pool w !! i = Some t ->
  (t_key t = method_name j -> is_sleeping t = true ->
   p' !! i = Some (cancelled t))
  /\ (t_key t <> method_name j -> p' !! i = Some t)
  /\ (is_sleeping t = false -> p' !! i = Some t).
Proof.
  cbv zeta. intros Hi.
  destruct (run_sound es _ (new_entity_sound zone d t0)) as (Hs & Ht & _).
  rewrite (debounce_async_old_tasks j _ i t Hs Ht Hi). unfold live.
  split_and!.
  - intros Hkey Hsl. by rewrite bool_decide_eq_true_2, Hsl.
  - intros Hkey. by rewrite bool_decide_eq_false_2.
  - intros Hsl. by rewrite Hsl, andb_false_r.
Qed.

(** X17. In every state an entity reaches from its creation, every sleeping
    task is due in the future and at most five seconds ahead, and every
    finished task was due in the past. Hence five seconds without a write are
    enough to have no task asleep. *)
Theorem debounce_timing
    (zone : string) (d : gmap string value) (t0 : Z) (es : list event) (dt : N) :
  let w := run es (new_entity zone d t0) in
  (forall i t, pool w !! i = Some t ->
     match t_status t with
     | Sleeping => now w < t_due t <= now w + 5
     | Finished _ => t_due t <= now w
     | Cancelled => True
     end)
  /\ ((5 <= dt)%N -> quiescent (pool (elapse (Z.of_N dt) w))).
Proof.
  cbv zeta. pose proof (run_sound es _ (new_entity_sound zone d t0)) as Hsound.
  set (w := run es (new_entity zone d t0)) in *. split.
  - destruct Hsound as (_ & _ & Hb & Hn). intros i t Hi.
    specialize (Hb i t Hi). specialize (Hn i t Hi). unfold is_sleeping in Hn.
    destruct (t_status t); try done. split; [by apply Hn | done].
  - intros Hdt. destruct (elapse_sound dt w Hsound) as (_ & _ & Hb' & Hn').
    apply Forall_lookup. intros i t Hi.
    destruct (is_sleeping t) eqn:Hsl; [exfalso|done].
    specialize (Hn' i t Hi Hsl).
    destruct Hsound as (_ & _ & Hb & _).
    destruct (elapse_frame (Z.of_N dt) w) as (_ & _ & Hnow & _).
    assert (Hold : pool w !! i = Some t).
    { unfold elapse, run_until in Hi.
      by apply (wake_all_sleeping_old _ _ _ _ Hi Hsl). }
    specialize (Hb i t Hold). unfold is_sleeping in Hsl.
    destruct (t_status t); try done. lia.
Qed.

End Timing.

Lemma submission_cancels_only_its_key_witness :
  let w := run (H := api_always_ok) one_write_pending (new_entity "z1" heat_zone 0) in
  let t := Task "set_temperature" (Climate_set_temperature (VFloat (Finite 21))) 5
             Sleeping in
  let fired := run (H := api_always_ok)
                 [Command (climate_set_temperature (Some (Finite 21))); Elapse 5]
                 (new_entity "z1" heat_zone 0) in
  let t' := Task "set_temperature" (Climate_set_temperature (VFloat (Finite 21))) 5
              (Finished (Ok tt)) in
  pool (debounce_async 5 (Climate_set_temperature (VFloat (Finite 22))) w).2 !! 0%nat
  = Some (cancelled t)
  /\ pool (debounce_async 5 (Climate_set_hvac_mode OFF) w).2 !! 0%nat = Some t
  /\ pool (debounce_async 5 (Climate_set_temperature (VFloat (Finite 22))) fired).2
       !! 0%nat
     = Some t'.
Proof.
  intros w t fired t'.
  assert (Hkey : t_key t <> method_name (Climate_set_hvac_mode OFF)) by discriminate.
  exact (conj
    (proj1 (submission_cancels_only_its_key (H := api_always_ok) "z1" heat_zone 0
              one_write_pending (Climate_set_temperature (VFloat (Finite 22))) 0 t
              eq_refl) eq_refl eq_refl)
    (conj
       (proj1 (proj2 (submission_cancels_only_its_key (H := api_always_ok) "z1"
                        heat_zone 0 one_write_pending (Climate_set_hvac_mode OFF) 0 t
                        eq_refl)) Hkey)
       (proj2 (proj2 (submission_cancels_only_its_key (H := api_always_ok) "z1"
                        heat_zone 0
                        [Command (climate_set_temperature (Some (Finite 21)));
                         Elapse 5]
                        (Climate_set_temperature (VFloat (Finite 22))) 0 t'
                        eq_refl)) eq_refl))).
Defined.

Lemma debounce_timing_witness :
  let w := run (H := api_always_ok) one_write_pending (new_entity "z1" heat_zone 0) in
  quiescent (pool (elapse (H := api_always_ok) 5 w)).
Proof.
  intros w.
  assert (Hdt : (5 <= 5)%N) by lia.
  exact (proj2 (debounce_timing (H := api_always_ok) "z1" heat_zone 0
                  one_write_pending 5) Hdt).
Defined.

(** ** Setting up the entities *)

Section SetupProperties.
Variable DOMAIN : string.

Lemma for_each_app {A B} (body : B -> A -> result B) (acc : B) (l1 l2 : list A) :
  for_each body acc (l1 ++ l2) =
  (acc' ← for_each body acc l1; for_each body acc' l2).
Proof.
  revert acc. induction l1 as [|x l1 IH]; intros acc; [done|].
  cbn [for_each app]. destruct (body acc x) as [acc'|e]; cbn; [apply IH | done].
Qed.

(** A loop whose body fails at some item, whatever it has collected, fails. *)
Lemma for_each_raises {A B} (body : B -> A -> result B) (acc : B) (items : list A)
    (x : A) :
  x ∈ items -> (forall acc, exists e, body acc x = Raise e) ->
  exists e, for_each body acc items = Raise e.
Proof.
  intros Hx Hbody. revert acc. induction items as [|y items IH]; intros acc.
  - by apply elem_of_nil in Hx.
  - cbn [for_each]. apply elem_of_cons in Hx as [<- | Hx].
    + destruct (Hbody acc) as [e ->]. by exists e.
    + destruct (body acc y) as [acc'|e]; cbn; [by apply IH | by exists e].
Qed.

(** A loop keeps what holds of everything collected, if its body does. *)
Lemma for_each_Forall {A C} (P : C -> Prop) (body : list C -> A -> result (list C))
    (acc : list C) (items : list A) (out : list C) :
  (forall acc x out, Forall P acc -> body acc x = Ok out -> Forall P out) ->
  Forall P acc -> for_each body acc items = Ok out -> Forall P out.
Proof.
  intros Hbody. revert acc. induction items as [|x items IH]; intros acc Hacc.
  - cbn. by intros [= <-].
  - cbn [for_each]. destruct (body acc x) as [acc'|e] eqn:Hb; cbn; [|done].
    apply IH. by eapply Hbody.
Qed.

Lemma append_zones_ok (cls : entity_class) (list_key id_key : string)
    (ids : list string) (entities : list entity) (a : json) :
  lists_zones list_key id_key ids a ->
  append_zones DOMAIN cls list_key id_key entities a
  = Ok (entities ++ (entity_for DOMAIN cls <$> ids)).
Proof.
  intros (zones & Hget & Hzones). unfold append_zones. rewrite Hget. cbn.
  clear Hget. revert entities. induction Hzones as [|id z ids zones Hz _ IH]; intros entities.
  - cbn. by rewrite app_nil_r.
  - cbn [for_each]. rewrite Hz. cbn. rewrite IH. by rewrite <- app_assoc.
Qed.

Lemma append_zones_raises (cls : entity_class) (list_key id_key : string)
    (entities : list entity) (a : json) (e : exn) :
  py_getitem a list_key = Raise e ->
  append_zones DOMAIN cls list_key id_key entities a = Raise e.
Proof. intros Hget. unfold append_zones. by rewrite Hget. Qed.

Lemma append_zones_Forall (P : entity -> Prop) (cls : entity_class)
    (list_key id_key : string) (entities out : list entity) (a : json) :
  (forall id, P (entity_for DOMAIN cls id)) ->
  Forall P entities ->
  append_zones DOMAIN cls list_key id_key entities a = Ok out -> Forall P out.
Proof.
  intros HP Hacc. unfold append_zones.
  destruct (py_getitem a list_key) as [zl|]; cbn; [|done].
  destruct (py_iter zl) as [zones|]; cbn; [|done].
  apply for_each_Forall; [|done].
  intros acc z out' Hacc'.
  destruct (py_getitem z id_key) as [zid|]; cbn; [|done].
  destruct zid; cbn; try done. intros [= <-].
  apply Forall_app. split; [done|]. repeat constructor. apply HP.
Qed.

(** X18. When every appliance of the coordinator data lists its climate
    zones and its hot-water zones, each with a string id, [async_setup_entry]
    of climate.py creates, appliance by appliance, one climate entity per
    climate zone followed by one hot-water entity per hot-water zone, in the
    order of the data; [async_setup_entry] of hot_water.py creates the
    hot-water entities alone, for the same zones. *)
Theorem setup_creates_entities (data : json) (apps : list json)
    (specs : list (list string * list string)) :
  py_getitem data "appliances" = Ok (JList apps) ->
  Forall2 appliance_has specs apps ->
  async_setup_entry DOMAIN data
  = Ok (flat_map (fun s => (entity_for DOMAIN RemehaHomeClimateEntity <$> s.1)
                           ++ (entity_for DOMAIN RemehaHomeHotWaterEntity <$> s.2))
                 specs)
  /\ legacy_async_setup_entry DOMAIN data
     = Ok (flat_map (fun s => entity_for DOMAIN RemehaHomeHotWaterEntity <$> s.2)
                    specs).
Proof.
  intros Hget Happs. unfold async_setup_entry, legacy_async_setup_entry.
  rewrite Hget. cbn [mbind result_bind py_iter].
  assert (Hgen : forall acc,
    for_each (fun entities appliance =>
                entities ← append_zones DOMAIN RemehaHomeClimateEntity
                             "climateZones" "climateZoneId" entities appliance;
                append_zones DOMAIN RemehaHomeHotWaterEntity
                             "hotWaterZones" "hotWaterZoneId" entities appliance)
             acc apps
    = Ok (acc ++ flat_map
                   (fun s => (entity_for DOMAIN RemehaHomeClimateEntity <$> s.1)
                             ++ (entity_for DOMAIN RemehaHomeHotWaterEntity <$> s.2))
                   specs)
    /\ for_each (append_zones DOMAIN RemehaHomeHotWaterEntity
                   "hotWaterZones" "hotWaterZoneId") acc apps
       = Ok (acc ++ flat_map
                      (fun s => entity_for DOMAIN RemehaHomeHotWaterEntity <$> s.2)
                      specs)).
  { clear Hget. induction Happs as [|s a specs apps [Hc Hh] _ IH]; intros acc.
    - cbn. by rewrite app_nil_r.
    - cbn [for_each flat_map].
      rewrite (append_zones_ok _ _ _ _ _ _ Hc). cbn [mbind result_bind].
      rewrite !(append_zones_ok _ _ _ _ _ _ Hh). cbn [mbind result_bind].
      destruct (IH ((acc ++ (entity_for DOMAIN RemehaHomeClimateEntity <$> s.1))
                      ++ (entity_for DOMAIN RemehaHomeHotWaterEntity <$> s.2)))
        as [-> _].
      destruct (IH (acc ++ (entity_for DOMAIN RemehaHomeHotWaterEntity <$> s.2)))
        as [_ ->].
      by rewrite <- !app_assoc. }
  destruct (Hgen []) as [-> ->]. done.
Qed.

(** X19. If one appliance of the coordinator data cannot be subscripted
    with [hotWaterZones], both setups raise and hand over no entity at all,
    also not those of the other appliances; if one cannot be subscripted with
    [climateZones], the setup of climate.py raises. *)
Theorem setup_needs_both_zone_lists (data : json) (apps : list json) (a : json)
    (e : exn) :
  py_getitem data "appliances" = Ok (JList apps) ->
  a ∈ apps ->
  (py_getitem a "hotWaterZones" = Raise e ->
   (exists e', async_setup_entry DOMAIN data = Raise e')
   /\ (exists e', legacy_async_setup_entry DOMAIN data = Raise e'))
  /\ (py_getitem a "climateZones" = Raise e ->
      exists e', async_setup_entry DOMAIN data = Raise e').
Proof.
  intros Hget Ha. unfold async_setup_entry, legacy_async_setup_entry.
  rewrite Hget. cbn [mbind result_bind py_iter]. split_and!.
  - intros Hh. split.
    + apply (for_each_raises _ _ _ a Ha). intros acc.
      destruct (append_zones DOMAIN RemehaHomeClimateEntity _ _ acc a) as [acc'|e1];
        cbn; [|by exists e1].
      exists e. by apply append_zones_raises.
    + apply (for_each_raises _ _ _ a Ha). intros acc.
      exists e. by apply append_zones_raises.
  - intros Hc. apply (for_each_raises _ _ _ a Ha). intros acc.
    rewrite (append_zones_raises _ _ _ _ _ _ Hc). by exists e.
Qed.

Lemma append_inj (prefix a b : string) :
  String.append prefix a = String.append prefix b -> a = b.
Proof. induction prefix as [|c prefix IH]; cbn; [done|]. intros [= Heq]. auto. Qed.

(** X20. Every entity either setup creates has the unique id
    [DOMAIN_zoneid]. Two created entities have the same unique id exactly when
    they have the same zone id, whatever their classes. *)
Theorem unique_id_of_zone_id (data : json) (entities : list entity)
    (e1 e2 : entity) :
  async_setup_entry DOMAIN data = Ok entities
  \/ legacy_async_setup_entry DOMAIN data = Ok entities ->
  e1 ∈ entities -> e2 ∈ entities ->
  e_unique_id e1 = String.append DOMAIN (String.append "_" (e_zone_id e1))
  /\ (e_unique_id e1 = e_unique_id e2 <-> e_zone_id e1 = e_zone_id e2).
Proof.
  intros Hsetup H1 H2.
  set (P := fun e : entity =>
              e_unique_id e = String.append DOMAIN (String.append "_" (e_zone_id e))).
  assert (Hall : Forall P entities).
  { destruct Hsetup as [Hsetup | Hsetup];
      unfold async_setup_entry, legacy_async_setup_entry in Hsetup;
      destruct (py_getitem data "appliances") as [al|]; cbn in Hsetup; try done;
      destruct (py_iter al) as [apps|]; cbn in Hsetup; try done;
      revert Hsetup; apply for_each_Forall; try done.
    - intros acc a out Hacc.
      destruct (append_zones DOMAIN RemehaHomeClimateEntity _ _ acc a)
        as [acc'|] eqn:Hc; cbn; [|done].
      apply (append_zones_Forall P); [done|].
      by apply (append_zones_Forall P _ _ _ _ _ _ (fun _ => eq_refl) Hacc Hc).
    - intros acc a out Hacc. by apply (append_zones_Forall P). }
  pose proof (proj1 (Forall_forall _ _) Hall e1 H1) as Hp1.
  pose proof (proj1 (Forall_forall _ _) Hall e2 H2) as Hp2.
  unfold P in *. split; [done|]. rewrite Hp1, Hp2. split.
  - intros Heq. apply append_inj in Heq. by apply append_inj in Heq.
  - by intros ->.
Qed.

End SetupProperties.

Lemma setup_creates_entities_witness :
  async_setup_entry "remeha_home" one_boiler
  = Ok [ Entity RemehaHomeClimateEntity "c1" "remeha_home_c1";
         Entity RemehaHomeHotWaterEntity "h1" "remeha_home_h1" ]
  /\ legacy_async_setup_entry "remeha_home" one_boiler
     = Ok [ Entity RemehaHomeHotWaterEntity "h1" "remeha_home_h1" ].
Proof.
  assert (Hc : lists_zones "climateZones" "climateZoneId" ["c1"] boiler).
  { eexists. split; [reflexivity|]. repeat constructor. }
  assert (Hh : lists_zones "hotWaterZones" "hotWaterZoneId" ["h1"] boiler).
  { eexists. split; [reflexivity|]. repeat constructor. }
  assert (Happs : Forall2 appliance_has [(["c1"], ["h1"])] [boiler]).
  { constructor; [exact (conj Hc Hh) | constructor]. }
  exact (setup_creates_entities "remeha_home" one_boiler [boiler]
           [(["c1"], ["h1"])] eq_refl Happs).
Defined.

Lemma setup_needs_both_zone_lists_witness :
  (exists e, async_setup_entry "remeha_home" two_boilers = Raise e)
  /\ (exists e, legacy_async_setup_entry "remeha_home" two_boilers = Raise e).
Proof.
  assert (Ha : boiler_without_hot_water ∈ [boiler; boiler_without_hot_water])
    by (apply elem_of_cons; right; apply elem_of_cons; by left).
  exact (proj1 (setup_needs_both_zone_lists "remeha_home" two_boilers
                  [boiler; boiler_without_hot_water] boiler_without_hot_water
                  KeyError eq_refl Ha) eq_refl).
Defined.

Lemma unique_id_of_zone_id_witness :
  let climate := Entity RemehaHomeClimateEntity "c1" "remeha_home_c1" in
  let hot_water := Entity RemehaHomeHotWaterEntity "h1" "remeha_home_h1" in
  e_unique_id climate = "remeha_home_c1"
  /\ (e_unique_id climate = e_unique_id hot_water
      <-> e_zone_id climate = e_zone_id hot_water).
Proof.
  intros climate hot_water.
  assert (H1 : climate ∈ [climate; hot_water]) by (apply elem_of_cons; by left).
  assert (H2 : hot_water ∈ [climate; hot_water])
    by (apply elem_of_cons; right; apply elem_of_cons; by left).
  exact (unique_id_of_zone_id "remeha_home" one_boiler [climate; hot_water]
           climate hot_water (or_introl eq_refl) H1 H2).
Defined.
